(** * toga_iOS.container: the iOS container classes

    A shallow embedding of [iOS/src/toga_iOS/container.py] and the proofs of
    its specification.

    The module is object-oriented Python over the Objective-C bridge, so the
    embedding is a small object store:
    - Python objects are heap cells carrying a class tag and an instance
      dictionary ([gmap string value]); attribute reads that miss the
      dictionary raise [AttributeError], as in Python;
    - the UIKit objects the module touches ([UIView], [UIViewController],
      [UINavigationController]) are heap cells of their own, with the
      properties the module reads and writes as record fields;
    - geometry is IEEE binary64 ([PrimFloat]), which is what the bridge hands
      to Python for a [CGFloat];
    - every operation is a function [state -> outcome], so that aliasing,
      exceptions and the absence of hidden state are all visible; an outcome
      is a return, a Python exception, or [Unmodelled] where the store is
      not of the shape Python could have produced from the documented
      argument types (a dangling reference, a view where a widget should
      be). *)

From Stdlib Require Import ZArith PrimFloat.
From stdpp Require Import gmap strings list fin_maps.

Local Open Scope string_scope.

(** ** Values and objects *)

Abbreviation loc := positive.

(** Python values that can reach the module: [None], numbers, strings,
    callables defined elsewhere, and references to heap objects. *)
Inductive value :=
| VNone
| VInt (z : Z)
| VFloat (f : float)
| VStr (s : string)
| VCallable (k : nat)
| VRef (l : loc).

(** The classes of the module, in source order. *)
Inductive cls :=
| KBaseContainer
| KContainer
| KControlledContainer
| KRootContainer
| KNavigationContainer.

#[global] Instance cls_eq_dec : EqDecision cls.
Proof. solve_decision. Defined.

(** Modelled from the spec: the widget implementation classes (the "content
    widget" the container holds a reference to) are not part of this module,
    which only tests a widget for truth and assigns its [container]
    attribute.  An instance of a class defined elsewhere is therefore a plain
    attribute dictionary together with the truth value its class gives it;
    an instance of one of the module's own classes carries that class. *)
Inductive pyclass :=
| Toga (k : cls)
| Foreign (truth : bool).

(** CoreGraphics structures, as the bridge exposes them. *)
Record CGPoint := { pt_x : float; pt_y : float }.
Record CGSize := { sz_width : float; sz_height : float }.
Record CGRect := { origin : CGPoint; size : CGSize }.

Definition CGRectZero : CGRect :=
  {| origin := {| pt_x := 0; pt_y := 0 |};
     size := {| sz_width := 0; sz_height := 0 |} |}.

(** Modelled from the spec: the UIKit classes are declared in [.libs], which
    is not part of this module; the spec names what the module takes from
    them (the view hierarchy, the status bar height, the navigation bar
    height).  Each UIKit object is a record of the properties the module
    reads or writes. *)
Record UIView_t := {
  bounds : CGRect;
  translatesAutoresizingMaskIntoConstraints : bool;
  autoresizingMask : Z
}.

Record UIViewController_t := {
  view : value;
  vc_title : value
}.

(** [viewControllers] is the navigation stack, root first; [navigationBar]
    is kept as the frame of the bar. *)
Record UINavigationController_t := {
  viewControllers : list loc;
  navigationBar_frame : CGRect
}.

Inductive object :=
| PyObject (c : pyclass) (d : gmap string value)
| UIView (v : UIView_t)
| UIViewController (vc : UIViewController_t)
| UINavigationController (nc : UINavigationController_t).

(** ** Program state

    [statusBarFrame] is [UIApplication.sharedApplication.statusBarFrame];
    [calls] records every call the module makes into a Python callable, in
    order, with its arguments. *)
Record state := {
  heap : gmap loc object;
  statusBarFrame : CGRect;
  calls : list (nat * list value)
}.

Definition with_heap (h : gmap loc object) (s : state) : state :=
  {| heap := h; statusBarFrame := statusBarFrame s; calls := calls s |}.

Definition with_statusBarFrame (r : CGRect) (s : state) : state :=
  {| heap := heap s; statusBarFrame := r; calls := calls s |}.

Definition log_call (k : nat) (args : list value) (s : state) : state :=
  {| heap := heap s; statusBarFrame := statusBarFrame s;
     calls := calls s ++ [(k, args)] |}.

(** ** Outcomes and the monad of operations *)

Inductive exn :=
| AttributeError
| TypeError
| Exception (code : nat).

(** An operation returns, raises (the store keeps the writes made before the
    raise), or leaves the part of Python this embedding describes. *)
Inductive outcome (A : Type) :=
| Ok (a : A) (s : state)
| Raise (e : exn) (s : state)
| Unmodelled.

Arguments Ok {A} a s.
Arguments Raise {A} e s.
Arguments Unmodelled {A}.

Definition M (A : Type) : Type := state -> outcome A.

Definition ret {A} (a : A) : M A := fun s => Ok a s.

Definition bind {A B} (m : M A) (f : A -> M B) : M B :=
  fun s =>
    match m s with
    | Ok a s' => f a s'
    | Raise e s' => Raise e s'
    | Unmodelled => Unmodelled
    end.

Definition raise {A} (e : exn) : M A := fun s => Raise e s.
Definition unmodelled {A} : M A := fun _ => Unmodelled.

Declare Scope py_scope.
Delimit Scope py_scope with py.
Notation "x <- m ;; k" := (bind m (fun x => k))
  (at level 100, m at next level, right associativity) : py_scope.
Notation "m ;;; k" := (bind m (fun _ => k))
  (at level 100, right associativity) : py_scope.
Local Open Scope py_scope.

(** The runtime outside the module, taken as a parameter: what calling a
    foreign callable does, the [UIViewAutoresizing] flag values declared in
    [.libs], and the state UIKit gives to the objects it creates (a new view,
    the navigation bar of a new navigation controller). *)
Class Runtime := {
  call_callable : nat -> list value -> M value;
  FlexibleWidth : Z;
  FlexibleHeight : Z;
  initial_view : UIView_t;
  initial_navigationBar_frame : CGRect
}.

(** ** Primitive operations on the store *)

Definition lookup_obj (l : loc) : M object :=
  fun s => match heap s !! l with Some o => Ok o s | None => Unmodelled end.

Definition store_obj (l : loc) (o : object) : M unit :=
  fun s => Ok tt (with_heap (<[l := o]> (heap s)) s).

(** Allocation picks an address that is not in use. *)
Definition alloc (o : object) : M loc :=
  fun s =>
    let l := fresh (dom (heap s)) in
    Ok l (with_heap (<[l := o]> (heap s)) s).

(** [obj.name] where the class of [obj] defines no descriptor for [name]:
    the instance dictionary decides.  On [None], numbers and strings none of
    the names the module uses exists. *)
Definition load_attr (v : value) (name : string) : M value :=
  match v with
  | VRef l =>
      o <- lookup_obj l ;;
      match o with
      | PyObject _ d =>
          match d !! name with
          | Some x => ret x
          | None => raise AttributeError
          end
      | _ => unmodelled
      end
  | VNone | VInt _ | VFloat _ | VStr _ => raise AttributeError
  | VCallable _ => unmodelled
  end.

(** [obj.name = x], same proviso. *)
Definition store_attr (v : value) (name : string) (x : value) : M unit :=
  match v with
  | VRef l =>
      o <- lookup_obj l ;;
      match o with
      | PyObject c d => store_obj l (PyObject c (<[name := x]> d))
      | _ => unmodelled
      end
  | VNone | VInt _ | VFloat _ | VStr _ => raise AttributeError
  | VCallable _ => unmodelled
  end.

(** Python truth testing ([if v:]).  None of the module's classes defines
    [__bool__] or [__len__], so their instances are true; so are the bridged
    UIKit objects. *)
Definition truth (v : value) : M bool :=
  match v with
  | VNone => ret false
  | VInt z => ret (negb (z =? 0)%Z)
  | VFloat f => ret (negb (PrimFloat.eqb f 0))
  | VStr s => ret (negb (String.eqb s ""))
  | VCallable _ => ret true
  | VRef l =>
      o <- lookup_obj l ;;
      match o with
      | PyObject (Foreign b) _ => ret b
      | _ => ret true
      end
  end.

(** [f(args)]: calling [None], a number or a string is a [TypeError]; a
    foreign callable runs, and the call is recorded. *)
Definition call `{Runtime} (f : value) (args : list value) : M value :=
  match f with
  | VCallable k => fun s => call_callable k args (log_call k args s)
  | VNone | VInt _ | VFloat _ | VStr _ => raise TypeError
  | VRef _ => unmodelled
  end.

(** *** UIKit property access *)

(** [v.bounds.size] *)
Definition bounds_size (v : value) : M CGSize :=
  match v with
  | VRef l =>
      o <- lookup_obj l ;;
      match o with
      | UIView u => ret (size (bounds u))
      | _ => unmodelled
      end
  | VNone | VInt _ | VFloat _ | VStr _ => raise AttributeError
  | VCallable _ => unmodelled
  end.

(** [v.navigationBar.frame.size] *)
Definition navigationBar_frame_size (v : value) : M CGSize :=
  match v with
  | VRef l =>
      o <- lookup_obj l ;;
      match o with
      | UINavigationController nc => ret (size (navigationBar_frame nc))
      | _ => unmodelled
      end
  | VNone | VInt _ | VFloat _ | VStr _ => raise AttributeError
  | VCallable _ => unmodelled
  end.

(** [v.topViewController]: the top of the navigation stack, [None] (nil)
    when the stack is empty. *)
Definition topViewController (v : value) : M value :=
  match v with
  | VRef l =>
      o <- lookup_obj l ;;
      match o with
      | UINavigationController nc =>
          ret (match last (viewControllers nc) with
               | Some t => VRef t
               | None => VNone
               end)
      | _ => unmodelled
      end
  | VNone | VInt _ | VFloat _ | VStr _ => raise AttributeError
  | VCallable _ => unmodelled
  end.

(** [v.title] and [v.title = x] on a view controller.  The bridge's
    conversion between [str] and [NSString] is taken as the identity. *)
Definition vc_get_title (v : value) : M value :=
  match v with
  | VRef l =>
      o <- lookup_obj l ;;
      match o with
      | UIViewController vc => ret (vc_title vc)
      | _ => unmodelled
      end
  | VNone | VInt _ | VFloat _ | VStr _ => raise AttributeError
  | VCallable _ => unmodelled
  end.

Definition vc_set_title (v : value) (x : value) : M unit :=
  match v with
  | VRef l =>
      o <- lookup_obj l ;;
      match o with
      | UIViewController vc =>
          store_obj l (UIViewController {| view := view vc; vc_title := x |})
      | _ => unmodelled
      end
  | VNone | VInt _ | VFloat _ | VStr _ => raise AttributeError
  | VCallable _ => unmodelled
  end.

(** [v.view = x] on a view controller. *)
Definition vc_set_view (v : value) (x : value) : M unit :=
  match v with
  | VRef l =>
      o <- lookup_obj l ;;
      match o with
      | UIViewController vc =>
          store_obj l (UIViewController {| view := x; vc_title := vc_title vc |})
      | _ => unmodelled
      end
  | VNone | VInt _ | VFloat _ | VStr _ => raise AttributeError
  | VCallable _ => unmodelled
  end.

(** [UIApplication.sharedApplication.statusBarFrame.size] *)
Definition statusBarFrame_size : M CGSize :=
  fun s => Ok (size (statusBarFrame s)) s.

(** Python's binary [+] and [-] on the numbers the module meets.  Mixed
    int/float arithmetic does not occur in the module and is left out. *)
Definition py_add (a b : value) : M value :=
  match a, b with
  | VFloat x, VFloat y => ret (VFloat (x + y)%float)
  | VInt x, VInt y => ret (VInt (x + y))
  | VInt _, VFloat _ | VFloat _, VInt _ => unmodelled
  | VRef _, _ | _, VRef _ => unmodelled
  | _, _ => raise TypeError
  end.

Definition py_sub (a b : value) : M value :=
  match a, b with
  | VFloat x, VFloat y => ret (VFloat (x - y)%float)
  | VInt x, VInt y => ret (VInt (x - y))
  | VInt _, VFloat _ | VFloat _, VInt _ => unmodelled
  | VRef _, _ | _, VRef _ => unmodelled
  | _, _ => raise TypeError
  end.

(** ** The class table *)

(** [class K(B)]: the base of each class. *)
Definition base (k : cls) : option cls :=
  match k with
  | KBaseContainer => None
  | KContainer => Some KBaseContainer
  | KControlledContainer => Some KContainer
  | KRootContainer => Some KContainer
  | KNavigationContainer => Some KContainer
  end.

(** The names each class body defines. *)
Definition own (k : cls) : list string :=
  match k with
  | KBaseContainer => ["__init__"; "content"; "refreshed"]
  | KContainer => ["__init__"; "width"; "height"; "top_offset"]
  | KControlledContainer => ["__init__"]
  | KRootContainer => ["__init__"; "height"; "top_offset"; "title"]
  | KNavigationContainer => ["__init__"; "height"; "top_offset"; "title"]
  end.

(** Method resolution order: the class, then its bases (single inheritance).
    The fuel is the number of classes. *)
Fixpoint linearise (fuel : nat) (k : cls) : list cls :=
  match fuel with
  | O => []
  | S n => k :: match base k with
                | Some b => linearise n b
                | None => []
                end
  end.

Definition mro (k : cls) : list cls := linearise 5 k.

(** The class whose definition of [name] an instance of [k] uses. *)
Definition resolve (k : cls) (name : string) : option cls :=
  List.find (fun c => bool_decide (name ∈ own c)) (mro k).

Definition class_of (self : loc) : M pyclass :=
  o <- lookup_obj self ;;
  match o with
  | PyObject c _ => ret c
  | _ => unmodelled
  end.

(** ** BaseContainer *)

(** [BaseContainer.__init__(self, content=None, on_refresh=None)] *)
Definition BaseContainer_init (self : loc) (content on_refresh : value) : M unit :=
  store_attr (VRef self) "_content" content ;;;
  store_attr (VRef self) "on_refresh" on_refresh.

(** [BaseContainer.content] (getter) *)
Definition BaseContainer_content (self : loc) : M value :=
  load_attr (VRef self) "_content".

(** [self.content], through the class of [self]. *)
Definition self_content (self : loc) : M value :=
  c <- class_of self ;;
  match c with
  | Toga k =>
      match resolve k "content" with
      | Some KBaseContainer => BaseContainer_content self
      | Some _ => unmodelled
      | None => load_attr (VRef self) "content"
      end
  | Foreign _ => unmodelled
  end.

(** [BaseContainer.content] (setter) *)
Definition BaseContainer_content_setter (self : loc) (widget : value) : M unit :=
  old <- self_content self ;;
  t <- truth old ;;
  (if t then
     c <- load_attr (VRef self) "_content" ;;
     store_attr c "container" VNone
   else ret tt) ;;;
  store_attr (VRef self) "_content" widget ;;;
  tw <- truth widget ;;
  if tw then store_attr widget "container" (VRef self) else ret tt.

(** [BaseContainer.refreshed] *)
Definition BaseContainer_refreshed `{Runtime} (self : loc) : M value :=
  f <- load_attr (VRef self) "on_refresh" ;;
  call f [VRef self] ;;;
  ret VNone.

(** ** Container *)

(** [UIView.alloc().init()] *)
Definition UIView_alloc_init `{Runtime} : M loc :=
  alloc (UIView initial_view).

Definition set_translatesAutoresizingMaskIntoConstraints (v : value) (b : bool) : M unit :=
  match v with
  | VRef l =>
      o <- lookup_obj l ;;
      match o with
      | UIView u =>
          store_obj l (UIView {| bounds := bounds u;
                                 translatesAutoresizingMaskIntoConstraints := b;
                                 autoresizingMask := autoresizingMask u |})
      | _ => unmodelled
      end
  | _ => unmodelled
  end.

Definition set_autoresizingMask (v : value) (m : Z) : M unit :=
  match v with
  | VRef l =>
      o <- lookup_obj l ;;
      match o with
      | UIView u =>
          store_obj l (UIView {| bounds := bounds u;
                                 translatesAutoresizingMaskIntoConstraints :=
                                   translatesAutoresizingMaskIntoConstraints u;
                                 autoresizingMask := m |})
      | _ => unmodelled
      end
  | _ => unmodelled
  end.

(** [Container.__init__(self, content=None, layout_native=None, on_refresh=None)] *)
Definition Container_init `{Runtime} (self : loc)
    (content layout_native on_refresh : value) : M unit :=
  BaseContainer_init self content on_refresh ;;;
  v <- UIView_alloc_init ;;
  store_attr (VRef self) "native" (VRef v) ;;;
  n <- load_attr (VRef self) "native" ;;
  set_translatesAutoresizingMaskIntoConstraints n true ;;;
  n <- load_attr (VRef self) "native" ;;
  set_autoresizingMask n (Z.lor FlexibleWidth FlexibleHeight) ;;;
  match layout_native with
  | VNone =>
      n <- load_attr (VRef self) "native" ;;
      store_attr (VRef self) "layout_native" n
  | _ => store_attr (VRef self) "layout_native" layout_native
  end.

(** [Container.width] *)
Definition Container_width (self : loc) : M value :=
  ln <- load_attr (VRef self) "layout_native" ;;
  sz <- bounds_size ln ;;
  ret (VFloat (sz_width sz)).

(** [Container.height] *)
Definition Container_height (self : loc) : M value :=
  ln <- load_attr (VRef self) "layout_native" ;;
  sz <- bounds_size ln ;;
  ret (VFloat (sz_height sz)).

(** [Container.top_offset] *)
Definition Container_top_offset (self : loc) : M value :=
  ret (VInt 0).

(** ** ControlledContainer *)

(** [UIViewController.alloc().init()] *)
Definition UIViewController_alloc_init : M loc :=
  alloc (UIViewController {| view := VNone; vc_title := VNone |}).

(** [ControlledContainer.__init__].  In [self.controller.view = self.native]
    the right-hand side is evaluated first. *)
Definition ControlledContainer_init `{Runtime} (self : loc)
    (content layout_native on_refresh : value) : M unit :=
  Container_init self content layout_native on_refresh ;;;
  vc <- UIViewController_alloc_init ;;
  store_attr (VRef self) "controller" (VRef vc) ;;;
  n <- load_attr (VRef self) "native" ;;
  c <- load_attr (VRef self) "controller" ;;
  vc_set_view c n.

(** ** RootContainer *)

(** [RootContainer.__init__] *)
Definition RootContainer_init `{Runtime} (self : loc)
    (content layout_native on_refresh : value) : M unit :=
  Container_init self content layout_native on_refresh ;;;
  vc <- UIViewController_alloc_init ;;
  store_attr (VRef self) "controller" (VRef vc) ;;;
  n <- load_attr (VRef self) "native" ;;
  c <- load_attr (VRef self) "controller" ;;
  vc_set_view c n.

(** [RootContainer.top_offset] *)
Definition RootContainer_top_offset (self : loc) : M value :=
  sz <- statusBarFrame_size ;;
  ret (VFloat (sz_height sz)).

(** [RootContainer.title] (getter and setter) *)
Definition RootContainer_title (self : loc) : M value :=
  load_attr (VRef self) "_title".

Definition RootContainer_title_setter (self : loc) (v : value) : M unit :=
  store_attr (VRef self) "_title" v.

(** ** NavigationContainer *)

(** [UINavigationController.alloc().initWithRootViewController(root)] *)
Definition UINavigationController_initWithRootViewController `{Runtime}
    (root : value) : M loc :=
  match root with
  | VRef l =>
      alloc (UINavigationController
               {| viewControllers := [l];
                  navigationBar_frame := initial_navigationBar_frame |})
  | _ => unmodelled
  end.

(** [NavigationContainer.__init__] *)
Definition NavigationContainer_init `{Runtime} (self : loc)
    (content layout_native on_refresh : value) : M unit :=
  Container_init self content layout_native on_refresh ;;;
  vc <- UIViewController_alloc_init ;;
  store_attr (VRef self) "content_controller" (VRef vc) ;;;
  cc <- load_attr (VRef self) "content_controller" ;;
  nc <- UINavigationController_initWithRootViewController cc ;;
  store_attr (VRef self) "controller" (VRef nc) ;;;
  n <- load_attr (VRef self) "native" ;;
  cc <- load_attr (VRef self) "content_controller" ;;
  vc_set_view cc n.

(** [NavigationContainer.top_offset] *)
Definition NavigationContainer_top_offset (self : loc) : M value :=
  sb <- statusBarFrame_size ;;
  c <- load_attr (VRef self) "controller" ;;
  nb <- navigationBar_frame_size c ;;
  py_add (VFloat (sz_height sb)) (VFloat (sz_height nb)).

(** [NavigationContainer.title] (getter and setter) *)
Definition NavigationContainer_title (self : loc) : M value :=
  c <- load_attr (VRef self) "controller" ;;
  t <- topViewController c ;;
  vc_get_title t.

Definition NavigationContainer_title_setter (self : loc) (v : value) : M unit :=
  c <- load_attr (VRef self) "controller" ;;
  t <- topViewController c ;;
  vc_set_title t v.

(** [self.top_offset], through the class of [self]. *)
Definition self_top_offset (self : loc) : M value :=
  c <- class_of self ;;
  match c with
  | Toga k =>
      match resolve k "top_offset" with
      | Some KContainer => Container_top_offset self
      | Some KRootContainer => RootContainer_top_offset self
      | Some KNavigationContainer => NavigationContainer_top_offset self
      | Some _ => unmodelled
      | None => load_attr (VRef self) "top_offset"
      end
  | Foreign _ => unmodelled
  end.

(** [RootContainer.height] *)
Definition RootContainer_height (self : loc) : M value :=
  ln <- load_attr (VRef self) "layout_native" ;;
  sz <- bounds_size ln ;;
  off <- self_top_offset self ;;
  py_sub (VFloat (sz_height sz)) off.

(** [NavigationContainer.height] *)
Definition NavigationContainer_height (self : loc) : M value :=
  ln <- load_attr (VRef self) "layout_native" ;;
  sz <- bounds_size ln ;;
  off <- self_top_offset self ;;
  py_sub (VFloat (sz_height sz)) off.

(** ** Attribute access on instances of the module's classes *)

(** What a class body binds a name to: a plain function, or a property with
    its getter and (when there is one) its setter. *)
Inductive member :=
| Method
| Property (fget : loc -> M value) (fset : option (loc -> value -> M unit)).

Definition members (k : cls) : list (string * member) :=
  match k with
  | KBaseContainer =>
      [("__init__", Method);
       ("content", Property BaseContainer_content (Some BaseContainer_content_setter));
       ("refreshed", Method)]
  | KContainer =>
      [("__init__", Method);
       ("width", Property Container_width None);
       ("height", Property Container_height None);
       ("top_offset", Property Container_top_offset None)]
  | KControlledContainer =>
      [("__init__", Method)]
  | KRootContainer =>
      [("__init__", Method);
       ("height", Property RootContainer_height None);
       ("top_offset", Property RootContainer_top_offset None);
       ("title", Property RootContainer_title (Some RootContainer_title_setter))]
  | KNavigationContainer =>
      [("__init__", Method);
       ("height", Property NavigationContainer_height None);
       ("top_offset", Property NavigationContainer_top_offset None);
       ("title", Property NavigationContainer_title
                   (Some NavigationContainer_title_setter))]
  end.

Definition member_of (k : cls) (name : string) : option member :=
  snd <$> List.find (fun p => String.eqb (fst p) name) (members k).

(** The class attribute that [name] denotes on an instance of [k]. *)
Definition class_attr (k : cls) (name : string) : option member :=
  match resolve k name with
  | Some owner => member_of owner name
  | None => None
  end.

(** [self.name]: a property of the class runs its getter, anything else is
    looked up in the instance dictionary.  (Reading a method gives a bound
    method object, which is not a value of this embedding.) *)
Definition getattr (self : loc) (name : string) : M value :=
  c <- class_of self ;;
  match c with
  | Toga k =>
      match class_attr k name with
      | Some (Property fget _) => fget self
      | Some Method => unmodelled
      | None => load_attr (VRef self) name
      end
  | Foreign _ => load_attr (VRef self) name
  end.

(** [self.name = v]: a property runs its setter, and raises when it has
    none; anything else is stored in the instance dictionary. *)
Definition setattr (self : loc) (name : string) (v : value) : M unit :=
  c <- class_of self ;;
  match c with
  | Toga k =>
      match class_attr k name with
      | Some (Property _ (Some fset)) => fset self v
      | Some (Property _ None) => raise AttributeError
      | Some Method | None => store_attr (VRef self) name v
      end
  | Foreign _ => store_attr (VRef self) name v
  end.

(** [self.refreshed()] *)
Definition refreshed `{Runtime} (self : loc) : M value :=
  c <- class_of self ;;
  match c with
  | Toga k =>
      match resolve k "refreshed" with
      | Some KBaseContainer => BaseContainer_refreshed self
      | Some _ => unmodelled
      | None =>
          f <- load_attr (VRef self) "refreshed" ;;
          call f []
      end
  | Foreign _ => unmodelled
  end.

(** [K(content, layout_native, on_refresh)]: a new instance of class [k],
    initialised by the [__init__] the class resolves to.  [BaseContainer]
    takes no [layout_native]. *)
Definition new `{Runtime} (k : cls) (content layout_native on_refresh : value) : M loc :=
  self <- alloc (PyObject (Toga k) ∅) ;;
  match resolve k "__init__" with
  | Some KBaseContainer =>
      match layout_native with
      | VNone => BaseContainer_init self content on_refresh
      | _ => raise TypeError
      end
  | Some KContainer => Container_init self content layout_native on_refresh
  | Some KControlledContainer =>
      ControlledContainer_init self content layout_native on_refresh
  | Some KRootContainer => RootContainer_init self content layout_native on_refresh
  | Some KNavigationContainer =>
      NavigationContainer_init self content layout_native on_refresh
  | None => unmodelled
  end ;;;
  ret self.


(** * Specification vocabulary *)

(** ** Shapes of the store the statements talk about *)

(** [self] is an instance of class [k] with instance dictionary [d]. *)
Definition is_instance (s : state) (self : loc) (k : cls) (d : gmap string value) : Prop :=
  heap s !! self = Some (PyObject (Toga k) d).

(** [self.layout_native] is the view [l], whose current record is [u]. *)
Definition layout_view (s : state) (d : gmap string value) (l : loc) (u : UIView_t) : Prop :=
  d !! "layout_native" = Some (VRef l) ∧ heap s !! l = Some (UIView u).

(** [self.controller] is the navigation controller [c], currently [nc]. *)
Definition nav_controller (s : state) (d : gmap string value)
    (c : loc) (nc : UINavigationController_t) : Prop :=
  d !! "controller" = Some (VRef c) ∧ heap s !! c = Some (UINavigationController nc).

(** The top of the navigation stack is the view controller [t], currently [vc]. *)
Definition top_controller (s : state) (nc : UINavigationController_t)
    (t : loc) (vc : UIViewController_t) : Prop :=
  last (viewControllers nc) = Some t ∧ heap s !! t = Some (UIViewController vc).

(** [v] is [None] or a Python object that takes attribute assignments. *)
Definition widget_or_none (s : state) (v : value) : Prop :=
  v = VNone ∨ ∃ l c d, v = VRef l ∧ heap s !! l = Some (PyObject c d).

Definition status_height (s : state) : float := sz_height (size (statusBarFrame s)).
Definition bar_height (nc : UINavigationController_t) : float :=
  sz_height (size (navigationBar_frame nc)).
Definition view_width (u : UIView_t) : float := sz_width (size (bounds u)).
Definition view_height (u : UIView_t) : float := sz_height (size (bounds u)).

(** The four classes derived from [BaseContainer]. *)
Definition variant (k : cls) : Prop := k ≠ KBaseContainer.

(** An operation that, however it ends, leaves the whole store (every
    attribute of every object, the status bar, the call record) as it was. *)
Definition reads_only {A} (m : M A) : Prop :=
  ∀ s, match m s with
       | Ok _ s' | Raise _ s' => s' = s
       | Unmodelled => True
       end.

(** The platform replaces the record of the object at [l]. *)
Definition platform_update (l : loc) (o : object) (s : state) : state :=
  with_heap (<[l := o]> (heap s)) s.

(** *** The net effect of attribute stores on the heap *)

(** Whether a value is the reference to a given address is decidable (equality
    of arbitrary values is not needed, and floats have none to offer). *)
#[global] Instance value_is_ref_dec (v : value) (l : loc) : Decision (v = VRef l).
Proof.
  destruct v as [| | | | |l']; try (right; discriminate).
  destruct (decide (l' = l)) as [->|Hne]; [by left|].
  right. by intros [= ->].
Defined.

#[global] Instance ref_is_value_dec (l : loc) (v : value) : Decision (VRef l = v).
Proof.
  destruct (decide (v = VRef l)) as [->|Hne]; [by left|].
  right. by intros <-.
Defined.

(** [o.name = x] on the object record itself. *)
Definition set_attr_obj (name : string) (x : value) (o : object) : object :=
  match o with
  | PyObject c d => PyObject c (<[name := x]> d)
  | _ => o
  end.

(** The heap after [v.name = x], for [v] a reference to a Python object. *)
Definition heap_set_attr (v : value) (name : string) (x : value)
    (h : gmap loc object) : gmap loc object :=
  match v with
  | VRef l => alter (set_attr_obj name x) l h
  | _ => h
  end.

(** The instance dictionary entry [name] of [v], if there is one. *)
Definition heap_attr (h : gmap loc object) (v : value) (name : string) : option value :=
  match v with
  | VRef l =>
      match h !! l with
      | Some (PyObject _ d) => d !! name
      | _ => None
      end
  | _ => None
  end.

(** The truth value of [v] in heap [h]. *)
Definition truthy (h : gmap loc object) (v : value) : bool :=
  match v with
  | VNone => false
  | VInt z => negb (z =? 0)%Z
  | VFloat f => negb (PrimFloat.eqb f 0)
  | VStr s => negb (String.eqb s "")
  | VCallable _ => true
  | VRef l =>
      match h !! l with
      | Some (PyObject (Foreign b) _) => b
      | _ => true
      end
  end.

(** The heap after [self.content = w], written as the three stores the
    setter makes: unwire the old content if it is true, store the new one,
    wire the new one if it is true. *)
Definition unwire (old : value) (h : gmap loc object) : gmap loc object :=
  if truthy h old then heap_set_attr old "container" VNone h else h.

Definition store_content (self : loc) (old w : value) (h : gmap loc object) :
    gmap loc object :=
  heap_set_attr (VRef self) "_content" w (unwire old h).

Definition assign_content (self : loc) (w : value) (h : gmap loc object) : gmap loc object :=
  let old := default VNone (heap_attr h (VRef self) "_content") in
  let h2 := store_content self old w h in
  if truthy h2 w then heap_set_attr w "container" (VRef self) h2 else h2.

(** The view a container creates for itself. *)
Definition fresh_view `{Runtime} : UIView_t :=
  {| bounds := bounds initial_view;
     translatesAutoresizingMaskIntoConstraints := true;
     autoresizingMask := Z.lor FlexibleWidth FlexibleHeight |}.

(** The instance dictionary that [Container.__init__] leaves. *)
Definition Container_dict (d : gmap string value) (n : loc)
    (content layout_native on_refresh : value) : gmap string value :=
  <["layout_native" := match layout_native with VNone => VRef n | _ => layout_native end]>
    (<["native" := VRef n]>
       (<["on_refresh" := on_refresh]> (<["_content" := content]> d))).

(** What a constructor call [K(content, layout_native, on_refresh)] that
    turned [s] into [s'] has built: the instance [self] with dictionary [d]
    and its own view [n], both at addresses that were free, every older
    object left alone, and for a [NavigationContainer] the navigation
    controller over the content view controller. *)
Record constructed `{Runtime} (k : cls) (content layout_native on_refresh : value)
    (s s' : state) (self n : loc) (d : gmap string value) : Prop := {
  c_self_new : heap s !! self = None;
  c_native_new : heap s !! n = None;
  c_instance : is_instance s' self k d;
  c_view : heap s' !! n = Some (UIView fresh_view);
  c_content : d !! "_content" = Some content;
  c_on_refresh : d !! "on_refresh" = Some on_refresh;
  c_native : d !! "native" = Some (VRef n);
  c_layout : d !! "layout_native" =
               Some (match layout_native with VNone => VRef n | _ => layout_native end);
  c_title : d !! "_title" = None;
  c_old : ∀ l o, heap s !! l = Some o → heap s' !! l = Some o;
  c_status : statusBarFrame s' = statusBarFrame s;
  c_calls : calls s' = calls s;
  c_nav : k = KNavigationContainer →
          ∃ c t, nav_controller s' d c
                   {| viewControllers := [t];
                      navigationBar_frame := initial_navigationBar_frame |} ∧
                 heap s' !! t =
                   Some (UIViewController {| view := VRef n; vc_title := VNone |})
}.

(** The size hints of [self] are taken from a view whose record is [u]:
    [width] is its bounds width, and [height] its bounds height, less the
    top offset in the two classes that have one. *)
Definition size_hints_from (s : state) (self : loc) (k : cls) (u : UIView_t) : Prop :=
  getattr self "width" s = Ok (VFloat (view_width u)) s ∧
  (k = KContainer ∨ k = KControlledContainer →
   getattr self "height" s = Ok (VFloat (view_height u)) s) ∧
  (k = KRootContainer ∨ k = KNavigationContainer →
   ∃ off, getattr self "top_offset" s = Ok (VFloat off) s ∧
          getattr self "height" s = Ok (VFloat (view_height u - off)) s).

(** An operation that makes no call into a Python callable: however it
    ends, the call record is as it was. *)
Definition keeps_calls {A} (m : M A) : Prop :=
  ∀ s, match m s with
       | Ok _ s' | Raise _ s' => calls s' = calls s
       | Unmodelled => True
       end.

(** *** Sequences of public operations *)

Inductive op :=
| GetContent
| SetContent (w : value)
| Refreshed
| GetWidth
| GetHeight
| GetTopOffset
| GetTitle
| SetTitle (v : value).

(** One operation on the container [self]; an assignment yields [None]. *)
Definition run_op `{Runtime} (self : loc) (o : op) : M value :=
  match o with
  | GetContent => getattr self "content"
  | SetContent w => setattr self "content" w ;;; ret VNone
  | Refreshed => refreshed self
  | GetWidth => getattr self "width"
  | GetHeight => getattr self "height"
  | GetTopOffset => getattr self "top_offset"
  | GetTitle => getattr self "title"
  | SetTitle v => setattr self "title" v ;;; ret VNone
  end.

(** The operations in order; the first one that raises ends the sequence. *)
Fixpoint run_ops `{Runtime} (self : loc) (os : list op) : M (list value) :=
  match os with
  | [] => ret []
  | o :: os' =>
      v <- run_op self o ;;
      vs <- run_ops self os' ;;
      ret (v :: vs)
  end.

(** Where a title assigned to an instance of [k] ends up when the class
    keeps it on the instance: [RootContainer] has the [_title] attribute
    behind its property; [Container] and [ControlledContainer] have no
    [title] property, so the assignment makes a plain attribute. *)
Definition title_slot (k : cls) : string :=
  match k with
  | KRootContainer => "_title"
  | _ => "title"
  end.

(** The operations covered by the statement on raising: everything except
    [refreshed] (which depends on the callable); content assigned is [None]
    or a widget of the store [s0]; the title is read on a
    [NavigationContainer], or after it has been assigned. *)
Definition safe_op (s0 : state) (k : cls) (titled : bool) (o : op) : Prop :=
  match o with
  | SetContent w => widget_or_none s0 w
  | Refreshed => False
  | GetTitle => k = KNavigationContainer ∨ titled = true
  | _ => True
  end.

Definition titled_after (titled : bool) (o : op) : bool :=
  match o with
  | SetTitle _ => true
  | _ => titled
  end.

Fixpoint safe_ops (s0 : state) (k : cls) (titled : bool) (os : list op) : Prop :=
  match os with
  | [] => True
  | o :: os' => safe_op s0 k titled o ∧ safe_ops s0 k (titled_after titled o) os'
  end.

(** The Python objects of [s] are still there in [s'], with their classes. *)
Definition same_objects (s s' : state) : Prop :=
  ∀ l c d, heap s !! l = Some (PyObject c d) →
           ∃ d', heap s' !! l = Some (PyObject c d').

(** The shape of a container that the operations rely on and keep. *)
Definition usable (s : state) (self : loc) (k : cls) (f : value) (titled : bool) : Prop :=
  ∃ d, is_instance s self k d ∧
       d !! "on_refresh" = Some f ∧
       (∃ old, d !! "_content" = Some old ∧ widget_or_none s old) ∧
       (∃ l u, layout_view s d l u) ∧
       (k = KNavigationContainer →
        ∃ c nc t vc, nav_controller s d c nc ∧ top_controller s nc t vc) ∧
       (titled = true → k ≠ KNavigationContainer → is_Some (d !! title_slot k)).

(** *** The same container under another class *)

Definition set_class (k : cls) (o : object) : object :=
  match o with
  | PyObject _ d => PyObject (Toga k) d
  | _ => o
  end.

(** The store in which [self] is an instance of [k] instead, with the same
    instance dictionary. *)
Definition as_class (self : loc) (k : cls) (s : state) : state :=
  with_heap (alter (set_class k) self (heap s)) s.

(** The classes properly derived from [BaseContainer], in source order. *)
Definition variants : list cls :=
  [KContainer; KControlledContainer; KRootContainer; KNavigationContainer].

(** * A concrete runtime and store

    Used to run the definitions on explicit inputs: a 320x480 screen with a
    20 point status bar and a 44 point navigation bar, and two callables, of
    which number 0 returns [None] and the others raise. *)

Definition rect (x y w h : float) : CGRect :=
  {| origin := {| pt_x := x; pt_y := y |};
     size := {| sz_width := w; sz_height := h |} |}.

Definition demo_runtime : Runtime :=
  {| call_callable := fun k _ =>
       match k with
       | O => ret VNone
       | S _ => raise (Exception k)
       end;
     FlexibleWidth := Z.shiftl 1 1;
     FlexibleHeight := Z.shiftl 1 4;
     initial_view := {| bounds := CGRectZero;
                        translatesAutoresizingMaskIntoConstraints := true;
                        autoresizingMask := 0 |};
     initial_navigationBar_frame := rect 0 20 320 44 |}.

(** Three widgets (two true ones, and one of a class whose instances are
    false) and a view laid out by the platform. *)
Definition demo_widget : loc := 1%positive.
Definition demo_other_widget : loc := 2%positive.
Definition demo_empty_widget : loc := 3%positive.
Definition demo_scroll_view : loc := 4%positive.

Definition demo_start : state :=
  {| heap :=
       <[demo_widget := PyObject (Foreign true) ∅]>
         (<[demo_other_widget := PyObject (Foreign true) ∅]>
            (<[demo_empty_widget := PyObject (Foreign false) ∅]>
               (<[demo_scroll_view :=
                    UIView {| bounds := rect 0 0 300 1000;
                              translatesAutoresizingMaskIntoConstraints := true;
                              autoresizingMask := 18 |}]> ∅)));
     statusBarFrame := rect 0 0 320 20;
     calls := [] |}.

(** The store an outcome leaves, and the value it returns. *)
Definition state_after {A} (o : outcome A) : state :=
  match o with
  | Ok _ s | Raise _ s => s
  | Unmodelled => demo_start
  end.

Definition returned {A} (o : outcome A) : option A :=
  match o with
  | Ok a _ => Some a
  | _ => None
  end.

(** One container of each class, built by its constructor on [demo_start];
    each is allocated at the first free address, 5, and its view at 6. *)
Definition demo_self : loc := 5%positive.
Definition demo_native : loc := 6%positive.

Definition demo_new (k : cls) (content layout_native on_refresh : value) : state :=
  state_after (@new demo_runtime k content layout_native on_refresh demo_start).

(** The platform lays the container's own view out at 320x480. *)
Definition demo_laid_out (s : state) : state :=
  platform_update demo_native
    (UIView {| bounds := rect 0 0 320 480;
               translatesAutoresizingMaskIntoConstraints := true;
               autoresizingMask := 18 |}) s.

(** The instance dictionary and the class of the object at [l]. *)
Definition dict_at (s : state) (l : loc) : gmap string value :=
  match heap s !! l with
  | Some (PyObject _ d) => d
  | _ => ∅
  end.

Definition class_at (s : state) (l : loc) : pyclass :=
  match heap s !! l with
  | Some (PyObject c _) => c
  | _ => Foreign false
  end.

Definition view_at (s : state) (l : loc) : UIView_t :=
  match heap s !! l with
  | Some (UIView u) => u
  | _ => {| bounds := CGRectZero;
            translatesAutoresizingMaskIntoConstraints := false;
            autoresizingMask := 0 |}
  end.

Definition nav_at (s : state) (l : loc) : UINavigationController_t :=
  match heap s !! l with
  | Some (UINavigationController nc) => nc
  | _ => {| viewControllers := []; navigationBar_frame := CGRectZero |}
  end.

Definition vc_at (s : state) (l : loc) : UIViewController_t :=
  match heap s !! l with
  | Some (UIViewController vc) => vc
  | _ => {| view := VNone; vc_title := VNone |}
  end.

(** The containers the examples run on.  In [demo_navigation] the content
    view controller is at 7 and the navigation controller at 8. *)
Definition demo_container : state :=
  demo_laid_out (demo_new KContainer (VRef demo_widget) VNone (VCallable 0)).
Definition demo_root : state :=
  demo_laid_out (demo_new KRootContainer VNone VNone (VCallable 0)).
Definition demo_navigation : state :=
  demo_laid_out (demo_new KNavigationContainer VNone VNone (VCallable 0)).
Definition demo_content_controller : loc := 7%positive.
Definition demo_controller : loc := 8%positive.

(** The platform rotates the screen: the view becomes 480x320, and the
    status bar 480x32. *)
Definition demo_rotated_view : UIView_t :=
  {| bounds := rect 0 0 480 320;
     translatesAutoresizingMaskIntoConstraints := true;
     autoresizingMask := 18 |}.

(** *** The statements of the specification that the code does not meet,
    as they are worded *)

(** "After [content = w] the stored content is [w]; if the container held a
    true content widget [c] then [c.container] is [None] afterwards; if [w]
    is true then [w.container] is the container afterwards." *)
Definition content_assignment_as_worded (s : state) (self : loc) (w : value) : Prop :=
  ∀ old s',
    load_attr (VRef self) "_content" s = Ok old s →
    setattr self "content" w s = Ok tt s' →
    getattr self "content" s' = Ok w s' ∧
    (truth old s = Ok true s → load_attr old "container" s' = Ok VNone s') ∧
    (truth w s = Ok true s → load_attr w "container" s' = Ok (VRef self) s').

(** "Every call to the content getter and setter, [refreshed], [width],
    [height], [top_offset] and the title getter and setter that follows the
    construction of a container completes without raising." *)
Definition never_raises_as_worded `{Runtime} (k : cls)
    (content layout_native on_refresh : value) (s : state) (os : list op) : Prop :=
  ∀ self s',
    new k content layout_native on_refresh s = Ok self s' →
    ∃ vs s'', run_ops self os s' = Ok vs s''.

(** "For every container, calling [refreshed] invokes the [on_refresh]
    callback exactly once, within the call, with the container itself as the
    sole argument": when [refreshed] on a container that a constructor
    returned is over, the record of calls has grown by one entry, a call with
    the container as its only argument. *)
Definition refreshed_calls_once_as_worded `{Runtime} (k : cls)
    (content layout_native on_refresh : value) (s : state) : Prop :=
  ∀ self s',
    new k content layout_native on_refresh s = Ok self s' →
    match refreshed self s' with
    | Ok _ s'' | Raise _ s'' => ∃ f, calls s'' = (calls s' ++ [(f, [VRef self])])%list
    | Unmodelled => True
    end.

(** "For every [Container] (and subclass) constructed with
    [layout_native=None], [width] and [height] report the native view's own
    bounds": on the instance the constructor returns, whose [native] is the
    view [u], [width] is the bounds width of [u] and [height] its bounds
    height. *)
Definition size_is_native_bounds_as_worded `{Runtime} (k : cls)
    (content on_refresh : value) (s : state) : Prop :=
  ∀ self s' n u,
    new k content VNone on_refresh s = Ok self s' →
    load_attr (VRef self) "native" s' = Ok (VRef n) s' →
    heap s' !! n = Some (UIView u) →
    getattr self "width" s' = Ok (VFloat (view_width u)) s' ∧
    getattr self "height" s' = Ok (VFloat (view_height u)) s'.

(** "The variants are distinguished only by the native chrome they construct
    ([__init__]) and by how they compute the vertical offset ([top_offset],
    and with it [height])": any other name means the same definition on all
    of them. *)
Definition distinguished_only_by_chrome_and_offset : Prop :=
  ∀ k1 k2 name,
    k1 ∈ variants → k2 ∈ variants →
    name ∉ ["__init__"; "top_offset"; "height"] →
    resolve k1 name = resolve k2 name.

(** * Further vocabulary: constructors in closed form, frames *)

(** The addresses a constructor takes from a heap [h], in the order it
    allocates: the instance, its view, the view controller, and (for a
    [NavigationContainer]) the navigation controller. *)
Definition new_self (h : gmap loc object) : loc := fresh (dom h).
Definition new_native (h : gmap loc object) : loc := fresh ({[new_self h]} ∪ dom h).
Definition new_view_controller (h : gmap loc object) : loc :=
  fresh ({[new_native h]} ∪ ({[new_self h]} ∪ dom h)).
Definition new_navigation_controller (h : gmap loc object) : loc :=
  fresh ({[new_view_controller h]} ∪ ({[new_native h]} ∪ ({[new_self h]} ∪ dom h))).

(** The heap a constructor of a variant leaves. *)
Definition new_heap `{Runtime} (k : cls) (content layout_native on_refresh : value)
    (h : gmap loc object) : gmap loc object :=
  let self := new_self h in
  let n := new_native h in
  let t := new_view_controller h in
  let nc := new_navigation_controller h in
  let d := Container_dict ∅ n content layout_native on_refresh in
  let vc := UIViewController {| view := VRef n; vc_title := VNone |} in
  match k with
  | KBaseContainer => h
  | KContainer =>
      <[self := PyObject (Toga k) d]> (<[n := UIView fresh_view]> h)
  | KControlledContainer | KRootContainer =>
      <[self := PyObject (Toga k) (<["controller" := VRef t]> d)]>
        (<[t := vc]> (<[n := UIView fresh_view]> h))
  | KNavigationContainer =>
      <[self := PyObject (Toga k)
                  (<["controller" := VRef nc]> (<["content_controller" := VRef t]> d))]>
        (<[nc := UINavigationController
                   {| viewControllers := [t];
                      navigationBar_frame := initial_navigationBar_frame |}]>
           (<[t := vc]> (<[n := UIView fresh_view]> h)))
  end.

(** The instance dictionary a variant's constructor leaves. *)
Definition new_dict (k : cls) (content ln f : value) (h : gmap loc object) :
    gmap string value :=
  let d := Container_dict ∅ (new_native h) content ln f in
  match k with
  | KBaseContainer => ∅
  | KContainer => d
  | KControlledContainer | KRootContainer =>
      <["controller" := VRef (new_view_controller h)]> d
  | KNavigationContainer =>
      <["controller" := VRef (new_navigation_controller h)]>
        (<["content_controller" := VRef (new_view_controller h)]> d)
  end.

(** A number or a string: a value that has a truth value but takes no
    attribute assignment. *)
Definition scalar (v : value) : Prop :=
  match v with
  | VInt _ | VFloat _ | VStr _ => True
  | _ => False
  end.

(** What kind of object an address holds; a Python object counts with its
    class. *)
Inductive kind :=
| KindPy (c : pyclass)
| KindView
| KindViewController
| KindNavigationController.

Definition kind_of (o : object) : kind :=
  match o with
  | PyObject c _ => KindPy c
  | UIView _ => KindView
  | UIViewController _ => KindViewController
  | UINavigationController _ => KindNavigationController
  end.

(** An operation that neither creates nor deletes nor replaces an object, and
    leaves the status bar frame alone: however it ends, every address holds
    the kind of object it held. *)
Definition keeps_objects {A} (m : M A) : Prop :=
  ∀ s, match m s with
       | Ok _ s' | Raise _ s' =>
           statusBarFrame s' = statusBarFrame s ∧
           ∀ l, kind_of <$> heap s' !! l = kind_of <$> heap s !! l
       | Unmodelled => True
       end.

(** Two object slots that agree except for the dictionary entries in [ks]
    and, when [vt] is set, the title of a view controller. *)
Definition slot_agrees (ks : list string) (vt : bool) (o o' : option object) : Prop :=
  match o, o' with
  | None, None => True
  | Some (PyObject c d), Some (PyObject c' d') =>
      c = c' ∧ ∀ n, n ∉ ks → d' !! n = d !! n
  | Some (UIViewController vc), Some (UIViewController vc') =>
      view vc' = view vc ∧ (vt = false → vc_title vc' = vc_title vc)
  | Some (UIView u), Some (UIView u') => u' = u
  | Some (UINavigationController nc), Some (UINavigationController nc') => nc' = nc
  | _, _ => False
  end.

(** Two stores that agree except for the entries [ks l] of the dictionary of
    each Python object [l] (and view controller titles, when [vt] is set). *)
Definition agrees_outside (ks : loc → list string) (vt : bool) (s s' : state) : Prop :=
  statusBarFrame s' = statusBarFrame s ∧
  ∀ l, slot_agrees (ks l) vt (heap s !! l) (heap s' !! l).

(** The entries that [self.content = w] may write: [_content] of the
    container, [container] of any object. *)
Definition content_writes (self : loc) (l : loc) : list string :=
  if decide (l = self) then ["_content"; "container"] else ["container"].

(** The entries that [self.title = v] may write on an instance of [k]. *)
Definition title_writes (k : cls) (self : loc) (l : loc) : list string :=
  if decide (l = self) then [title_slot k] else [].

(** A read that gives the same answer in the second store whenever it
    returns in the first. *)
Definition same_read {A} (m : M A) (s s' : state) : Prop :=
  ∀ a, m s = Ok a s → m s' = Ok a s'.

(** The instance dictionary entries that reading [name] on a container may
    consult (the last one is the entry of that name itself, which decides
    when the class has no such property). *)
Definition reads_of (name : string) : list string :=
  if String.eqb name "content" then ["_content"; "content"]
  else if String.eqb name "width" then ["layout_native"; "width"]
  else if String.eqb name "height" then ["layout_native"; "controller"; "top_offset"; "height"]
  else if String.eqb name "top_offset" then ["controller"; "top_offset"]
  else if String.eqb name "title" then ["_title"; "controller"; "title"]
  else [name].

(** [o.title = v] on the object record of a view controller. *)
Definition set_vc_title (v : value) (o : object) : object :=
  match o with
  | UIViewController vc => UIViewController {| view := view vc; vc_title := v |}
  | _ => o
  end.

(** Two containers in one store: a [Container] at 5 holding [demo_widget],
    and a [RootContainer] at 7. *)
Definition demo_pair : state :=
  state_after
    (@new demo_runtime KRootContainer VNone VNone (VCallable 0)
       (demo_new KContainer (VRef demo_widget) VNone (VCallable 0))).
Definition demo_second : loc := 7%positive.

(** * Verification *)

(** ** Running the primitives *)

Lemma bind_Ok {A B} (m : M A) (f : A → M B) s a s' :
  m s = Ok a s' → bind m f s = f a s'.
Proof. unfold bind. by intros ->. Qed.

Lemma lookup_obj_Some s l o :
  heap s !! l = Some o → lookup_obj l s = Ok o s.
Proof. unfold lookup_obj. by intros ->. Qed.

Lemma class_of_instance s self c d :
  heap s !! self = Some (PyObject c d) → class_of self s = Ok c s.
Proof. intros H. unfold class_of. by rewrite (bind_Ok _ _ _ _ _ (lookup_obj_Some _ _ _ H)). Qed.

Lemma load_attr_instance s l c d name :
  heap s !! l = Some (PyObject c d) →
  load_attr (VRef l) name s =
    match d !! name with Some x => Ok x s | None => Raise AttributeError s end.
Proof.
  intros H. unfold load_attr.
  rewrite (bind_Ok _ _ _ _ _ (lookup_obj_Some _ _ _ H)).
  by destruct (d !! name).
Qed.

Lemma load_attr_Some s l c d name x :
  heap s !! l = Some (PyObject c d) → d !! name = Some x →
  load_attr (VRef l) name s = Ok x s.
Proof. intros H Hx. by rewrite (load_attr_instance _ _ _ _ _ H), Hx. Qed.

Lemma store_attr_instance s l c d name x :
  heap s !! l = Some (PyObject c d) →
  store_attr (VRef l) name x s =
    Ok tt (with_heap (<[l := PyObject c (<[name := x]> d)]> (heap s)) s).
Proof.
  intros H. unfold store_attr.
  by rewrite (bind_Ok _ _ _ _ _ (lookup_obj_Some _ _ _ H)).
Qed.

Lemma bounds_size_view s l u :
  heap s !! l = Some (UIView u) → bounds_size (VRef l) s = Ok (size (bounds u)) s.
Proof.
  intros H. unfold bounds_size.
  by rewrite (bind_Ok _ _ _ _ _ (lookup_obj_Some _ _ _ H)).
Qed.

Lemma navigationBar_frame_size_nav s c nc :
  heap s !! c = Some (UINavigationController nc) →
  navigationBar_frame_size (VRef c) s = Ok (size (navigationBar_frame nc)) s.
Proof.
  intros H. unfold navigationBar_frame_size.
  by rewrite (bind_Ok _ _ _ _ _ (lookup_obj_Some _ _ _ H)).
Qed.

(** ** Method resolution on the class table *)

(** The two tables of the class bodies agree: the names a class defines are
    the names of its members. *)
Lemma own_members k : own k = (members k).*1.
Proof. by destruct k. Qed.

Lemma class_attr_content k :
  class_attr k "content" =
    Some (Property BaseContainer_content (Some BaseContainer_content_setter)).
Proof. by destruct k. Qed.

Lemma resolve_content k : resolve k "content" = Some KBaseContainer.
Proof. by destruct k. Qed.

Lemma resolve_refreshed k : resolve k "refreshed" = Some KBaseContainer.
Proof. by destruct k. Qed.

Lemma class_attr_width k :
  variant k → class_attr k "width" = Some (Property Container_width None).
Proof. by destruct k. Qed.

(** Reading a property of an instance runs the getter the class resolves to. *)
Lemma getattr_property s self k d name fget fset :
  is_instance s self k d →
  class_attr k name = Some (Property fget fset) →
  getattr self name s = fget self s.
Proof.
  intros H Hc. unfold getattr.
  rewrite (bind_Ok _ _ _ _ _ (class_of_instance _ _ _ _ H)). by rewrite Hc.
Qed.

Lemma self_top_offset_getattr s self k d :
  is_instance s self k d → variant k →
  self_top_offset self s = getattr self "top_offset" s.
Proof.
  intros H Hk. unfold self_top_offset, getattr.
  rewrite !(bind_Ok _ _ _ _ _ (class_of_instance _ _ _ _ H)).
  by destruct k.
Qed.

(** ** top_offset *)

Lemma NavigationContainer_top_offset_run s self k d c nc :
  is_instance s self k d → nav_controller s d c nc →
  NavigationContainer_top_offset self s =
    Ok (VFloat (status_height s + bar_height nc)) s.
Proof.
  intros H [Hc Hnc]. unfold NavigationContainer_top_offset.
  rewrite (bind_Ok _ _ s (size (statusBarFrame s)) s) by done.
  rewrite (bind_Ok _ _ _ _ _ (load_attr_Some _ _ _ _ _ _ H Hc)).
  by rewrite (bind_Ok _ _ _ _ _ (navigationBar_frame_size_nav _ _ _ Hnc)).
Qed.

Lemma getattr_top_offset_navigation s self d c nc :
  is_instance s self KNavigationContainer d → nav_controller s d c nc →
  getattr self "top_offset" s = Ok (VFloat (status_height s + bar_height nc)) s.
Proof.
  intros H Hn. rewrite (getattr_property _ _ _ _ "top_offset" _ _ H eq_refl).
  by eapply NavigationContainer_top_offset_run.
Qed.

Lemma getattr_top_offset_root s self d :
  is_instance s self KRootContainer d →
  getattr self "top_offset" s = Ok (VFloat (status_height s)) s.
Proof. intros H. by rewrite (getattr_property _ _ _ _ "top_offset" _ _ H eq_refl). Qed.

Lemma getattr_top_offset_plain s self k d :
  is_instance s self k d → k = KContainer ∨ k = KControlledContainer →
  getattr self "top_offset" s = Ok (VInt 0) s.
Proof.
  intros H [-> | ->];
    by rewrite (getattr_property _ _ _ _ "top_offset" _ _ H eq_refl).
Qed.

(** ** width and height *)

Lemma Container_width_run s self k d l u :
  is_instance s self k d → layout_view s d l u →
  Container_width self s = Ok (VFloat (view_width u)) s.
Proof.
  intros H [Hl Hu]. unfold Container_width.
  rewrite (bind_Ok _ _ _ _ _ (load_attr_Some _ _ _ _ _ _ H Hl)).
  by rewrite (bind_Ok _ _ _ _ _ (bounds_size_view _ _ _ Hu)).
Qed.

Lemma Container_height_run s self k d l u :
  is_instance s self k d → layout_view s d l u →
  Container_height self s = Ok (VFloat (view_height u)) s.
Proof.
  intros H [Hl Hu]. unfold Container_height.
  rewrite (bind_Ok _ _ _ _ _ (load_attr_Some _ _ _ _ _ _ H Hl)).
  by rewrite (bind_Ok _ _ _ _ _ (bounds_size_view _ _ _ Hu)).
Qed.

(** The two overriding [height] getters have the same body: the bounds
    height of [layout_native] minus whatever [self.top_offset] returns. *)
Lemma offset_height_run s self k d l u off :
  is_instance s self k d → variant k → layout_view s d l u →
  getattr self "top_offset" s = Ok (VFloat off) s →
  RootContainer_height self s = Ok (VFloat (view_height u - off)) s ∧
  NavigationContainer_height self s = Ok (VFloat (view_height u - off)) s.
Proof.
  intros H Hk [Hl Hu] Hoff.
  rewrite <- (self_top_offset_getattr _ _ _ _ H Hk) in Hoff.
  unfold RootContainer_height, NavigationContainer_height.
  rewrite !(bind_Ok _ _ _ _ _ (load_attr_Some _ _ _ _ _ _ H Hl)).
  rewrite !(bind_Ok _ _ _ _ _ (bounds_size_view _ _ _ Hu)).
  by rewrite !(bind_Ok _ _ _ _ _ Hoff).
Qed.

Lemma getattr_width s self k d l u :
  is_instance s self k d → variant k → layout_view s d l u →
  getattr self "width" s = Ok (VFloat (view_width u)) s.
Proof.
  intros H Hk Hv.
  rewrite (getattr_property _ _ _ _ "width" _ _ H (class_attr_width k Hk)).
  by eapply Container_width_run.
Qed.

Lemma getattr_height_offset s self k d l u off :
  k = KRootContainer ∨ k = KNavigationContainer →
  is_instance s self k d → layout_view s d l u →
  getattr self "top_offset" s = Ok (VFloat off) s →
  getattr self "height" s = Ok (VFloat (view_height u - off)) s.
Proof.
  intros Hk H Hv Hoff.
  assert (variant k) as Hvar by (by destruct Hk as [-> | ->]).
  destruct (offset_height_run _ _ _ _ _ _ _ H Hvar Hv Hoff) as [Hr Hn].
  destruct Hk as [-> | ->];
    by rewrite (getattr_property _ _ _ _ "height" _ _ H eq_refl).
Qed.

Lemma getattr_height_plain s self k d l u :
  k = KContainer ∨ k = KControlledContainer →
  is_instance s self k d → layout_view s d l u →
  getattr self "height" s = Ok (VFloat (view_height u)) s.
Proof.
  intros Hk H Hv.
  assert (class_attr k "height" = Some (Property Container_height None)) as Hc
    by (by destruct Hk as [-> | ->]).
  rewrite (getattr_property _ _ _ _ "height" _ _ H Hc).
  by eapply Container_height_run.
Qed.

(** ** title *)

Lemma heap_with_heap h s : heap (with_heap h s) = h.
Proof. done. Qed.

Lemma topViewController_nav s c nc :
  heap s !! c = Some (UINavigationController nc) →
  topViewController (VRef c) s =
    Ok (match last (viewControllers nc) with Some t => VRef t | None => VNone end) s.
Proof.
  intros H. unfold topViewController.
  by rewrite (bind_Ok _ _ _ _ _ (lookup_obj_Some _ _ _ H)).
Qed.

Lemma vc_get_title_run s t vc :
  heap s !! t = Some (UIViewController vc) →
  vc_get_title (VRef t) s = Ok (vc_title vc) s.
Proof.
  intros H. unfold vc_get_title.
  by rewrite (bind_Ok _ _ _ _ _ (lookup_obj_Some _ _ _ H)).
Qed.

Lemma vc_set_title_run s t vc x :
  heap s !! t = Some (UIViewController vc) →
  vc_set_title (VRef t) x s =
    Ok tt (with_heap (<[t := UIViewController {| view := view vc; vc_title := x |}]> (heap s)) s).
Proof.
  intros H. unfold vc_set_title.
  by rewrite (bind_Ok _ _ _ _ _ (lookup_obj_Some _ _ _ H)).
Qed.

Lemma NavigationContainer_title_run s self k d c nc t vc :
  is_instance s self k d → nav_controller s d c nc → top_controller s nc t vc →
  NavigationContainer_title self s = Ok (vc_title vc) s.
Proof.
  intros H [Hc Hnc] [Ht Hvc]. unfold NavigationContainer_title.
  rewrite (bind_Ok _ _ _ _ _ (load_attr_Some _ _ _ _ _ _ H Hc)).
  rewrite (bind_Ok _ _ _ _ _ (topViewController_nav _ _ _ Hnc)), Ht.
  by apply vc_get_title_run.
Qed.

Lemma NavigationContainer_title_setter_run s self k d c nc t vc v :
  is_instance s self k d → nav_controller s d c nc → top_controller s nc t vc →
  NavigationContainer_title_setter self v s =
    Ok tt (with_heap (<[t := UIViewController {| view := view vc; vc_title := v |}]> (heap s)) s).
Proof.
  intros H [Hc Hnc] [Ht Hvc]. unfold NavigationContainer_title_setter.
  rewrite (bind_Ok _ _ _ _ _ (load_attr_Some _ _ _ _ _ _ H Hc)).
  rewrite (bind_Ok _ _ _ _ _ (topViewController_nav _ _ _ Hnc)), Ht.
  by apply vc_set_title_run.
Qed.

(** Writing a property of an instance runs the setter the class resolves to. *)
Lemma setattr_property s self k d name fget fset v :
  is_instance s self k d →
  class_attr k name = Some (Property fget (Some fset)) →
  setattr self name v s = fset self v s.
Proof.
  intros H Hc. unfold setattr.
  rewrite (bind_Ok _ _ _ _ _ (class_of_instance _ _ _ _ H)). by rewrite Hc.
Qed.


(** ** Reads do not write *)

Lemma reads_only_ret {A} (a : A) : reads_only (ret a).
Proof. by intros s. Qed.

Lemma reads_only_raise {A} e : reads_only (@raise A e).
Proof. by intros s. Qed.

Lemma reads_only_unmodelled {A} : reads_only (@unmodelled A).
Proof. by intros s. Qed.

Lemma reads_only_bind {A B} (m : M A) (f : A → M B) :
  reads_only m → (∀ a, reads_only (f a)) → reads_only (bind m f).
Proof.
  intros Hm Hf s. unfold bind. specialize (Hm s).
  destruct (m s) as [a s'| |]; subst; [apply Hf|done..].
Qed.

Lemma reads_only_lookup_obj l : reads_only (lookup_obj l).
Proof. intros s. unfold lookup_obj. by destruct (heap s !! l). Qed.

Create HintDb reads discriminated.
#[local] Hint Resolve reads_only_ret reads_only_raise reads_only_unmodelled
  reads_only_lookup_obj : reads.

Ltac reads_only_tac :=
  repeat first
    [ apply reads_only_bind; [|intros ?]
    | progress eauto with reads
    | match goal with |- reads_only (match ?x with _ => _ end) => destruct x end ].

Lemma reads_only_load_attr v name : reads_only (load_attr v name).
Proof. unfold load_attr. destruct v; reads_only_tac. Qed.

Lemma reads_only_class_of self : reads_only (class_of self).
Proof. unfold class_of. reads_only_tac. Qed.

Lemma reads_only_bounds_size v : reads_only (bounds_size v).
Proof. unfold bounds_size. destruct v; reads_only_tac. Qed.

Lemma reads_only_navigationBar_frame_size v : reads_only (navigationBar_frame_size v).
Proof. unfold navigationBar_frame_size. destruct v; reads_only_tac. Qed.

Lemma reads_only_topViewController v : reads_only (topViewController v).
Proof. unfold topViewController. destruct v; reads_only_tac. Qed.

Lemma reads_only_vc_get_title v : reads_only (vc_get_title v).
Proof. unfold vc_get_title. destruct v; reads_only_tac. Qed.

Lemma reads_only_statusBarFrame_size : reads_only statusBarFrame_size.
Proof. by intros s. Qed.

Lemma reads_only_py_add a b : reads_only (py_add a b).
Proof. unfold py_add. destruct a, b; reads_only_tac. Qed.

Lemma reads_only_py_sub a b : reads_only (py_sub a b).
Proof. unfold py_sub. destruct a, b; reads_only_tac. Qed.

#[local] Hint Resolve reads_only_load_attr reads_only_class_of reads_only_bounds_size
  reads_only_navigationBar_frame_size reads_only_topViewController
  reads_only_vc_get_title reads_only_statusBarFrame_size
  reads_only_py_add reads_only_py_sub : reads.

Lemma reads_only_BaseContainer_content self : reads_only (BaseContainer_content self).
Proof. unfold BaseContainer_content. reads_only_tac. Qed.

Lemma reads_only_Container_width self : reads_only (Container_width self).
Proof. unfold Container_width. reads_only_tac. Qed.

Lemma reads_only_Container_height self : reads_only (Container_height self).
Proof. unfold Container_height. reads_only_tac. Qed.

Lemma reads_only_Container_top_offset self : reads_only (Container_top_offset self).
Proof. unfold Container_top_offset. reads_only_tac. Qed.

Lemma reads_only_RootContainer_top_offset self : reads_only (RootContainer_top_offset self).
Proof. unfold RootContainer_top_offset. reads_only_tac. Qed.

Lemma reads_only_NavigationContainer_top_offset self :
  reads_only (NavigationContainer_top_offset self).
Proof. unfold NavigationContainer_top_offset. reads_only_tac. Qed.

#[local] Hint Resolve reads_only_Container_top_offset reads_only_RootContainer_top_offset
  reads_only_NavigationContainer_top_offset : reads.

Lemma reads_only_self_top_offset self : reads_only (self_top_offset self).
Proof. unfold self_top_offset. reads_only_tac. Qed.

#[local] Hint Resolve reads_only_self_top_offset : reads.

Lemma reads_only_RootContainer_height self : reads_only (RootContainer_height self).
Proof. unfold RootContainer_height. reads_only_tac. Qed.

Lemma reads_only_NavigationContainer_height self :
  reads_only (NavigationContainer_height self).
Proof. unfold NavigationContainer_height. reads_only_tac. Qed.

Lemma reads_only_RootContainer_title self : reads_only (RootContainer_title self).
Proof. unfold RootContainer_title. reads_only_tac. Qed.

Lemma reads_only_NavigationContainer_title self :
  reads_only (NavigationContainer_title self).
Proof. unfold NavigationContainer_title. reads_only_tac. Qed.

#[local] Hint Resolve reads_only_BaseContainer_content reads_only_Container_width
  reads_only_Container_height reads_only_RootContainer_height
  reads_only_NavigationContainer_height reads_only_RootContainer_title
  reads_only_NavigationContainer_title : reads.

(** Every getter in the class table is read-only. *)
Lemma member_of_In k name m :
  member_of k name = Some m → In (name, m) (members k).
Proof.
  unfold member_of. intros H.
  destruct (List.find _ (members k)) as [[n m']|] eqn:Hf; simplify_eq/=.
  apply List.find_some in Hf as [Hin Heq]. simpl in Heq.
  apply String.eqb_eq in Heq. by subst.
Qed.

Lemma reads_only_getters k name fget fset self :
  member_of k name = Some (Property fget fset) → reads_only (fget self).
Proof.
  intros H%member_of_In.
  destruct k; simpl in H; intuition; simplify_eq; eauto with reads.
Qed.

Lemma reads_only_getattr self name : reads_only (getattr self name).
Proof.
  unfold getattr. apply reads_only_bind; [eauto with reads|].
  intros [k|b]; [|eauto with reads].
  unfold class_attr. destruct (resolve k name) as [owner|]; [|eauto with reads].
  destruct (member_of owner name) as [[|fget fset]|] eqn:Hm; eauto with reads.
  by eapply reads_only_getters.
Qed.

(** ** Assigning content *)

Lemma alter_present {A} (f : A → A) (h : gmap loc A) l o :
  h !! l = Some o → alter f l h = <[l := f o]> h.
Proof.
  intros H. apply map_eq. intros j.
  rewrite lookup_alter, lookup_insert. case_decide; [|done]. by rewrite H.
Qed.

Lemma store_attr_run s l c d name x :
  heap s !! l = Some (PyObject c d) →
  store_attr (VRef l) name x s =
    Ok tt (with_heap (heap_set_attr (VRef l) name x (heap s)) s).
Proof.
  intros H. rewrite (store_attr_instance _ _ _ _ _ _ H). simpl.
  by rewrite (alter_present _ _ _ _ H).
Qed.

Lemma store_attr_widget s v name x :
  widget_or_none s v → v ≠ VNone →
  store_attr v name x s = Ok tt (with_heap (heap_set_attr v name x (heap s)) s).
Proof.
  intros [->|(l & c & d & -> & H)] Hv; [done|]. by eapply store_attr_run.
Qed.

Lemma truth_run s v :
  widget_or_none s v → truth v s = Ok (truthy (heap s) v) s.
Proof.
  intros [->|(l & c & d & -> & H)]; [done|].
  unfold truth. rewrite (bind_Ok _ _ _ _ _ (lookup_obj_Some _ _ _ H)).
  simpl. rewrite H. by destruct c.
Qed.

Lemma truthy_not_None h v : truthy h v = true → v ≠ VNone.
Proof. by intros H ->. Qed.

(** Attribute stores change dictionaries only: every address keeps its kind
    of object and its class. *)
Lemma lookup_heap_set_attr h v name x l :
  heap_set_attr v name x h !! l =
    if decide (v = VRef l) then set_attr_obj name x <$> h !! l else h !! l.
Proof.
  destruct v as [| | | | |l']; simpl; try done.
  rewrite lookup_alter.
  repeat case_decide; simplify_eq; done.
Qed.

Lemma heap_set_attr_pyobject h v name x l c d :
  h !! l = Some (PyObject c d) →
  ∃ d', heap_set_attr v name x h !! l = Some (PyObject c d') ∧
        ∀ n, d' !! n = if decide (v = VRef l ∧ name = n) then Some x else d !! n.
Proof.
  intros H. rewrite lookup_heap_set_attr, H.
  destruct (decide (v = VRef l)) as [Hv|Hv]; simpl.
  - eexists; split; [done|]. intros n. rewrite lookup_insert.
    destruct (decide (name = n)) as [->|Hn].
    + by rewrite decide_True.
    + by rewrite decide_False by (intros [? ?]; congruence).
  - eexists; split; [done|]. intros n. by rewrite decide_False by (intros [? ?]; congruence).
Qed.

Lemma widget_or_none_heap_set_attr s v name x u :
  widget_or_none s u →
  widget_or_none (with_heap (heap_set_attr v name x (heap s)) s) u.
Proof.
  intros [->|(l & c & d & -> & H)]; [by left|]. right.
  destruct (heap_set_attr_pyobject (heap s) v name x l c d H) as (d' & Hl & _).
  by exists l, c, d'.
Qed.

Lemma truthy_heap_set_attr h v name x u :
  truthy (heap_set_attr v name x h) u = truthy h u.
Proof.
  destruct u as [| | | | |l]; simpl; try done.
  rewrite lookup_heap_set_attr. case_decide; [|done].
  by destruct (h !! l) as [[[]| | |]|].
Qed.

Lemma heap_attr_heap_set_attr h l c d name x u n :
  h !! l = Some (PyObject c d) →
  heap_attr (heap_set_attr (VRef l) name x h) u n =
    if decide (VRef l = u ∧ name = n) then Some x else heap_attr h u n.
Proof.
  intros H. unfold heap_attr, heap_set_attr.
  destruct u as [| | | | |l']; try (by rewrite decide_False by (intros [? ?]; congruence)).
  rewrite lookup_alter.
  destruct (decide (l = l')) as [<-|Hne].
  - rewrite H. simpl. rewrite lookup_insert.
    destruct (decide (name = n)) as [->|Hn].
    + by rewrite decide_True.
    + by rewrite decide_False by (intros [? ?]; congruence).
  - rewrite decide_False by (intros [? ?]; congruence). done.
Qed.

Lemma load_attr_heap_attr s v name x :
  heap_attr (heap s) v name = Some x → load_attr v name s = Ok x s.
Proof.
  destruct v as [| | | | |l]; simpl; try done.
  destruct (heap s !! l) as [[c d| | |]|] eqn:H; try done.
  intros Hx. by eapply load_attr_Some.
Qed.

Lemma self_content_run s self k d old :
  is_instance s self k d → d !! "_content" = Some old →
  self_content self s = Ok old s.
Proof.
  intros H Hold. unfold self_content.
  rewrite (bind_Ok _ _ _ _ _ (class_of_instance _ _ _ _ H)).
  rewrite resolve_content. by eapply load_attr_Some.
Qed.

(** The first step of the setter: unwire the content in place. *)
Lemma unwire_old_run s self k d old :
  is_instance s self k d → d !! "_content" = Some old → widget_or_none s old →
  (if truthy (heap s) old
   then c <- load_attr (VRef self) "_content" ;; store_attr c "container" VNone
   else ret tt) s = Ok tt (with_heap (unwire old (heap s)) s).
Proof.
  intros H Hold Hw. unfold unwire. destruct (truthy (heap s) old) eqn:Ht.
  - rewrite (bind_Ok _ _ _ _ _ (load_attr_Some _ _ _ _ _ _ H Hold)).
    apply store_attr_widget; [done|by eapply truthy_not_None].
  - unfold ret. by destruct s.
Qed.

(** Every Python object of the start heap is still one, of the same class,
    after each of the stores. *)
Lemma unwire_pyobject h old l c dl :
  h !! l = Some (PyObject c dl) → ∃ d', unwire old h !! l = Some (PyObject c d').
Proof.
  intros Hl. unfold unwire. destruct (truthy h old); [|by eexists].
  destruct (heap_set_attr_pyobject h old "container" VNone l c dl Hl)
    as (d' & Hd' & _). by eexists.
Qed.

Lemma store_content_pyobject h self old w l c dl :
  h !! l = Some (PyObject c dl) →
  ∃ d', store_content self old w h !! l = Some (PyObject c d').
Proof.
  intros Hl. destruct (unwire_pyobject h old l c dl Hl) as [d1 H1].
  destruct (heap_set_attr_pyobject _ (VRef self) "_content" w l c d1 H1)
    as (d' & Hd' & _). by eexists.
Qed.

Lemma truthy_store_content h self old w u :
  truthy (store_content self old w h) u = truthy h u.
Proof.
  unfold store_content, unwire. rewrite truthy_heap_set_attr.
  destruct (truthy h old); [|done]. by rewrite truthy_heap_set_attr.
Qed.

Lemma widget_or_none_store_content s self old w u :
  widget_or_none s u →
  widget_or_none (with_heap (store_content self old w (heap s)) s) u.
Proof.
  intros [->|(l & c & d & -> & H)]; [by left|]. right.
  destruct (store_content_pyobject (heap s) self old w l c d H) as [d' Hl].
  by exists l, c, d'.
Qed.

Lemma content_setter_run s self k d old w :
  is_instance s self k d → d !! "_content" = Some old →
  widget_or_none s old → widget_or_none s w →
  setattr self "content" w s =
    Ok tt (with_heap (assign_content self w (heap s)) s).
Proof.
  intros H Hold Ho Hw.
  rewrite (setattr_property _ _ _ _ "content" _ _ _ H (class_attr_content k)).
  unfold BaseContainer_content_setter, assign_content.
  rewrite (bind_Ok _ _ _ _ _ (self_content_run _ _ _ _ _ H Hold)).
  rewrite (bind_Ok _ _ _ _ _ (truth_run _ _ Ho)).
  rewrite (bind_Ok _ _ _ _ _ (unwire_old_run _ _ _ _ _ H Hold Ho)).
  assert (heap_attr (heap s) (VRef self) "_content" = Some old) as ->
    by (simpl; by rewrite H).
  simpl default.
  destruct (unwire_pyobject (heap s) old self _ _ H) as [d1 H1].
  rewrite (bind_Ok _ _ _ _ _
             (store_attr_run (with_heap (unwire old (heap s)) s) _ _ _ "_content" w H1)).
  change (with_heap _ (with_heap (unwire old (heap s)) s))
    with (with_heap (store_content self old w (heap s)) s).
  pose proof (widget_or_none_store_content s self old w w Hw) as Hw2.
  rewrite (bind_Ok _ _ _ _ _ (truth_run _ _ Hw2)).
  change (heap (with_heap ?h s)) with h.
  destruct (truthy (store_content self old w (heap s)) w) eqn:Ht; [|done].
  by rewrite (store_attr_widget _ _ _ _ Hw2 (truthy_not_None _ _ Ht)).
Qed.

(** *** What the assignment leaves behind *)

Lemma assign_content_unfold s self k d old w :
  is_instance s self k d → d !! "_content" = Some old →
  assign_content self w (heap s) =
    if truthy (heap s) w
    then heap_set_attr w "container" (VRef self) (store_content self old w (heap s))
    else store_content self old w (heap s).
Proof.
  intros H Hold. unfold assign_content.
  assert (heap_attr (heap s) (VRef self) "_content" = Some old) as ->
    by (simpl; by rewrite H).
  simpl default. by rewrite truthy_store_content.
Qed.

Lemma assign_content_pyobject s self k d old w l c dl :
  is_instance s self k d → d !! "_content" = Some old →
  heap s !! l = Some (PyObject c dl) →
  ∃ d', assign_content self w (heap s) !! l = Some (PyObject c d').
Proof.
  intros H Hold Hl. rewrite (assign_content_unfold _ _ _ _ _ _ H Hold).
  destruct (store_content_pyobject (heap s) self old w l c dl Hl) as [d2 H2].
  destruct (truthy (heap s) w); [|by eexists].
  destruct (heap_set_attr_pyobject _ w "container" (VRef self) l c d2 H2)
    as (d' & Hd' & _). by eexists.
Qed.

Lemma store_content_stored s self k d old w :
  is_instance s self k d →
  heap_attr (store_content self old w (heap s)) (VRef self) "_content" = Some w.
Proof.
  intros H. destruct (unwire_pyobject (heap s) old self _ _ H) as [d1 H1].
  unfold store_content. rewrite (heap_attr_heap_set_attr _ _ _ _ _ _ _ _ H1).
  by rewrite decide_True.
Qed.

Lemma store_content_unwires s self k d old w :
  is_instance s self k d → widget_or_none s old →
  truthy (heap s) old = true →
  heap_attr (store_content self old w (heap s)) old "container" = Some VNone.
Proof.
  intros H [->|(c0 & cc & dc & -> & Hc0)] Hto; [done|].
  destruct (unwire_pyobject (heap s) (VRef c0) self _ _ H) as [d1 H1].
  unfold store_content. rewrite (heap_attr_heap_set_attr _ _ _ _ _ _ _ _ H1).
  rewrite decide_False by (intros [? ?]; congruence).
  unfold unwire. rewrite Hto.
  rewrite (heap_attr_heap_set_attr _ _ _ _ _ _ _ _ Hc0). by rewrite decide_True.
Qed.

Lemma assign_content_stored s self k d old w :
  is_instance s self k d → d !! "_content" = Some old → widget_or_none s w →
  heap_attr (assign_content self w (heap s)) (VRef self) "_content" = Some w.
Proof.
  intros H Hold Hw. rewrite (assign_content_unfold _ _ _ _ _ _ H Hold).
  pose proof (store_content_stored s self k d old w H) as H2.
  destruct (truthy (heap s) w) eqn:Ht; [|done].
  destruct Hw as [->|(r & c & dr & -> & Hr)]; [done|].
  destruct (store_content_pyobject (heap s) self old (VRef r) r _ _ Hr) as [d2 Hr2].
  rewrite (heap_attr_heap_set_attr _ _ _ _ _ _ _ _ Hr2).
  by rewrite decide_False by (intros [? ?]; congruence).
Qed.

Lemma assign_content_unwires s self k d old w :
  is_instance s self k d → d !! "_content" = Some old →
  widget_or_none s old → widget_or_none s w →
  truthy (heap s) old = true → old ≠ w →
  heap_attr (assign_content self w (heap s)) old "container" = Some VNone.
Proof.
  intros H Hold Ho Hw Hto Hne. rewrite (assign_content_unfold _ _ _ _ _ _ H Hold).
  pose proof (store_content_unwires s self k d old w H Ho Hto) as H2.
  destruct (truthy (heap s) w) eqn:Ht; [|done].
  destruct Hw as [->|(r & c & dr & -> & Hr)]; [done|].
  destruct (store_content_pyobject (heap s) self old (VRef r) r _ _ Hr) as [d2 Hr2].
  rewrite (heap_attr_heap_set_attr _ _ _ _ _ _ _ _ Hr2).
  by rewrite decide_False by (intros [? ?]; congruence).
Qed.

Lemma assign_content_wires s self k d old w :
  is_instance s self k d → d !! "_content" = Some old → widget_or_none s w →
  truthy (heap s) w = true →
  heap_attr (assign_content self w (heap s)) w "container" = Some (VRef self).
Proof.
  intros H Hold Hw Ht. rewrite (assign_content_unfold _ _ _ _ _ _ H Hold), Ht.
  destruct Hw as [->|(r & c & dr & -> & Hr)]; [done|].
  destruct (store_content_pyobject (heap s) self old (VRef r) r _ _ Hr) as [d2 Hr2].
  rewrite (heap_attr_heap_set_attr _ _ _ _ _ _ _ _ Hr2).
  by rewrite decide_True.
Qed.

Lemma truth_true_truthy s v :
  widget_or_none s v → truth v s = Ok true s → truthy (heap s) v = true.
Proof. intros Hv. rewrite (truth_run _ _ Hv). by intros [= ->]. Qed.

Lemma getattr_content_heap_attr s self k d w :
  is_instance s self k d →
  heap_attr (heap s) (VRef self) "_content" = Some w →
  getattr self "content" s = Ok w s.
Proof.
  intros H Hw.
  rewrite (getattr_property _ _ _ _ "content" _ _ H (class_attr_content k)).
  by apply load_attr_heap_attr.
Qed.

(** *** Stores absorb and commute *)

Lemma heap_set_attr_twice h v name x y :
  heap_set_attr v name x (heap_set_attr v name y h) = heap_set_attr v name x h.
Proof.
  destruct v as [| | | | |l]; simpl; try done.
  apply map_eq. intros j. destruct (decide (l = j)) as [->|Hne].
  - rewrite !lookup_alter_eq.
    destruct (h !! j) as [[c d| | |]|]; simpl; try done.
    by rewrite insert_insert_eq.
  - by rewrite !lookup_alter_ne.
Qed.

Lemma heap_set_attr_same h v name x :
  heap_attr h v name = Some x → heap_set_attr v name x h = h.
Proof.
  destruct v as [| | | | |l]; simpl; try done.
  intros H. apply alter_id. intros o Ho. rewrite Ho in H.
  destruct o as [c d| | |]; simpl; try done.
  by rewrite insert_id.
Qed.

Lemma heap_set_attr_commute h v name x v' name' y :
  name ≠ name' →
  heap_set_attr v name x (heap_set_attr v' name' y h) =
  heap_set_attr v' name' y (heap_set_attr v name x h).
Proof.
  intros Hn.
  destruct v as [| | | | |l], v' as [| | | | |l']; simpl; try done.
  apply map_eq. intros j.
  destruct (decide (l = j)) as [->|]; destruct (decide (l' = j)) as [->|];
    repeat (rewrite lookup_alter_eq || rewrite lookup_alter_ne by done);
    try done.
  destruct (h !! j) as [[c d| | |]|]; simpl; try done.
  by rewrite insert_insert_ne.
Qed.

(** Clearing [w.container], storing [w] and wiring [w] again gives back a
    heap in which [w] was the wired content. *)
Lemma rewire_round_trip h self k d r c dr :
  h !! self = Some (PyObject (Toga k) d) → d !! "_content" = Some (VRef r) →
  h !! r = Some (PyObject c dr) →
  heap_attr h (VRef r) "container" = Some (VRef self) →
  heap_set_attr (VRef r) "container" (VRef self)
    (heap_set_attr (VRef self) "_content" (VRef r)
       (heap_set_attr (VRef r) "container" VNone h)) = h.
Proof.
  intros H Hold Hr Hc.
  rewrite heap_set_attr_commute by done.
  rewrite heap_set_attr_twice.
  rewrite (heap_set_attr_same _ (VRef self) "_content").
  - by apply heap_set_attr_same.
  - rewrite (heap_attr_heap_set_attr _ _ _ _ _ _ _ _ Hr).
    rewrite decide_False by (intros [? ?]; congruence).
    simpl. by rewrite H.
Qed.

(** Assigning the content that is already wired in changes nothing. *)
Lemma assign_content_fixpoint s self k d r c dr :
  is_instance s self k d → d !! "_content" = Some (VRef r) →
  heap s !! r = Some (PyObject c dr) → truthy (heap s) (VRef r) = true →
  heap_attr (heap s) (VRef r) "container" = Some (VRef self) →
  assign_content self (VRef r) (heap s) = heap s.
Proof.
  intros H Hold Hr Ht Hc.
  rewrite (assign_content_unfold _ _ _ _ _ _ H Hold), Ht.
  unfold store_content, unwire. rewrite Ht.
  by eapply rewire_round_trip.
Qed.

Lemma truthy_pyobject h l c d :
  h !! l = Some (PyObject c d) →
  truthy h (VRef l) = match c with Foreign b => b | Toga _ => true end.
Proof. intros H. simpl. rewrite H. by destruct c. Qed.

Lemma with_heap_same s : with_heap (heap s) s = s.
Proof. by destruct s. Qed.

Lemma heap_attr_dict h l c d name :
  h !! l = Some (PyObject c d) → heap_attr h (VRef l) name = d !! name.
Proof. intros H. simpl. by rewrite H. Qed.

Lemma with_heap_twice h h' s : with_heap h (with_heap h' s) = with_heap h s.
Proof. done. Qed.

(** ** Constructors *)

Lemma set_translatesAutoresizingMaskIntoConstraints_run s l u b :
  heap s !! l = Some (UIView u) →
  set_translatesAutoresizingMaskIntoConstraints (VRef l) b s =
    Ok tt (with_heap
             (<[l := UIView {| bounds := bounds u;
                               translatesAutoresizingMaskIntoConstraints := b;
                               autoresizingMask := autoresizingMask u |}]> (heap s)) s).
Proof.
  intros H. unfold set_translatesAutoresizingMaskIntoConstraints.
  by rewrite (bind_Ok _ _ _ _ _ (lookup_obj_Some _ _ _ H)).
Qed.

Lemma set_autoresizingMask_run s l u m :
  heap s !! l = Some (UIView u) →
  set_autoresizingMask (VRef l) m s =
    Ok tt (with_heap
             (<[l := UIView {| bounds := bounds u;
                               translatesAutoresizingMaskIntoConstraints :=
                                 translatesAutoresizingMaskIntoConstraints u;
                               autoresizingMask := m |}]> (heap s)) s).
Proof.
  intros H. unfold set_autoresizingMask.
  by rewrite (bind_Ok _ _ _ _ _ (lookup_obj_Some _ _ _ H)).
Qed.

Lemma vc_set_view_run s t vc x :
  heap s !! t = Some (UIViewController vc) →
  vc_set_view (VRef t) x s =
    Ok tt (with_heap (<[t := UIViewController {| view := x; vc_title := vc_title vc |}]> (heap s)) s).
Proof.
  intros H. unfold vc_set_view.
  by rewrite (bind_Ok _ _ _ _ _ (lookup_obj_Some _ _ _ H)).
Qed.

(** Looking an address up in a heap written as a chain of inserts. *)
Ltac heap_lookup :=
  rewrite ?heap_with_heap;
  repeat first [ rewrite lookup_insert_eq | rewrite lookup_insert_ne by congruence ];
  try done.

(** Running the next store or load of a sequence. *)
Lemma bind_store_attr {B} s l c d name x (k : unit → M B) :
  heap s !! l = Some (PyObject c d) →
  bind (store_attr (VRef l) name x) k s =
    k tt (with_heap (<[l := PyObject c (<[name := x]> d)]> (heap s)) s).
Proof. intros H. by rewrite (bind_Ok _ _ _ _ _ (store_attr_instance _ _ _ _ _ _ H)). Qed.

Lemma bind_load_attr {B} s l c d name x (k : value → M B) :
  heap s !! l = Some (PyObject c d) → d !! name = Some x →
  bind (load_attr (VRef l) name) k s = k x s.
Proof. intros H Hx. by rewrite (bind_Ok _ _ _ _ _ (load_attr_Some _ _ _ _ _ _ H Hx)). Qed.

Lemma bind_alloc {B} o s (k : loc → M B) :
  bind (alloc o) k s =
    k (fresh (dom (heap s))) (with_heap (<[fresh (dom (heap s)) := o]> (heap s)) s).
Proof. done. Qed.

Lemma dom_insert_present (h : gmap loc object) l o o' :
  h !! l = Some o → dom (<[l := o']> h) = dom h.
Proof.
  intros H. rewrite dom_insert_L.
  apply subseteq_union_1_L, singleton_subseteq_l, elem_of_dom. by eexists.
Qed.

Lemma Container_init_run `{Runtime} s self c d content ln f :
  heap s !! self = Some (PyObject c d) →
  let n := fresh (dom (heap s)) in
  Container_init self content ln f s =
    Ok tt (with_heap
             (<[self := PyObject c (Container_dict d n content ln f)]>
                (<[n := UIView fresh_view]> (heap s))) s).
Proof.
  intros H0 n.
  assert (heap s !! n = None) as Hn by (apply not_elem_of_dom, is_fresh).
  assert (n ≠ self) as Hne by congruence.
  unfold Container_init, BaseContainer_init.
  rewrite (bind_Ok _ _ s tt
             (with_heap (<[self := PyObject c (<["on_refresh" := f]> (<["_content" := content]> d))]>
                           (heap s)) s)); cycle 1.
  { erewrite bind_store_attr by exact H0.
    erewrite store_attr_instance by heap_lookup.
    rewrite heap_with_heap, with_heap_twice. by rewrite insert_insert_eq. }
  unfold UIView_alloc_init. rewrite bind_alloc.
  rewrite heap_with_heap, (dom_insert_present _ _ _ _ H0). fold n.
  erewrite bind_store_attr by heap_lookup.
  erewrite bind_load_attr; [|heap_lookup|heap_lookup].
  erewrite (bind_Ok _ _ _ tt); cycle 1.
  { apply set_translatesAutoresizingMaskIntoConstraints_run. heap_lookup. }
  erewrite bind_load_attr; [|heap_lookup|heap_lookup].
  erewrite (bind_Ok _ _ _ tt); cycle 1.
  { apply set_autoresizingMask_run. heap_lookup. }
  destruct ln; try (erewrite bind_load_attr; [|heap_lookup|heap_lookup]).
  all: erewrite store_attr_instance by heap_lookup.
  all: f_equal; unfold with_heap; simpl; f_equal.
  all: apply map_eq; intros j; unfold Container_dict, fresh_view.
  all: rewrite !lookup_insert; repeat case_decide; simplify_eq; done.
Qed.

(** The addresses a constructor takes, in the order it allocates them. *)
Lemma fresh_second (h : gmap loc object) :
  let n := fresh (dom h) in
  let t := fresh ({[n]} ∪ dom h) in
  h !! n = None ∧ h !! t = None ∧ t ≠ n.
Proof.
  intros n t.
  pose proof (is_fresh (dom h)) as Hn. fold n in Hn.
  pose proof (is_fresh ({[n]} ∪ dom h)) as Ht. fold t in Ht.
  apply not_elem_of_union in Ht as [Htn%not_elem_of_singleton Ht].
  split; [by apply not_elem_of_dom|]. split; [by apply not_elem_of_dom|done].
Qed.

Lemma fresh_third (h : gmap loc object) :
  let n := fresh (dom h) in
  let t := fresh ({[n]} ∪ dom h) in
  let nc := fresh ({[t]} ∪ ({[n]} ∪ dom h)) in
  h !! nc = None ∧ nc ≠ t ∧ nc ≠ n.
Proof.
  intros n t nc.
  pose proof (is_fresh ({[t]} ∪ ({[n]} ∪ dom h))) as Hc. fold nc in Hc.
  apply not_elem_of_union in Hc as [Hct%not_elem_of_singleton Hc].
  apply not_elem_of_union in Hc as [Hcn%not_elem_of_singleton Hc].
  split; [by apply not_elem_of_dom|done].
Qed.

(** [ControlledContainer.__init__] and [RootContainer.__init__] have the same
    body. *)
Lemma controller_init_run `{Runtime} s self c d content ln f :
  heap s !! self = Some (PyObject c d) →
  let n := fresh (dom (heap s)) in
  let t := fresh ({[n]} ∪ dom (heap s)) in
  let s' := with_heap
              (<[self := PyObject c (<["controller" := VRef t]>
                                       (Container_dict d n content ln f))]>
                 (<[t := UIViewController {| view := VRef n; vc_title := VNone |}]>
                    (<[n := UIView fresh_view]> (heap s)))) s in
  ControlledContainer_init self content ln f s = Ok tt s' ∧
  RootContainer_init self content ln f s = Ok tt s'.
Proof.
  intros H0 n t s'.
  destruct (fresh_second (heap s)) as (Hn & Ht & Htn). fold n in Hn, Ht, Htn.
  fold t in Ht, Htn.
  assert (n ≠ self) as Hne by congruence.
  assert (t ≠ self) as Hts by congruence.
  assert (ControlledContainer_init self content ln f s = Ok tt s') as Hrun.
  { unfold ControlledContainer_init.
    rewrite (bind_Ok _ _ _ _ _ (Container_init_run s self c d content ln f H0)).
    unfold UIViewController_alloc_init. rewrite bind_alloc.
    rewrite heap_with_heap, with_heap_twice.
    rewrite (dom_insert_present (<[n := UIView fresh_view]> (heap s)) self (PyObject c d))
      by (by rewrite lookup_insert_ne).
    rewrite dom_insert_L. fold n t.
    erewrite bind_store_attr by heap_lookup.
    erewrite bind_load_attr; [|heap_lookup|unfold Container_dict; heap_lookup].
    erewrite bind_load_attr; [|heap_lookup|heap_lookup].
    erewrite vc_set_view_run by heap_lookup.
    f_equal. unfold s', with_heap. simpl. f_equal.
    apply map_eq. intros j.
    rewrite !lookup_insert. repeat case_decide; simplify_eq; done. }
  split; [exact Hrun|exact Hrun].
Qed.

Lemma NavigationContainer_init_run `{Runtime} s self c d content ln f :
  heap s !! self = Some (PyObject c d) →
  let n := fresh (dom (heap s)) in
  let t := fresh ({[n]} ∪ dom (heap s)) in
  let nc := fresh ({[t]} ∪ ({[n]} ∪ dom (heap s))) in
  let s' := with_heap
              (<[self := PyObject c (<["controller" := VRef nc]>
                                       (<["content_controller" := VRef t]>
                                          (Container_dict d n content ln f)))]>
                 (<[nc := UINavigationController
                            {| viewControllers := [t];
                               navigationBar_frame := initial_navigationBar_frame |}]>
                    (<[t := UIViewController {| view := VRef n; vc_title := VNone |}]>
                       (<[n := UIView fresh_view]> (heap s))))) s in
  NavigationContainer_init self content ln f s = Ok tt s'.
Proof.
  intros H0 n t nc s'.
  destruct (fresh_second (heap s)) as (Hn & Ht & Htn). fold n in Hn, Ht, Htn.
  fold t in Ht, Htn.
  destruct (fresh_third (heap s)) as (Hc & Hct & Hcn). fold n in Hc, Hct, Hcn.
  fold t in Hc, Hct, Hcn. fold nc in Hc, Hct, Hcn.
  assert (n ≠ self) as Hne by congruence.
  assert (t ≠ self) as Hts by congruence.
  assert (nc ≠ self) as Hcs by congruence.
  unfold NavigationContainer_init.
  rewrite (bind_Ok _ _ _ _ _ (Container_init_run s self c d content ln f H0)).
  unfold UIViewController_alloc_init. rewrite bind_alloc.
  rewrite heap_with_heap, with_heap_twice.
  rewrite (dom_insert_present (<[n := UIView fresh_view]> (heap s)) self (PyObject c d))
    by (by rewrite lookup_insert_ne).
  rewrite dom_insert_L. fold n t.
  erewrite bind_store_attr by heap_lookup.
  erewrite bind_load_attr; [|heap_lookup|heap_lookup].
  unfold UINavigationController_initWithRootViewController. rewrite bind_alloc.
  rewrite !heap_with_heap, !with_heap_twice.
  erewrite (dom_insert_present _ self) by heap_lookup.
  rewrite (dom_insert_L _ t).
  erewrite (dom_insert_present _ self) by heap_lookup.
  rewrite (dom_insert_L _ n). fold n t nc.
  erewrite bind_store_attr by heap_lookup.
  erewrite bind_load_attr; [|heap_lookup|unfold Container_dict; heap_lookup].
  erewrite bind_load_attr; [|heap_lookup|heap_lookup].
  erewrite vc_set_view_run by heap_lookup.
  f_equal. unfold s', with_heap. simpl. f_equal.
  apply map_eq. intros j.
  rewrite !lookup_insert. repeat case_decide; simplify_eq; done.
Qed.

Lemma fresh_fourth (h : gmap loc object) :
  let self := fresh (dom h) in
  let n := fresh ({[self]} ∪ dom h) in
  let t := fresh ({[n]} ∪ ({[self]} ∪ dom h)) in
  let nc := fresh ({[t]} ∪ ({[n]} ∪ ({[self]} ∪ dom h))) in
  (h !! self = None ∧ h !! n = None ∧ h !! t = None ∧ h !! nc = None) ∧
  (n ≠ self ∧ t ≠ self ∧ nc ≠ self ∧ t ≠ n ∧ nc ≠ n ∧ nc ≠ t).
Proof.
  intros self n t nc.
  pose proof (is_fresh (dom h)) as Hs. fold self in Hs.
  pose proof (is_fresh ({[self]} ∪ dom h)) as Hn. fold n in Hn.
  pose proof (is_fresh ({[n]} ∪ ({[self]} ∪ dom h))) as Ht. fold t in Ht.
  pose proof (is_fresh ({[t]} ∪ ({[n]} ∪ ({[self]} ∪ dom h)))) as Hc. fold nc in Hc.
  repeat match goal with
         | H : _ ∉ _ ∪ _ |- _ => apply not_elem_of_union in H as [? ?]
         | H : _ ∉ {[_]} |- _ => apply not_elem_of_singleton in H
         | H : _ ∉ dom _ |- _ => apply not_elem_of_dom in H
         end.
  done.
Qed.

(** Every variant's constructor returns, and builds what [constructed] says. *)
Lemma new_constructed `{Runtime} k content ln f s :
  variant k →
  ∃ self n d s',
    new k content ln f s = Ok self s' ∧ constructed k content ln f s s' self n d.
Proof.
  intros Hk.
  destruct (fresh_fourth (heap s))
    as ((Hs & Hn & Ht & Hc) & (Hns & Hts & Hcs & Htn & Hcn & Hct)).
  set (self := fresh (dom (heap s))) in *.
  set (n := fresh ({[self]} ∪ dom (heap s))) in *.
  set (t := fresh ({[n]} ∪ ({[self]} ∪ dom (heap s)))) in *.
  set (nc := fresh ({[t]} ∪ ({[n]} ∪ ({[self]} ∪ dom (heap s))))) in *.
  set (s0 := with_heap (<[self := PyObject (Toga k) ∅]> (heap s)) s).
  assert (heap s0 !! self = Some (PyObject (Toga k) ∅)) as H0 by apply lookup_insert_eq.
  assert (dom (heap s0) = {[self]} ∪ dom (heap s)) as Hdom by apply dom_insert_L.
  assert (∀ l o, heap s !! l = Some o → l ≠ self ∧ l ≠ n ∧ l ≠ t ∧ l ≠ nc) as Hold.
  { intros l o Hl. repeat split; congruence. }
  exists self, n.
  destruct k; [by destruct Hk| | | |]; unfold new; rewrite bind_alloc; fold self s0;
    match goal with
    | |- context [resolve ?k "__init__"] =>
        change (resolve k "__init__") with (Some k)
    end; cbv iota.
  - eexists _, _. split.
    { rewrite (bind_Ok _ _ _ _ _ (Container_init_run s0 self _ _ content ln f H0)).
      rewrite Hdom. fold n. reflexivity. }
    split; unfold s0; rewrite ?heap_with_heap; unfold is_instance, Container_dict;
      try (heap_lookup; fail); try done.
    intros l o Hl. destruct (Hold l o Hl) as (? & ? & ? & ?). unfold s0. heap_lookup.
  - eexists _, _. split.
    { destruct (controller_init_run s0 self _ _ content ln f H0) as [Hrun _].
      rewrite (bind_Ok _ _ _ _ _ Hrun). rewrite Hdom. fold n t. reflexivity. }
    split; unfold s0; rewrite ?heap_with_heap; unfold is_instance, Container_dict;
      try (heap_lookup; fail); try done.
    intros l o Hl. destruct (Hold l o Hl) as (? & ? & ? & ?). unfold s0. heap_lookup.
  - eexists _, _. split.
    { destruct (controller_init_run s0 self _ _ content ln f H0) as [_ Hrun].
      rewrite (bind_Ok _ _ _ _ _ Hrun). rewrite Hdom. fold n t. reflexivity. }
    split; unfold s0; rewrite ?heap_with_heap; unfold is_instance, Container_dict;
      try (heap_lookup; fail); try done.
    intros l o Hl. destruct (Hold l o Hl) as (? & ? & ? & ?). unfold s0. heap_lookup.
  - eexists _, _. split.
    { rewrite (bind_Ok _ _ _ _ _
                 (NavigationContainer_init_run s0 self _ _ content ln f H0)).
      rewrite Hdom. fold n t nc. reflexivity. }
    split; unfold s0; rewrite ?heap_with_heap; unfold is_instance, Container_dict;
      try (heap_lookup; fail); try done.
    + intros l o Hl. destruct (Hold l o Hl) as (? & ? & ? & ?). unfold s0. heap_lookup.
    + intros _. exists nc, t. unfold nav_controller, s0.
      rewrite ?heap_with_heap. repeat split; heap_lookup.
Qed.

(** A container whose [layout_native] is a view takes its size hints there. *)
Lemma size_hints_from_layout s self k d l u :
  variant k → is_instance s self k d → layout_view s d l u →
  (k = KNavigationContainer → ∃ c nc, nav_controller s d c nc) →
  size_hints_from s self k u.
Proof.
  intros Hk H Hv Hnav. split; [by eapply getattr_width|]. split.
  - intros Hp. by eapply getattr_height_plain.
  - intros Ho.
    assert (∃ off, getattr self "top_offset" s = Ok (VFloat off) s) as [off Hoff].
    { destruct Ho as [-> | ->].
      - eexists. by eapply getattr_top_offset_root.
      - destruct (Hnav eq_refl) as (c & nc & Hc). eexists.
        by eapply getattr_top_offset_navigation. }
    exists off. split; [done|]. by eapply getattr_height_offset.
Qed.

Lemma constructed_nav_controller `{Runtime} k content ln f s s' self n d :
  constructed k content ln f s s' self n d →
  k = KNavigationContainer → ∃ c nc, nav_controller s' d c nc.
Proof. intros Hc Hk. destruct (c_nav _ _ _ _ _ _ _ _ _ Hc Hk) as (c & t & ? & _). eauto. Qed.

(** ** Calls into foreign code *)

Lemma reads_only_keeps_calls {A} (m : M A) : reads_only m → keeps_calls m.
Proof. intros Hm s. specialize (Hm s). destruct (m s); by subst. Qed.

Lemma keeps_calls_bind {A B} (m : M A) (f : A → M B) :
  keeps_calls m → (∀ a, keeps_calls (f a)) → keeps_calls (bind m f).
Proof.
  intros Hm Hf s. unfold bind. specialize (Hm s).
  destruct (m s) as [a s'| |]; [|done..].
  specialize (Hf a s'). destruct (f a s'); congruence.
Qed.

Lemma keeps_calls_store_obj l o : keeps_calls (store_obj l o).
Proof. by intros s. Qed.

Lemma keeps_calls_alloc o : keeps_calls (alloc o).
Proof. by intros s. Qed.

Create HintDb calls discriminated.
#[local] Hint Resolve keeps_calls_store_obj keeps_calls_alloc : calls.
#[local] Hint Extern 1 (keeps_calls _) =>
  apply reads_only_keeps_calls; solve [eauto with reads] : calls.

Ltac keeps_calls_tac :=
  repeat first
    [ apply keeps_calls_bind; [|intros ?]
    | progress eauto with calls
    | match goal with |- keeps_calls (match ?x with _ => _ end) => destruct x end
    | match goal with |- keeps_calls (if ?x then _ else _) => destruct x end ].

Lemma keeps_calls_store_attr v name x : keeps_calls (store_attr v name x).
Proof. unfold store_attr. destruct v; keeps_calls_tac. Qed.

Lemma reads_only_truth v : reads_only (truth v).
Proof. unfold truth. destruct v; reads_only_tac. Qed.

Lemma keeps_calls_vc_set_title v x : keeps_calls (vc_set_title v x).
Proof. unfold vc_set_title. destruct v; keeps_calls_tac. Qed.

Lemma keeps_calls_vc_set_view v x : keeps_calls (vc_set_view v x).
Proof. unfold vc_set_view. destruct v; keeps_calls_tac. Qed.

#[local] Hint Resolve reads_only_truth : reads.
#[local] Hint Resolve keeps_calls_store_attr keeps_calls_vc_set_title
  keeps_calls_vc_set_view : calls.

Lemma reads_only_self_content self : reads_only (self_content self).
Proof. unfold self_content. reads_only_tac. Qed.

#[local] Hint Resolve reads_only_self_content : reads.

Lemma keeps_calls_content_setter self w :
  keeps_calls (BaseContainer_content_setter self w).
Proof. unfold BaseContainer_content_setter. keeps_calls_tac. Qed.

Lemma keeps_calls_RootContainer_title_setter self v :
  keeps_calls (RootContainer_title_setter self v).
Proof. unfold RootContainer_title_setter. keeps_calls_tac. Qed.

Lemma keeps_calls_NavigationContainer_title_setter self v :
  keeps_calls (NavigationContainer_title_setter self v).
Proof. unfold NavigationContainer_title_setter. keeps_calls_tac. Qed.

#[local] Hint Resolve keeps_calls_content_setter keeps_calls_RootContainer_title_setter
  keeps_calls_NavigationContainer_title_setter : calls.

Lemma keeps_calls_setters k name fget fset self v :
  member_of k name = Some (Property fget (Some fset)) → keeps_calls (fset self v).
Proof.
  intros H%member_of_In.
  destruct k; simpl in H; intuition; simplify_eq; eauto with calls.
Qed.

Lemma keeps_calls_getattr self name : keeps_calls (getattr self name).
Proof. apply reads_only_keeps_calls, reads_only_getattr. Qed.

Lemma keeps_calls_setattr self name v : keeps_calls (setattr self name v).
Proof.
  unfold setattr. apply keeps_calls_bind; [eauto with calls|].
  intros [k|b]; [|eauto with calls].
  unfold class_attr. destruct (resolve k name) as [owner|]; [|eauto with calls].
  destruct (member_of owner name) as [[|fget [fset|]]|] eqn:Hm.
  - eauto with calls.
  - by eapply keeps_calls_setters.
  - by intros s.
  - eauto with calls.
Qed.

Lemma keeps_calls_set_translatesAutoresizingMaskIntoConstraints v b :
  keeps_calls (set_translatesAutoresizingMaskIntoConstraints v b).
Proof.
  unfold set_translatesAutoresizingMaskIntoConstraints. destruct v; keeps_calls_tac.
Qed.

Lemma keeps_calls_set_autoresizingMask v m : keeps_calls (set_autoresizingMask v m).
Proof. unfold set_autoresizingMask. destruct v; keeps_calls_tac. Qed.

#[local] Hint Resolve keeps_calls_set_translatesAutoresizingMaskIntoConstraints
  keeps_calls_set_autoresizingMask : calls.

Lemma keeps_calls_Container_init `{Runtime} self content ln f :
  keeps_calls (Container_init self content ln f).
Proof.
  unfold Container_init, BaseContainer_init, UIView_alloc_init. keeps_calls_tac.
Qed.

#[local] Hint Resolve keeps_calls_Container_init : calls.

(** No constructor calls anything. *)
Lemma keeps_calls_new `{Runtime} k content ln f : keeps_calls (new k content ln f).
Proof.
  unfold new, BaseContainer_init, ControlledContainer_init, RootContainer_init,
    NavigationContainer_init, UIViewController_alloc_init,
    UINavigationController_initWithRootViewController.
  keeps_calls_tac.
Qed.

(** [refreshed] on an instance whose [on_refresh] is the callable [f] is one
    call of [f] on the container, recorded, and nothing else. *)
Lemma refreshed_run `{Runtime} s self k d f :
  is_instance s self k d → d !! "on_refresh" = Some (VCallable f) →
  refreshed self s =
    (call_callable f [VRef self] ;;; ret VNone) (log_call f [VRef self] s).
Proof.
  intros Hi Hf. unfold refreshed.
  rewrite (bind_Ok _ _ _ _ _ (class_of_instance _ _ _ _ Hi)).
  rewrite resolve_refreshed. unfold BaseContainer_refreshed.
  by rewrite (bind_Ok _ _ _ _ _ (load_attr_Some _ _ _ _ _ _ Hi Hf)).
Qed.

(** With [on_refresh] left at [None], the call is a [TypeError]. *)
Lemma refreshed_None `{Runtime} s self k d :
  is_instance s self k d → d !! "on_refresh" = Some VNone →
  refreshed self s = Raise TypeError s.
Proof.
  intros Hi Hf. unfold refreshed.
  rewrite (bind_Ok _ _ _ _ _ (class_of_instance _ _ _ _ Hi)).
  rewrite resolve_refreshed. unfold BaseContainer_refreshed.
  by rewrite (bind_Ok _ _ _ _ _ (load_attr_Some _ _ _ _ _ _ Hi Hf)).
Qed.

(** ** The operations keep the container usable *)

Lemma heap_set_attr_other h v name x u m :
  m ≠ name → heap_attr (heap_set_attr v name x h) u m = heap_attr h u m.
Proof.
  intros Hm. destruct u as [| | | | |l]; try done.
  unfold heap_attr. rewrite lookup_heap_set_attr.
  destruct (decide (v = VRef l)); [|done].
  destruct (h !! l) as [[c d| | |]|]; simpl; try done.
  by rewrite lookup_insert_ne.
Qed.

Lemma heap_set_attr_native h v name x l o :
  h !! l = Some o → (∀ c d, o ≠ PyObject c d) →
  heap_set_attr v name x h !! l = Some o.
Proof.
  intros Hl Ho. rewrite lookup_heap_set_attr, Hl.
  destruct (decide (v = VRef l)); [|done].
  destruct o; simpl; try done. by destruct (Ho c d).
Qed.

Lemma assign_content_other_attr self w h u m :
  m ≠ "_content" → m ≠ "container" →
  heap_attr (assign_content self w h) u m = heap_attr h u m.
Proof.
  intros H1 H2. unfold assign_content, store_content, unwire.
  repeat match goal with
         | |- context [if ?b then _ else _] => destruct b
         end;
    by rewrite ?heap_set_attr_other.
Qed.

Lemma assign_content_native self w h l o :
  h !! l = Some o → (∀ c d, o ≠ PyObject c d) →
  assign_content self w h !! l = Some o.
Proof.
  intros Hl Ho. unfold assign_content, store_content, unwire.
  repeat match goal with
         | |- context [if ?b then _ else _] => destruct b
         end;
    repeat (apply heap_set_attr_native; [|done]); done.
Qed.

Lemma same_objects_refl s : same_objects s s.
Proof. intros l c d H. by exists d. Qed.

Lemma same_objects_trans s1 s2 s3 :
  same_objects s1 s2 → same_objects s2 s3 → same_objects s1 s3.
Proof. intros H12 H23 l c d H. destruct (H12 _ _ _ H) as [d' H']. eauto. Qed.

Lemma widget_or_none_same_objects s s' v :
  same_objects s s' → widget_or_none s v → widget_or_none s' v.
Proof.
  intros Hs [->|(l & c & d & -> & H)]; [by left|]. right.
  destruct (Hs _ _ _ H) as [d' H']. by exists l, c, d'.
Qed.

Lemma variant_title_plain k :
  variant k → k ≠ KNavigationContainer →
  (k = KRootContainer ∧
   class_attr k "title" =
     Some (Property RootContainer_title (Some RootContainer_title_setter))) ∨
  (k ≠ KRootContainer ∧ class_attr k "title" = None).
Proof. destruct k; intros ? ?; try done; [right|right|left]; done. Qed.

(** On the classes that keep the title on the instance, assigning it stores
    the attribute [title_slot k], and reading it reads that attribute. *)
Lemma setattr_title_slot s self k d v :
  variant k → k ≠ KNavigationContainer → is_instance s self k d →
  setattr self "title" v s =
    Ok tt (with_heap (<[self := PyObject (Toga k) (<[title_slot k := v]> d)]> (heap s)) s).
Proof.
  intros Hk Hn Hi. destruct (variant_title_plain k Hk Hn) as [[-> Hc]|[Hr Hc]].
  - rewrite (setattr_property _ _ _ _ "title" _ _ _ Hi Hc).
    by apply store_attr_instance.
  - unfold setattr. rewrite (bind_Ok _ _ _ _ _ (class_of_instance _ _ _ _ Hi)), Hc.
    rewrite (store_attr_instance _ _ _ _ _ _ Hi). by destruct k.
Qed.

Lemma getattr_title_slot s self k d x :
  variant k → k ≠ KNavigationContainer → is_instance s self k d →
  d !! title_slot k = Some x →
  getattr self "title" s = Ok x s.
Proof.
  intros Hk Hn Hi Hx. destruct (variant_title_plain k Hk Hn) as [[-> Hc]|[Hr Hc]].
  - rewrite (getattr_property _ _ _ _ "title" _ _ Hi Hc).
    by eapply load_attr_Some.
  - unfold getattr. rewrite (bind_Ok _ _ _ _ _ (class_of_instance _ _ _ _ Hi)), Hc.
    eapply load_attr_Some; [done|]. by destruct k.
Qed.

Lemma title_slot_not_shape k :
  title_slot k ≠ "_content" ∧ title_slot k ≠ "container" ∧
  title_slot k ≠ "layout_native" ∧ title_slot k ≠ "controller" ∧
  title_slot k ≠ "on_refresh".
Proof. by destruct k. Qed.

Section usable.
Context `{Runtime} (s0 s : state) (self : loc) (k : cls) (f : value) (titled : bool).
Hypothesis Hk : variant k.
Hypothesis Hs0 : same_objects s0 s.
Hypothesis Hu : usable s self k f titled.

Lemma usable_top_offset :
  ∃ v, getattr self "top_offset" s = Ok v s ∧
       (k = KRootContainer ∨ k = KNavigationContainer → ∃ off, v = VFloat off).
Proof.
  destruct Hu as (d & Hi & _ & _ & _ & Hnav & _).
  destruct k; [by destruct Hk| | | |].
  - exists (VInt 0). split; [eapply getattr_top_offset_plain; [done|by left]|].
    by intros [|].
  - exists (VInt 0). split; [eapply getattr_top_offset_plain; [done|by right]|].
    by intros [|].
  - eexists. split; [by eapply getattr_top_offset_root|]. eauto.
  - destruct (Hnav eq_refl) as (c & nc & _ & _ & Hc & _).
    eexists. split; [by eapply getattr_top_offset_navigation|]. eauto.
Qed.

Lemma usable_getattr_height : ∃ v, getattr self "height" s = Ok v s.
Proof.
  destruct usable_top_offset as (v & Hv & Hoff).
  destruct Hu as (d & Hi & _ & _ & (l & u & Hl) & _ & _).
  destruct k; [by destruct Hk| | | |].
  - eexists. eapply getattr_height_plain; [by left|done..].
  - eexists. eapply getattr_height_plain; [by right|done..].
  - destruct Hoff as [off ->]; [by left|].
    eexists. eapply getattr_height_offset; [by left|done..].
  - destruct Hoff as [off ->]; [by right|].
    eexists. eapply getattr_height_offset; [by right|done..].
Qed.

Lemma usable_getattr_title :
  k = KNavigationContainer ∨ titled = true →
  ∃ v, getattr self "title" s = Ok v s.
Proof.
  intros Ht. destruct Hu as (d & Hi & _ & _ & _ & Hnav & Htitle).
  destruct (decide (k = KNavigationContainer)) as [->|Hn].
  - destruct (Hnav eq_refl) as (c & nc & t & vc & Hc & Ht').
    eexists. rewrite (getattr_property _ _ _ _ "title" _ _ Hi eq_refl).
    by eapply NavigationContainer_title_run.
  - destruct Ht as [->|Ht]; [done|].
    destruct (Htitle Ht Hn) as [x Hx].
    eexists. by eapply getattr_title_slot.
Qed.

Lemma usable_set_content w :
  widget_or_none s0 w →
  ∃ s', setattr self "content" w s = Ok tt s' ∧
        same_objects s0 s' ∧ usable s' self k f titled.
Proof.
  intros Hw%(widget_or_none_same_objects _ _ _ Hs0).
  destruct Hu as (d & Hi & Hf & (old & Hold & Ho) & (l & u & Hl & Hlu) & Hnav & Htitle).
  eexists. split; [by eapply content_setter_run|].
  set (h' := assign_content self w (heap s)).
  assert (same_objects s (with_heap h' s)) as Hsame.
  { intros j c dj Hj. by eapply assign_content_pyobject. }
  split; [by eapply same_objects_trans|].
  destruct (Hsame _ _ _ Hi) as [d' Hi']. exists d'. split; [done|].
  assert (∀ m, m ≠ "_content" → m ≠ "container" → d' !! m = d !! m) as Hother.
  { intros m H1 H2.
    rewrite <- (heap_attr_dict _ _ _ _ m Hi'), <- (heap_attr_dict _ _ _ _ m Hi).
    by apply assign_content_other_attr. }
  assert (∀ j o, heap s !! j = Some o → (∀ c dj, o ≠ PyObject c dj) →
                 heap (with_heap h' s) !! j = Some o) as Hnative.
  { intros j o Hj Hne. by apply assign_content_native. }
  split; [by rewrite Hother|]. split; [|split; [|split]].
  - exists w. split; [|by eapply widget_or_none_same_objects].
    rewrite <- (heap_attr_dict _ _ _ _ "_content" Hi').
    by eapply assign_content_stored.
  - exists l, u. split; [by rewrite Hother|]. by apply Hnative.
  - intros Hn. destruct (Hnav Hn) as (c & nc & t & vc & [Hc Hnc] & [Ht Hvc]).
    exists c, nc, t, vc. repeat split; try done.
    + by rewrite Hother.
    + by apply Hnative.
    + by apply Hnative.
  - intros Ht Hn. destruct (title_slot_not_shape k) as (? & ? & _).
    rewrite Hother by done. by apply Htitle.
Qed.

Lemma usable_set_title v :
  ∃ s', setattr self "title" v s = Ok tt s' ∧
        same_objects s0 s' ∧ usable s' self k f true.
Proof.
  destruct Hu as (d & Hi & Hf & (old & Hold & Ho) & (l & u & Hl & Hlu) & Hnav & Htitle).
  destruct (decide (k = KNavigationContainer)) as [->|Hn].
  - destruct (Hnav eq_refl) as (c & nc & t & vc & [Hc Hnc] & [Ht Hvc]).
    eexists. split.
    { rewrite (setattr_property _ _ _ _ "title" _ _ _ Hi eq_refl).
      by eapply NavigationContainer_title_setter_run. }
    assert (∀ j o, heap s !! j = Some o → j ≠ t →
              heap (with_heap (<[t := UIViewController
                                        {| view := view vc; vc_title := v |}]> (heap s)) s)
                !! j = Some o) as Hkeep.
    { intros j o Hj Hne. rewrite heap_with_heap. by rewrite lookup_insert_ne. }
    assert (same_objects s (with_heap (<[t := UIViewController
                                            {| view := view vc; vc_title := v |}]> (heap s)) s))
      as Hsame.
    { intros j cj dj Hj. exists dj. apply Hkeep; [done|]. congruence. }
    split; [by eapply same_objects_trans|].
    exists d. split; [apply Hkeep; [done|congruence]|]. split; [done|].
    split; [|split; [|split]].
    + exists old. split; [done|]. by eapply widget_or_none_same_objects.
    + exists l, u. split; [done|]. apply Hkeep; [done|congruence].
    + intros _. exists c, nc, t, {| view := view vc; vc_title := v |}.
      repeat split; try done.
      * apply Hkeep; [done|congruence].
      * rewrite heap_with_heap. by rewrite lookup_insert_eq.
    + done.
  - eexists. split; [by eapply setattr_title_slot|].
    destruct (title_slot_not_shape k) as (H1 & H2 & H3 & H4 & H5).
    assert (∀ j o, heap s !! j = Some o → j ≠ self →
              heap (with_heap (<[self := PyObject (Toga k) (<[title_slot k := v]> d)]>
                                 (heap s)) s) !! j = Some o) as Hkeep.
    { intros j o Hj Hne. rewrite heap_with_heap. by rewrite lookup_insert_ne. }
    assert (same_objects s (with_heap (<[self := PyObject (Toga k)
                                                    (<[title_slot k := v]> d)]>
                                         (heap s)) s)) as Hsame.
    { intros j cj dj Hj. destruct (decide (j = self)) as [->|Hne].
      - rewrite Hi in Hj. simplify_eq. eexists. rewrite heap_with_heap.
        by rewrite lookup_insert_eq.
      - exists dj. by apply Hkeep. }
    split; [by eapply same_objects_trans|].
    eexists. split; [unfold is_instance; rewrite heap_with_heap; apply lookup_insert_eq|].
    split; [by rewrite lookup_insert_ne|]. split; [|split; [|split]].
    + exists old. split; [by rewrite lookup_insert_ne|].
      by eapply widget_or_none_same_objects.
    + exists l, u. split; [by rewrite lookup_insert_ne|].
      apply Hkeep; [done|congruence].
    + done.
    + intros _ _. rewrite lookup_insert_eq. by eexists.
Qed.

(** Every safe operation returns, and leaves the container usable. *)
Lemma usable_run_op o :
  safe_op s0 k titled o →
  ∃ v s', run_op self o s = Ok v s' ∧
          same_objects s0 s' ∧ usable s' self k f (titled_after titled o).
Proof.
  intros Hsafe. destruct o; simpl in *; try done.
  - destruct Hu as (d & Hi & _ & (old & Hold & _) & _).
    exists old, s. split; [|done].
    rewrite (getattr_property _ _ _ _ "content" _ _ Hi (class_attr_content k)).
    by eapply load_attr_Some.
  - destruct (usable_set_content w Hsafe) as (s' & Hrun & Hs' & Hu').
    exists VNone, s'. split; [|done]. by rewrite (bind_Ok _ _ _ _ _ Hrun).
  - destruct Hu as (d & Hi & _ & _ & (l & u & Hl) & _).
    eexists _, s. split; [|done]. by eapply getattr_width.
  - destruct usable_getattr_height as [v Hv]. by exists v, s.
  - destruct usable_top_offset as (v & Hv & _). by exists v, s.
  - destruct (usable_getattr_title Hsafe) as [v Hv]. by exists v, s.
  - destruct (usable_set_title v) as (s' & Hrun & Hs' & Hu').
    exists VNone, s'. split; [|done]. by rewrite (bind_Ok _ _ _ _ _ Hrun).
Qed.
End usable.

Lemma usable_run_ops `{Runtime} s0 self k f os :
  variant k →
  ∀ s titled,
    same_objects s0 s → usable s self k f titled → safe_ops s0 k titled os →
    ∃ vs s' titled', run_ops self os s = Ok vs s' ∧
                     same_objects s0 s' ∧ usable s' self k f titled'.
Proof.
  intros Hk. induction os as [|o os IH]; intros s titled Hs Hu Hsafe.
  - by exists [], s, titled.
  - destruct Hsafe as [Ho Hos].
    destruct (usable_run_op s0 s self k f titled Hk Hs Hu o Ho)
      as (v & s1 & Hrun & Hs1 & Hu1).
    destruct (IH s1 _ Hs1 Hu1 Hos) as (vs & s' & titled' & Hruns & Hs' & Hu').
    exists (v :: vs), s', titled'. split; [|done].
    simpl. rewrite (bind_Ok _ _ _ _ _ Hrun). by rewrite (bind_Ok _ _ _ _ _ Hruns).
Qed.

(** A container is usable as soon as its constructor has returned. *)
Lemma constructed_usable `{Runtime} k content ln f s s' self n d :
  widget_or_none s content →
  (ln = VNone ∨ ∃ l u, ln = VRef l ∧ heap s !! l = Some (UIView u)) →
  constructed k content ln f s s' self n d →
  usable s' self k f false.
Proof.
  intros Hw Hln Hc. exists d.
  assert (same_objects s s') as Hsame.
  { intros l c dl Hl. exists dl. by eapply c_old. }
  split; [by destruct Hc|]. split; [by destruct Hc|]. split; [|split; [|split]].
  - exists content. split; [by destruct Hc|]. by eapply widget_or_none_same_objects.
  - destruct Hln as [->|(l & u & -> & Hl)].
    + exists n, fresh_view. split; by destruct Hc.
    + exists l, u. split; [by destruct Hc|]. by eapply c_old.
  - intros Hk. destruct (c_nav _ _ _ _ _ _ _ _ _ Hc Hk) as (c & t & Hnc & Ht).
    eexists c, _, t, _. split; [exact Hnc|]. by split.
  - done.
Qed.

(** ** One setter for every class *)

Lemma variant_variants k : variant k ↔ k ∈ variants.
Proof.
  unfold variant, variants. split.
  - destruct k; intros Hk; try done; repeat (constructor; try done).
  - intros Hin ->. repeat (apply elem_of_cons in Hin as [Hin|Hin]; [done|]).
    by apply elem_of_nil in Hin.
Qed.

Lemma heap_set_attr_as_class h self k v name x :
  heap_set_attr v name x (alter (set_class k) self h) =
  alter (set_class k) self (heap_set_attr v name x h).
Proof.
  destruct v as [| | | | |l]; simpl; try done.
  apply map_eq. intros j.
  destruct (decide (l = j)) as [->|]; destruct (decide (self = j)) as [->|];
    repeat (rewrite lookup_alter_eq || rewrite lookup_alter_ne by done);
    try done.
  by destruct (h !! j) as [[c d| | |]|].
Qed.

Lemma truthy_as_class h self k1 k2 d v :
  h !! self = Some (PyObject (Toga k1) d) →
  truthy (alter (set_class k2) self h) v = truthy h v.
Proof.
  intros H. destruct v as [| | | | |l]; simpl; try done.
  destruct (decide (self = l)) as [->|Hne].
  - by rewrite lookup_alter_eq, H.
  - by rewrite lookup_alter_ne.
Qed.

Lemma heap_attr_as_class h self k v name :
  heap_attr (alter (set_class k) self h) v name = heap_attr h v name.
Proof.
  destruct v as [| | | | |l]; simpl; try done.
  destruct (decide (self = l)) as [->|Hne].
  - rewrite lookup_alter_eq. by destruct (h !! l) as [[c d| | |]|].
  - by rewrite lookup_alter_ne.
Qed.

Lemma assign_content_as_class h self k1 k2 d w :
  h !! self = Some (PyObject (Toga k1) d) →
  assign_content self w (alter (set_class k2) self h) =
  alter (set_class k2) self (assign_content self w h).
Proof.
  intros H. unfold assign_content, store_content, unwire.
  rewrite heap_attr_as_class.
  set (old := default VNone (heap_attr h (VRef self) "_content")).
  rewrite (truthy_as_class h self k1 k2 d old H).
  assert (∀ h', (∃ d', h' !! self = Some (PyObject (Toga k1) d')) →
                truthy (alter (set_class k2) self h') w = truthy h' w) as Ht.
  { intros h' [d' H']. by eapply truthy_as_class. }
  destruct (truthy h old).
  - rewrite !heap_set_attr_as_class. rewrite Ht.
    + destruct (truthy _ w); by rewrite ?heap_set_attr_as_class.
    + destruct (heap_set_attr_pyobject h old "container" VNone self _ _ H)
        as (d1 & H1 & _).
      destruct (heap_set_attr_pyobject _ (VRef self) "_content" w self _ _ H1)
        as (d2 & H2 & _). by eexists.
  - rewrite !heap_set_attr_as_class. rewrite Ht.
    + destruct (truthy _ w); by rewrite ?heap_set_attr_as_class.
    + destruct (heap_set_attr_pyobject h (VRef self) "_content" w self _ _ H)
        as (d2 & H2 & _). by eexists.
Qed.

Lemma widget_or_none_as_class s self k v :
  widget_or_none s v → widget_or_none (as_class self k s) v.
Proof.
  intros [->|(l & c & d & -> & H)]; [by left|]. right.
  unfold as_class. rewrite heap_with_heap.
  destruct (decide (self = l)) as [->|Hne].
  - exists l, (Toga k), d. split; [done|]. by rewrite lookup_alter_eq, H.
  - exists l, c, d. split; [done|]. by rewrite lookup_alter_ne.
Qed.

(** Assigning content on the same container under another class makes the
    same writes. *)
Lemma content_setter_as_class s self k1 k2 d old w :
  is_instance s self k1 d → d !! "_content" = Some old →
  widget_or_none s old → widget_or_none s w →
  ∃ s', setattr self "content" w s = Ok tt s' ∧
        setattr self "content" w (as_class self k2 s) = Ok tt (as_class self k2 s').
Proof.
  intros Hi Hold Ho Hw. eexists. split; [by eapply content_setter_run|].
  assert (is_instance (as_class self k2 s) self k2 d) as Hi2.
  { unfold is_instance, as_class. rewrite heap_with_heap.
    by rewrite lookup_alter_eq, Hi. }
  rewrite (content_setter_run _ self k2 d old w Hi2 Hold
             (widget_or_none_as_class _ _ _ _ Ho) (widget_or_none_as_class _ _ _ _ Hw)).
  unfold as_class. rewrite !heap_with_heap, !with_heap_twice.
  by rewrite (assign_content_as_class _ _ _ _ _ _ Hi).
Qed.

(** * Further properties of the code *)

(** ** Constructors in closed form *)

Lemma new_addresses (h : gmap loc object) :
  (h !! new_self h = None ∧ h !! new_native h = None ∧
   h !! new_view_controller h = None ∧ h !! new_navigation_controller h = None) ∧
  (new_native h ≠ new_self h ∧ new_view_controller h ≠ new_self h ∧
   new_navigation_controller h ≠ new_self h ∧
   new_view_controller h ≠ new_native h ∧
   new_navigation_controller h ≠ new_native h ∧
   new_navigation_controller h ≠ new_view_controller h).
Proof. apply fresh_fourth. Qed.

(** The constructor of each variant returns the first free address and
    leaves the heap [new_heap]. *)
Lemma new_exact `{Runtime} k content ln f s :
  variant k →
  new k content ln f s =
    Ok (new_self (heap s)) (with_heap (new_heap k content ln f (heap s)) s).
Proof.
  intros Hk.
  destruct (new_addresses (heap s))
    as ((Hs & Hn & Ht & Hc) & (Hns & Hts & Hcs & Htn & Hcn & Hct)).
  set (s0 := with_heap (<[new_self (heap s) := PyObject (Toga k) ∅]> (heap s)) s).
  assert (heap s0 !! new_self (heap s) = Some (PyObject (Toga k) ∅)) as H0
    by apply lookup_insert_eq.
  assert (dom (heap s0) = {[new_self (heap s)]} ∪ dom (heap s)) as Hdom
    by apply dom_insert_L.
  destruct k; [by destruct Hk| | | |]; unfold new; rewrite bind_alloc;
    fold (new_self (heap s)); fold s0;
    match goal with
    | |- context [resolve ?k "__init__"] =>
        change (resolve k "__init__") with (Some k)
    end; cbv iota.
  - rewrite (bind_Ok _ _ _ _ _
               (Container_init_run s0 (new_self (heap s)) _ _ content ln f H0)).
    rewrite Hdom. fold (new_native (heap s)).
    unfold ret, s0, new_heap. rewrite heap_with_heap, with_heap_twice. do 2 f_equal.
    apply map_eq. intros j. rewrite !lookup_insert.
    repeat case_decide; simplify_eq; done.
  - destruct (controller_init_run s0 (new_self (heap s)) _ _ content ln f H0)
      as [Hrun _].
    rewrite (bind_Ok _ _ _ _ _ Hrun). rewrite Hdom.
    fold (new_native (heap s)). fold (new_view_controller (heap s)).
    unfold ret, s0, new_heap. rewrite heap_with_heap, with_heap_twice. do 2 f_equal.
    apply map_eq. intros j. rewrite !lookup_insert.
    repeat case_decide; simplify_eq; done.
  - destruct (controller_init_run s0 (new_self (heap s)) _ _ content ln f H0)
      as [_ Hrun].
    rewrite (bind_Ok _ _ _ _ _ Hrun). rewrite Hdom.
    fold (new_native (heap s)). fold (new_view_controller (heap s)).
    unfold ret, s0, new_heap. rewrite heap_with_heap, with_heap_twice. do 2 f_equal.
    apply map_eq. intros j. rewrite !lookup_insert.
    repeat case_decide; simplify_eq; done.
  - rewrite (bind_Ok _ _ _ _ _
               (NavigationContainer_init_run s0 (new_self (heap s)) _ _ content ln f H0)).
    rewrite Hdom.
    fold (new_native (heap s)). fold (new_view_controller (heap s)).
    fold (new_navigation_controller (heap s)).
    unfold ret, s0, new_heap. rewrite heap_with_heap, with_heap_twice. do 2 f_equal.
    apply map_eq. intros j. rewrite !lookup_insert.
    repeat case_decide; simplify_eq; done.
Qed.

Lemma Container_dict_lookup_other d n content ln f name :
  name ≠ "layout_native" → name ≠ "native" → name ≠ "on_refresh" → name ≠ "_content" →
  Container_dict d n content ln f !! name = d !! name.
Proof.
  intros. unfold Container_dict. by rewrite !lookup_insert_ne.
Qed.

Lemma new_heap_self `{Runtime} k content ln f h :
  variant k →
  new_heap k content ln f h !! new_self h =
    Some (PyObject (Toga k) (new_dict k content ln f h)).
Proof.
  intros Hk. destruct k; [by destruct Hk|..]; unfold new_heap, new_dict;
    apply lookup_insert_eq.
Qed.

Lemma new_heap_native `{Runtime} k content ln f h :
  variant k →
  new_heap k content ln f h !! new_native h = Some (UIView fresh_view).
Proof.
  intros Hk.
  destruct (new_addresses h) as (_ & (Hns & Hts & Hcs & Htn & Hcn & Hct)).
  destruct k; [by destruct Hk|..]; unfold new_heap;
    repeat first [ rewrite lookup_insert_eq | rewrite lookup_insert_ne by congruence ];
    done.
Qed.

Lemma new_dict_title_slot k content ln f h :
  k ≠ KNavigationContainer → new_dict k content ln f h !! title_slot k = None.
Proof.
  intros Hk. destruct k; try done; unfold new_dict, title_slot;
    rewrite ?lookup_insert_ne by done;
    by rewrite Container_dict_lookup_other.
Qed.

Lemma new_dict_layout_native k content ln f h :
  variant k →
  new_dict k content ln f h !! "layout_native" =
    Some (match ln with VNone => VRef (new_native h) | _ => ln end).
Proof.
  intros Hk. destruct k; [by destruct Hk|..]; unfold new_dict;
    rewrite ?lookup_insert_ne by done; unfold Container_dict;
    by rewrite lookup_insert_eq.
Qed.

(** Reading through a value that is a number or a string. *)
Lemma bounds_size_scalar v s :
  scalar v → bounds_size v s = Raise AttributeError s.
Proof. by destruct v. Qed.

Lemma getattr_geometry_scalar s self k d ln :
  variant k → is_instance s self k d →
  d !! "layout_native" = Some ln → scalar ln →
  getattr self "width" s = Raise AttributeError s ∧
  getattr self "height" s = Raise AttributeError s.
Proof.
  intros Hk Hi Hl Hln.
  assert (∀ B (g : CGSize → M B),
            (x <- load_attr (VRef self) "layout_native" ;; sz <- bounds_size x ;; g sz) s =
            Raise AttributeError s) as Hrun.
  { intros B g. rewrite (bind_Ok _ _ _ _ _ (load_attr_Some _ _ _ _ _ _ Hi Hl)).
    unfold bind. by rewrite (bounds_size_scalar _ _ Hln). }
  split.
  - rewrite (getattr_property _ _ _ _ "width" _ _ Hi (class_attr_width k Hk)).
    apply Hrun.
  - destruct k; [by destruct Hk|..];
      rewrite (getattr_property _ _ _ _ "height" _ _ Hi eq_refl); apply Hrun.
Qed.

(** ** Content that is not a true widget *)

Lemma truth_scalar v h s : scalar v → truth v s = Ok (truthy h v) s.
Proof. by destruct v. Qed.

Lemma store_attr_scalar v name x s :
  scalar v → store_attr v name x s = Raise AttributeError s.
Proof. by destruct v. Qed.

(** The setter up to and including the store of the new content. *)
Lemma content_setter_prefix {B} s self k d old w (rest : M B) :
  is_instance s self k d → d !! "_content" = Some old → widget_or_none s old →
  (old' <- self_content self ;;
   t <- truth old' ;;
   (if t then
      c <- load_attr (VRef self) "_content" ;;
      store_attr c "container" VNone
    else ret tt) ;;;
   store_attr (VRef self) "_content" w ;;;
   rest) s =
  rest (with_heap (store_content self old w (heap s)) s).
Proof.
  intros H Hold Ho.
  rewrite (bind_Ok _ _ _ _ _ (self_content_run _ _ _ _ _ H Hold)).
  rewrite (bind_Ok _ _ _ _ _ (truth_run _ _ Ho)).
  rewrite (bind_Ok _ _ _ _ _ (unwire_old_run _ _ _ _ _ H Hold Ho)).
  destruct (unwire_pyobject (heap s) old self _ _ H) as [d1 H1].
  by rewrite (bind_Ok _ _ _ _ _
                (store_attr_run (with_heap (unwire old (heap s)) s) _ _ _ "_content" w H1)).
Qed.

Lemma content_setter_scalar_run s self k d old w :
  is_instance s self k d → d !! "_content" = Some old → widget_or_none s old →
  scalar w →
  setattr self "content" w s =
    if truthy (heap s) w
    then Raise AttributeError (with_heap (store_content self old w (heap s)) s)
    else Ok tt (with_heap (store_content self old w (heap s)) s).
Proof.
  intros H Hold Ho Hw.
  rewrite (setattr_property _ _ _ _ "content" _ _ _ H (class_attr_content k)).
  unfold BaseContainer_content_setter.
  rewrite (content_setter_prefix s self k d old w _ H Hold Ho).
  rewrite (bind_Ok _ _ _ _ _ (truth_scalar w (heap s) _ Hw)).
  destruct (truthy (heap s) w); [|done].
  by apply store_attr_scalar.
Qed.

Lemma truth_false_truthy s v :
  widget_or_none s v → truth v s = Ok false s → truthy (heap s) v = false.
Proof. intros Hv. rewrite (truth_run _ _ Hv). by intros [= ->]. Qed.

(** A false object is not an instance of the module's classes, and is not a
    true value. *)
Lemma falsy_not_instance h r self k d :
  truthy h (VRef r) = false → h !! self = Some (PyObject (Toga k) d) → r ≠ self.
Proof. intros Ht Hs ->. simpl in Ht. by rewrite Hs in Ht. Qed.

Lemma unwire_lookup_falsy h old r :
  truthy h (VRef r) = false → unwire old h !! r = h !! r.
Proof.
  intros Ht. unfold unwire. destruct (truthy h old) eqn:Ho; [|done].
  rewrite lookup_heap_set_attr.
  destruct (decide (old = VRef r)) as [->|]; [congruence|done].
Qed.

Lemma store_content_lookup_other h self old w r :
  r ≠ self → store_content self old w h !! r = unwire old h !! r.
Proof.
  intros Hr. unfold store_content. rewrite lookup_heap_set_attr.
  destruct (decide (VRef self = VRef r)) as [[= ->]|]; done.
Qed.

(** ** What an assignment cannot do *)

Lemma reads_only_keeps_objects {A} (m : M A) : reads_only m → keeps_objects m.
Proof. intros Hm s. specialize (Hm s). destruct (m s); by subst. Qed.

Lemma keeps_objects_bind {A B} (m : M A) (f : A → M B) :
  keeps_objects m → (∀ a, keeps_objects (f a)) → keeps_objects (bind m f).
Proof.
  intros Hm Hf s. unfold bind. specialize (Hm s).
  destruct (m s) as [a s'| |]; [|done..].
  specialize (Hf a s'). destruct Hm as [Hsb Hk].
  destruct (f a s') as [b s''|e s''|]; [| |done];
    (destruct Hf as [Hsb' Hk']; split; [congruence|];
     intros l; by rewrite Hk', Hk).
Qed.

(** Replacing the object at an address by one of the same kind. *)
Lemma keeps_objects_replace s l o o' :
  heap s !! l = Some o → kind_of o' = kind_of o →
  ∀ j, kind_of <$> heap (with_heap (<[l := o']> (heap s)) s) !! j =
       kind_of <$> heap s !! j.
Proof.
  intros Hl Hk j. rewrite heap_with_heap.
  destruct (decide (l = j)) as [<-|Hne].
  - rewrite lookup_insert_eq, Hl. simpl. by rewrite Hk.
  - by rewrite lookup_insert_ne.
Qed.

Lemma keeps_objects_store_attr v name x : keeps_objects (store_attr v name x).
Proof.
  intros s. destruct v as [| | | | |l]; try done.
  unfold store_attr, bind, lookup_obj.
  destruct (heap s !! l) as [[c d| | |]|] eqn:Hl; try done.
  split; [done|]. by eapply keeps_objects_replace.
Qed.

Lemma keeps_objects_vc_set_title v x : keeps_objects (vc_set_title v x).
Proof.
  intros s. destruct v as [| | | | |l]; try done.
  unfold vc_set_title, bind, lookup_obj.
  destruct (heap s !! l) as [[c d| | |]|] eqn:Hl; try done.
  split; [done|]. by eapply keeps_objects_replace.
Qed.

Create HintDb objects discriminated.
#[local] Hint Resolve keeps_objects_store_attr keeps_objects_vc_set_title : objects.
#[local] Hint Extern 1 (keeps_objects _) =>
  apply reads_only_keeps_objects; solve [eauto with reads] : objects.

Ltac keeps_objects_tac :=
  repeat first
    [ solve [eauto with objects]
    | apply keeps_objects_bind; [|intros ?]
    | match goal with |- keeps_objects (match ?x with _ => _ end) => destruct x end
    | match goal with |- keeps_objects (if ?x then _ else _) => destruct x end ].

Lemma keeps_objects_content_setter self w :
  keeps_objects (BaseContainer_content_setter self w).
Proof. unfold BaseContainer_content_setter. keeps_objects_tac. Qed.

Lemma keeps_objects_RootContainer_title_setter self v :
  keeps_objects (RootContainer_title_setter self v).
Proof. unfold RootContainer_title_setter. keeps_objects_tac. Qed.

Lemma keeps_objects_NavigationContainer_title_setter self v :
  keeps_objects (NavigationContainer_title_setter self v).
Proof. unfold NavigationContainer_title_setter. keeps_objects_tac. Qed.

#[local] Hint Resolve keeps_objects_content_setter
  keeps_objects_RootContainer_title_setter
  keeps_objects_NavigationContainer_title_setter : objects.

Lemma keeps_objects_setters k name fget fset self v :
  member_of k name = Some (Property fget (Some fset)) → keeps_objects (fset self v).
Proof.
  intros H%member_of_In.
  destruct k; simpl in H; intuition; simplify_eq; eauto with objects.
Qed.

Lemma keeps_objects_setattr self name v : keeps_objects (setattr self name v).
Proof.
  unfold setattr. apply keeps_objects_bind; [eauto with objects|].
  intros [k|b]; [|eauto with objects].
  unfold class_attr. destruct (resolve k name) as [owner|]; [|eauto with objects].
  destruct (member_of owner name) as [[|fget [fset|]]|] eqn:Hm.
  - eauto with objects.
  - by eapply keeps_objects_setters.
  - by intros s.
  - eauto with objects.
Qed.

Lemma keeps_objects_dom {A} (m : M A) s a s' :
  keeps_objects m → m s = Ok a s' → dom (heap s') = dom (heap s).
Proof.
  intros Hm Hrun. specialize (Hm s). rewrite Hrun in Hm. destruct Hm as [_ Hk].
  apply set_eq. intros l. rewrite !elem_of_dom.
  specialize (Hk l).
  destruct (heap s' !! l), (heap s !! l); simpl in Hk; try done;
    split; intros [? ?]; done.
Qed.

(** ** Reads that an assignment cannot change *)

Lemma slot_agrees_refl ks vt o : slot_agrees ks vt o o.
Proof. by destruct o as [[c d|u|vc|nc]|]. Qed.

Lemma slot_agrees_set_attr_obj ks vt o o' name x :
  name ∈ ks → slot_agrees ks vt o o' →
  slot_agrees ks vt o (set_attr_obj name x <$> o').
Proof.
  intros Hn. destruct o as [[c d|u|vc|nc]|], o' as [[c' d'|u'|vc'|nc']|];
    simpl; try done.
  intros [-> Hd]. split; [done|]. intros n Hnn.
  rewrite lookup_insert_ne; [by apply Hd|]. by intros ->.
Qed.

Lemma agrees_outside_refl ks vt s : agrees_outside ks vt s s.
Proof. split; [done|]. intros l. apply slot_agrees_refl. Qed.

Lemma agrees_outside_heap_set_attr ks vt s h' v name x :
  (∀ l, v = VRef l → name ∈ ks l) →
  agrees_outside ks vt s (with_heap h' s) →
  agrees_outside ks vt s (with_heap (heap_set_attr v name x h') s).
Proof.
  intros Hv [Hsb Hh]. split; [done|]. intros l. specialize (Hh l).
  rewrite heap_with_heap in *. rewrite lookup_heap_set_attr.
  destruct (decide (v = VRef l)) as [Heq|]; [|done].
  apply slot_agrees_set_attr_obj; [by apply Hv|done].
Qed.

Lemma agrees_outside_assign_content s self w :
  agrees_outside (content_writes self) false s
    (with_heap (assign_content self w (heap s)) s).
Proof.
  assert (∀ l, "container" ∈ content_writes self l) as Hc.
  { intros l. unfold content_writes. case_decide; repeat constructor. }
  assert (∀ l, VRef self = VRef l → "_content" ∈ content_writes self l) as Hs.
  { intros l [= <-]. unfold content_writes. rewrite decide_True by done.
    repeat constructor. }
  unfold assign_content, store_content, unwire.
  repeat match goal with
         | |- context [if ?b then _ else _] => destruct b
         end;
    repeat (apply agrees_outside_heap_set_attr; [by auto|]);
    rewrite with_heap_same; apply agrees_outside_refl.
Qed.

Lemma agrees_outside_title_slot s self k d v :
  is_instance s self k d →
  agrees_outside (title_writes k self) true s
    (with_heap (<[self := PyObject (Toga k) (<[title_slot k := v]> d)]> (heap s)) s).
Proof.
  intros Hi. split; [done|]. intros l. rewrite heap_with_heap.
  destruct (decide (self = l)) as [<-|Hne].
  - rewrite lookup_insert_eq, Hi. simpl. split; [done|].
    intros n Hn. rewrite lookup_insert_ne; [done|]. intros <-. apply Hn.
    unfold title_writes. rewrite decide_True by done. repeat constructor.
  - rewrite lookup_insert_ne by done. apply slot_agrees_refl.
Qed.

Lemma agrees_outside_vc_title ks s t vc v :
  heap s !! t = Some (UIViewController vc) →
  agrees_outside ks true s
    (with_heap (<[t := UIViewController {| view := view vc; vc_title := v |}]> (heap s)) s).
Proof.
  intros Ht. split; [done|]. intros l. rewrite heap_with_heap.
  destruct (decide (t = l)) as [<-|Hne].
  - rewrite lookup_insert_eq, Ht. simpl. by split.
  - rewrite lookup_insert_ne by done. apply slot_agrees_refl.
Qed.

Section same_read.
Context (ks : loc → list string) (vt : bool) (s s' : state).
Hypothesis Hagree : agrees_outside ks vt s s'.

Lemma same_read_ret {A} (a : A) : same_read (ret a) s s'.
Proof. by intros a' [= ->]. Qed.

Lemma same_read_raise {A} e : same_read (@raise A e) s s'.
Proof. by intros a. Qed.

Lemma same_read_unmodelled {A} : same_read (@unmodelled A) s s'.
Proof. by intros a. Qed.

Lemma same_read_bind {A B} (m : M A) (f : A → M B) :
  reads_only m → same_read m s s' → (∀ a, same_read (f a) s s') →
  same_read (bind m f) s s'.
Proof.
  intros Hro Hm Hf b. unfold bind. specialize (Hro s).
  destruct (m s) as [a s1| |] eqn:Hrun; [|done..]. subst s1.
  intros Hfa. rewrite (Hm a Hrun). by apply Hf.
Qed.

Lemma same_read_lookup_py l c d :
  heap s !! l = Some (PyObject c d) →
  ∃ d', heap s' !! l = Some (PyObject c d') ∧ ∀ n, n ∉ ks l → d' !! n = d !! n.
Proof.
  intros Hl. destruct Hagree as [_ Hh]. specialize (Hh l). rewrite Hl in Hh.
  destruct (heap s' !! l) as [[c' d'|u|vc|nc]|]; simpl in Hh; try done.
  destruct Hh as [-> Hd]. by exists d'.
Qed.

Lemma same_read_class_of l : same_read (class_of l) s s'.
Proof.
  intros c. unfold class_of, bind, lookup_obj.
  destruct (heap s !! l) as [[c0 d| | |]|] eqn:Hl; try done.
  intros [= ->]. destruct (same_read_lookup_py _ _ _ Hl) as (d' & -> & _). done.
Qed.

Lemma same_read_load_attr v name :
  (∀ l, v = VRef l → name ∉ ks l) → same_read (load_attr v name) s s'.
Proof.
  intros Hn x. destruct v as [| | | | |l]; try done.
  unfold load_attr, bind, lookup_obj.
  destruct (heap s !! l) as [[c d| | |]|] eqn:Hl; try done.
  destruct (same_read_lookup_py _ _ _ Hl) as (d' & -> & Hd).
  rewrite (Hd name (Hn l eq_refl)).
  destruct (d !! name); [|done]. by intros [= ->].
Qed.

Lemma same_read_bounds_size v : same_read (bounds_size v) s s'.
Proof.
  intros x. destruct v as [| | | | |l]; try done.
  unfold bounds_size, bind, lookup_obj.
  destruct Hagree as [_ Hh]. specialize (Hh l).
  destruct (heap s !! l) as [[c d|u|vc|nc]|]; try done.
  destruct (heap s' !! l) as [[c' d'|u'|vc'|nc']|]; simpl in Hh; try done.
  subst u'. by intros [= ->].
Qed.

Lemma same_read_navigationBar_frame_size v :
  same_read (navigationBar_frame_size v) s s'.
Proof.
  intros x. destruct v as [| | | | |l]; try done.
  unfold navigationBar_frame_size, bind, lookup_obj.
  destruct Hagree as [_ Hh]. specialize (Hh l).
  destruct (heap s !! l) as [[c d|u|vc|nc]|]; try done.
  destruct (heap s' !! l) as [[c' d'|u'|vc'|nc']|]; simpl in Hh; try done.
  subst nc'. by intros [= ->].
Qed.

Lemma same_read_topViewController v : same_read (topViewController v) s s'.
Proof.
  intros x. destruct v as [| | | | |l]; try done.
  unfold topViewController, bind, lookup_obj.
  destruct Hagree as [_ Hh]. specialize (Hh l).
  destruct (heap s !! l) as [[c d|u|vc|nc]|]; try done.
  destruct (heap s' !! l) as [[c' d'|u'|vc'|nc']|]; simpl in Hh; try done.
  subst nc'. by intros [= ->].
Qed.

Lemma same_read_vc_get_title v : vt = false → same_read (vc_get_title v) s s'.
Proof.
  intros Hvt x. destruct v as [| | | | |l]; try done.
  unfold vc_get_title, bind, lookup_obj.
  destruct Hagree as [_ Hh]. specialize (Hh l).
  destruct (heap s !! l) as [[c d|u|vc|nc]|]; try done.
  destruct (heap s' !! l) as [[c' d'|u'|vc'|nc']|]; simpl in Hh; try done.
  destruct Hh as [_ Ht]. rewrite (Ht Hvt). by intros [= ->].
Qed.

Lemma same_read_statusBarFrame_size : same_read statusBarFrame_size s s'.
Proof.
  intros x. unfold statusBarFrame_size. destruct Hagree as [-> _].
  by intros [= ->].
Qed.

Lemma same_read_py_add a b : same_read (py_add a b) s s'.
Proof. intros x. destruct a, b; simpl; try done; by intros [= ->]. Qed.

Lemma same_read_py_sub a b : same_read (py_sub a b) s s'.
Proof. intros x. destruct a, b; simpl; try done; by intros [= ->]. Qed.

Lemma same_read_content self :
  "_content" ∉ ks self → same_read (BaseContainer_content self) s s'.
Proof. intros Hk. apply same_read_load_attr. by intros l [= <-]. Qed.

Lemma same_read_layout_size self :
  "layout_native" ∉ ks self →
  same_read (ln <- load_attr (VRef self) "layout_native" ;; bounds_size ln) s s'.
Proof.
  intros Hk. apply same_read_bind; [apply reads_only_load_attr| |].
  - apply same_read_load_attr. by intros l [= <-].
  - intros ln. apply same_read_bounds_size.
Qed.

Lemma same_read_Container_width self :
  "layout_native" ∉ ks self → same_read (Container_width self) s s'.
Proof.
  intros Hk. unfold Container_width.
  apply same_read_bind; [apply reads_only_load_attr| |].
  - apply same_read_load_attr. by intros l [= <-].
  - intros ln. apply same_read_bind; [apply reads_only_bounds_size| |].
    + apply same_read_bounds_size.
    + intros sz. apply same_read_ret.
Qed.

Lemma same_read_Container_height self :
  "layout_native" ∉ ks self → same_read (Container_height self) s s'.
Proof.
  intros Hk. unfold Container_height.
  apply same_read_bind; [apply reads_only_load_attr| |].
  - apply same_read_load_attr. by intros l [= <-].
  - intros ln. apply same_read_bind; [apply reads_only_bounds_size| |].
    + apply same_read_bounds_size.
    + intros sz. apply same_read_ret.
Qed.

Lemma same_read_NavigationContainer_top_offset self :
  "controller" ∉ ks self → same_read (NavigationContainer_top_offset self) s s'.
Proof.
  intros Hk. unfold NavigationContainer_top_offset.
  apply same_read_bind;
    [apply reads_only_statusBarFrame_size|apply same_read_statusBarFrame_size|].
  intros sb. apply same_read_bind; [apply reads_only_load_attr| |].
  - apply same_read_load_attr. by intros l [= <-].
  - intros c. apply same_read_bind;
      [apply reads_only_navigationBar_frame_size
      |apply same_read_navigationBar_frame_size|].
    intros nb. apply same_read_py_add.
Qed.

Lemma same_read_RootContainer_top_offset self :
  same_read (RootContainer_top_offset self) s s'.
Proof.
  unfold RootContainer_top_offset.
  apply same_read_bind;
    [apply reads_only_statusBarFrame_size|apply same_read_statusBarFrame_size|].
  intros sb. apply same_read_ret.
Qed.

Lemma same_read_self_top_offset self :
  "controller" ∉ ks self → "top_offset" ∉ ks self →
  same_read (self_top_offset self) s s'.
Proof.
  intros Hc Ht. unfold self_top_offset.
  apply same_read_bind; [apply reads_only_class_of|apply same_read_class_of|].
  intros [k|b]; [|apply same_read_unmodelled].
  destruct (resolve k "top_offset") as [[| | | |]|].
  - apply same_read_unmodelled.
  - apply same_read_ret.
  - apply same_read_unmodelled.
  - apply same_read_RootContainer_top_offset.
  - by apply same_read_NavigationContainer_top_offset.
  - apply same_read_load_attr. by intros l [= <-].
Qed.

Lemma same_read_offset_height self :
  "layout_native" ∉ ks self → "controller" ∉ ks self → "top_offset" ∉ ks self →
  same_read (RootContainer_height self) s s' ∧
  same_read (NavigationContainer_height self) s s'.
Proof.
  intros Hl Hc Ht.
  assert (same_read (ln <- load_attr (VRef self) "layout_native" ;;
                     sz <- bounds_size ln ;;
                     off <- self_top_offset self ;;
                     py_sub (VFloat (sz_height sz)) off) s s') as Hrun.
  { apply same_read_bind; [apply reads_only_load_attr| |].
    - apply same_read_load_attr. by intros l [= <-].
    - intros ln. apply same_read_bind;
        [apply reads_only_bounds_size|apply same_read_bounds_size|].
      intros sz. apply same_read_bind;
        [apply reads_only_self_top_offset|by apply same_read_self_top_offset|].
      intros off. apply same_read_py_sub. }
  by split.
Qed.

Lemma same_read_RootContainer_title self :
  "_title" ∉ ks self → same_read (RootContainer_title self) s s'.
Proof. intros Hk. apply same_read_load_attr. by intros l [= <-]. Qed.

Lemma same_read_NavigationContainer_title self :
  "controller" ∉ ks self → vt = false →
  same_read (NavigationContainer_title self) s s'.
Proof.
  intros Hk Hvt. unfold NavigationContainer_title.
  apply same_read_bind; [apply reads_only_load_attr| |].
  - apply same_read_load_attr. by intros l [= <-].
  - intros c. apply same_read_bind;
      [apply reads_only_topViewController|apply same_read_topViewController|].
    intros t. by apply same_read_vc_get_title.
Qed.

(** A read of one of the five public attributes gives the same answer in
    [s'] when none of the entries it may consult was written. *)
Lemma same_read_getattr self name :
  name ∈ ["content"; "width"; "height"; "top_offset"; "title"] →
  (∀ n, n ∈ reads_of name → n ∉ ks self) →
  (name = "title" → vt = false) →
  same_read (getattr self name) s s'.
Proof.
  intros Hname Hreads Hvt. unfold getattr.
  apply same_read_bind; [apply reads_only_class_of|apply same_read_class_of|].
  assert (same_read (load_attr (VRef self) name) s s') as Hplain.
  { apply same_read_load_attr. intros l [= <-]. apply Hreads.
    repeat (apply elem_of_cons in Hname as [->|Hname];
            [unfold reads_of; simpl; repeat constructor|]).
    by apply elem_of_nil in Hname. }
  intros [k|b]; [|done].
  repeat (apply elem_of_cons in Hname as [->|Hname]; [|]); cycle 5.
  { by apply elem_of_nil in Hname. }
  - rewrite class_attr_content. apply same_read_content.
    apply Hreads. unfold reads_of; simpl. repeat constructor.
  - assert ("layout_native" ∉ ks self) as Hl
      by (apply Hreads; unfold reads_of; simpl; repeat constructor).
    destruct k; try exact Hplain; by apply same_read_Container_width.
  - assert ("layout_native" ∉ ks self) as Hl
      by (apply Hreads; unfold reads_of; simpl; repeat constructor).
    assert ("controller" ∉ ks self) as Hc
      by (apply Hreads; unfold reads_of; simpl; repeat constructor).
    assert ("top_offset" ∉ ks self) as Ht
      by (apply Hreads; unfold reads_of; simpl; repeat constructor).
    destruct (same_read_offset_height self Hl Hc Ht) as [Hr Hn].
    destruct k; try exact Hplain; try exact Hr; try exact Hn;
      by apply same_read_Container_height.
  - assert ("controller" ∉ ks self) as Hc
      by (apply Hreads; unfold reads_of; simpl; repeat constructor).
    destruct k; try exact Hplain.
    + apply same_read_ret.
    + apply same_read_ret.
    + apply same_read_RootContainer_top_offset.
    + by apply same_read_NavigationContainer_top_offset.
  - assert ("_title" ∉ ks self) as Ht
      by (apply Hreads; unfold reads_of; simpl; repeat constructor).
    assert ("controller" ∉ ks self) as Hc
      by (apply Hreads; unfold reads_of; simpl; repeat constructor).
    destruct k; try exact Hplain.
    + by apply same_read_RootContainer_title.
    + apply same_read_NavigationContainer_title; [done|by apply Hvt].
Qed.
End same_read.

Ltac disjoint_names :=
  let n := fresh "n" in
  let Hn := fresh "Hn" in
  let Hw := fresh "Hw" in
  intros n Hn Hw; unfold reads_of in Hn; simpl in Hn;
  unfold content_writes, title_writes, title_slot in Hw;
  repeat case_decide;
  repeat match goal with k : cls |- _ => destruct k end;
  repeat (apply elem_of_cons in Hn as [->|Hn];
          [repeat (apply elem_of_cons in Hw as [Hw|Hw]; [discriminate Hw|]);
           by apply elem_of_nil in Hw|]);
  by apply elem_of_nil in Hn.

(** Assigning content changes no geometry or title reading of any
    container, and no other container's content. *)
Lemma content_setter_frame s self w :
  let s' := with_heap (assign_content self w (heap s)) s in
  (∀ other name,
     name ∈ ["width"; "height"; "top_offset"; "title"] →
     same_read (getattr other name) s s') ∧
  (∀ other, other ≠ self → same_read (getattr other "content") s s').
Proof.
  intros s'.
  pose proof (agrees_outside_assign_content s self w) as Hagree. fold s' in Hagree.
  split.
  - intros other name Hname.
    apply (same_read_getattr _ _ _ _ Hagree); [|
      repeat (apply elem_of_cons in Hname as [->|Hname]; [disjoint_names|]);
      by apply elem_of_nil in Hname|done].
    apply elem_of_cons. by right.
  - intros other Hne.
    apply (same_read_getattr _ _ _ _ Hagree); [repeat constructor| |done].
    intros n Hn Hw. unfold reads_of in Hn; simpl in Hn.
    unfold content_writes in Hw. rewrite decide_False in Hw by done.
    repeat (apply elem_of_cons in Hn as [->|Hn];
            [repeat (apply elem_of_cons in Hw as [Hw|Hw]; [discriminate Hw|]);
             by apply elem_of_nil in Hw|]).
    by apply elem_of_nil in Hn.
Qed.

Lemma getattr_content_dict s self k d x :
  is_instance s self k d → getattr self "content" s = Ok x s →
  d !! "_content" = Some x.
Proof.
  intros Hi. rewrite (getattr_property _ _ _ _ "content" _ _ Hi (class_attr_content k)).
  unfold BaseContainer_content. rewrite (load_attr_instance _ _ _ _ _ Hi).
  destruct (d !! "_content"); [|done]. by intros [= ->].
Qed.

(** ** Content and title are written independently *)

Lemma unwire_heap_set_attr h old v name x :
  name ≠ "container" →
  unwire old (heap_set_attr v name x h) = heap_set_attr v name x (unwire old h).
Proof.
  intros Hn. unfold unwire. rewrite truthy_heap_set_attr.
  destruct (truthy h old); [|done].
  by rewrite (heap_set_attr_commute _ old "container") by done.
Qed.

Lemma store_content_heap_set_attr h self old w v name x :
  name ≠ "_content" → name ≠ "container" →
  store_content self old w (heap_set_attr v name x h) =
  heap_set_attr v name x (store_content self old w h).
Proof.
  intros H1 H2. unfold store_content. rewrite unwire_heap_set_attr by done.
  by rewrite (heap_set_attr_commute _ (VRef self) "_content") by done.
Qed.

Lemma assign_content_heap_set_attr h self w v name x :
  name ≠ "_content" → name ≠ "container" →
  assign_content self w (heap_set_attr v name x h) =
  heap_set_attr v name x (assign_content self w h).
Proof.
  intros H1 H2. unfold assign_content.
  rewrite heap_set_attr_other by done.
  rewrite store_content_heap_set_attr by done.
  rewrite truthy_heap_set_attr.
  destruct (truthy (store_content _ _ _ _) w); [|done].
  by rewrite (heap_set_attr_commute _ w "container") by done.
Qed.

Lemma heap_set_attr_set_vc_title h t v u name x :
  heap_set_attr u name x (alter (set_vc_title v) t h) =
  alter (set_vc_title v) t (heap_set_attr u name x h).
Proof.
  destruct u as [| | | | |l]; simpl; try done.
  apply map_eq. intros j.
  destruct (decide (l = j)) as [->|]; destruct (decide (t = j)) as [->|];
    repeat (rewrite lookup_alter_eq || rewrite lookup_alter_ne by done);
    try done.
  by destruct (h !! j) as [[c d| | |]|].
Qed.

Lemma truthy_set_vc_title h t v u :
  truthy (alter (set_vc_title v) t h) u = truthy h u.
Proof.
  destruct u as [| | | | |l]; simpl; try done.
  destruct (decide (t = l)) as [->|Hne].
  - rewrite lookup_alter_eq. by destruct (h !! l) as [[[]| | |]|].
  - by rewrite lookup_alter_ne.
Qed.

Lemma heap_attr_set_vc_title h t v u name :
  heap_attr (alter (set_vc_title v) t h) u name = heap_attr h u name.
Proof.
  destruct u as [| | | | |l]; simpl; try done.
  destruct (decide (t = l)) as [->|Hne].
  - rewrite lookup_alter_eq. by destruct (h !! l) as [[c d| | |]|].
  - by rewrite lookup_alter_ne.
Qed.

Lemma unwire_set_vc_title h old t v :
  unwire old (alter (set_vc_title v) t h) = alter (set_vc_title v) t (unwire old h).
Proof.
  unfold unwire. rewrite truthy_set_vc_title.
  destruct (truthy h old); [|done]. by rewrite heap_set_attr_set_vc_title.
Qed.

Lemma assign_content_set_vc_title h self w t v :
  assign_content self w (alter (set_vc_title v) t h) =
  alter (set_vc_title v) t (assign_content self w h).
Proof.
  unfold assign_content, store_content.
  rewrite heap_attr_set_vc_title, unwire_set_vc_title.
  rewrite heap_set_attr_set_vc_title, truthy_set_vc_title.
  destruct (truthy (heap_set_attr _ _ _ _) w); [|done].
  by rewrite heap_set_attr_set_vc_title.
Qed.

Lemma widget_or_none_insert_native s l o v :
  heap s !! l = Some o → (∀ c d, o ≠ PyObject c d) →
  ∀ o', widget_or_none s v → widget_or_none (with_heap (<[l := o']> (heap s)) s) v.
Proof.
  intros Hl Ho o' [->|(j & c & d & -> & Hj)]; [by left|]. right.
  exists j, c, d. split; [done|]. rewrite heap_with_heap.
  rewrite lookup_insert_ne; [done|]. intros ->. rewrite Hl in Hj.
  simplify_eq. by eapply Ho.
Qed.

(** Both orders of [content = w] and [title = v] return and leave the same
    store. *)
Lemma content_title_commute s self k d old w v :
  variant k → is_instance s self k d → d !! "_content" = Some old →
  widget_or_none s old → widget_or_none s w →
  (k = KNavigationContainer →
   ∃ c nc t vc, nav_controller s d c nc ∧ top_controller s nc t vc) →
  ∃ s1 s2 s3,
    setattr self "content" w s = Ok tt s1 ∧ setattr self "title" v s1 = Ok tt s3 ∧
    setattr self "title" v s = Ok tt s2 ∧ setattr self "content" w s2 = Ok tt s3.
Proof.
  intros Hk Hi Hold Ho Hw Hnav.
  set (h1 := assign_content self w (heap s)).
  destruct (assign_content_pyobject s self k d old w self _ _ Hi Hold Hi) as [d1 Hi1].
  fold h1 in Hi1.
  assert (∀ m, m ≠ "_content" → m ≠ "container" → d1 !! m = d !! m) as Hother.
  { intros m H1 H2.
    rewrite <- (heap_attr_dict _ _ _ _ m Hi1), <- (heap_attr_dict _ _ _ _ m Hi).
    by apply assign_content_other_attr. }
  exists (with_heap h1 s).
  destruct (decide (k = KNavigationContainer)) as [->|Hn].
  - destruct (Hnav eq_refl) as (c & nc & t & vc & [Hc Hnc] & [Ht Hvc]).
    set (vc' := UIViewController {| view := view vc; vc_title := v |}).
    exists (with_heap (<[t := vc']> (heap s)) s), (with_heap (<[t := vc']> h1) s).
    assert (h1 !! t = Some (UIViewController vc)) as Hvc1
      by (by apply assign_content_native).
    split; [by eapply content_setter_run|]. split; [|split].
    + rewrite (setattr_property (with_heap h1 s) _ _ _ "title" _ _ _ Hi1 eq_refl).
      rewrite (NavigationContainer_title_setter_run (with_heap h1 s) self
                 KNavigationContainer d1 c nc t vc).
      * by rewrite heap_with_heap, with_heap_twice.
      * done.
      * split; [by rewrite Hother|]. by apply assign_content_native.
      * by split.
    + rewrite (setattr_property _ _ _ _ "title" _ _ _ Hi eq_refl).
      by eapply NavigationContainer_title_setter_run.
    + assert (t ≠ self) as Hts by (intros ->; congruence).
      rewrite (content_setter_run (with_heap (<[t := vc']> (heap s)) s) self
                 KNavigationContainer d old w).
      * rewrite heap_with_heap, with_heap_twice. do 2 f_equal.
        assert (<[t := vc']> (heap s) = alter (set_vc_title v) t (heap s)) as ->
          by (symmetry; apply (alter_present (set_vc_title v) _ _ _ Hvc)).
        assert (<[t := vc']> h1 = alter (set_vc_title v) t h1) as ->
          by (symmetry; apply (alter_present (set_vc_title v) _ _ _ Hvc1)).
        by rewrite assign_content_set_vc_title.
      * unfold is_instance. rewrite heap_with_heap. by rewrite lookup_insert_ne.
      * done.
      * eapply widget_or_none_insert_native; [exact Hvc|congruence|done].
      * eapply widget_or_none_insert_native; [exact Hvc|congruence|done].
  - set (slot := title_slot k).
    destruct (title_slot_not_shape k) as (Hs1 & Hs2 & _). fold slot in Hs1, Hs2.
    exists (with_heap (heap_set_attr (VRef self) slot v (heap s)) s),
      (with_heap (heap_set_attr (VRef self) slot v h1) s).
    split; [by eapply content_setter_run|]. split; [|split].
    + rewrite (setattr_title_slot (with_heap h1 s) self k d1 v Hk Hn Hi1).
      rewrite heap_with_heap, with_heap_twice. simpl.
      by rewrite (alter_present _ _ _ _ Hi1).
    + rewrite (setattr_title_slot s self k d v Hk Hn Hi). simpl.
      by rewrite (alter_present _ _ _ _ Hi).
    + destruct (heap_set_attr_pyobject (heap s) (VRef self) slot v self _ _ Hi)
        as (d2 & Hi2 & Hd2).
      rewrite (content_setter_run (with_heap _ s) self k d2 old w Hi2).
      * rewrite heap_with_heap, with_heap_twice. do 2 f_equal.
        by apply assign_content_heap_set_attr.
      * rewrite Hd2. by rewrite decide_False by (intros [? ?]; congruence).
      * by apply widget_or_none_heap_set_attr.
      * by apply widget_or_none_heap_set_attr.
Qed.

(** ** The geometry and title statements *)

(** C1.  Reading [top_offset] on a [NavigationContainer] gives the height of
    the shared application's status bar frame plus the height of the
    container's navigation bar frame; on a [RootContainer] it gives the status
    bar height alone; on a plain [Container] it gives the integer 0.  The
    read always returns and leaves the store as it was. *)
Theorem top_offset_by_class :
  (∀ s self d c nc,
     is_instance s self KNavigationContainer d → nav_controller s d c nc →
     getattr self "top_offset" s =
       Ok (VFloat (status_height s + bar_height nc)) s) ∧
  (∀ s self d,
     is_instance s self KRootContainer d →
     getattr self "top_offset" s = Ok (VFloat (status_height s)) s) ∧
  (∀ s self d,
     is_instance s self KContainer d →
     getattr self "top_offset" s = Ok (VInt 0) s).
Proof.
  split; [|split].
  - intros s self d c nc H Hn. by eapply getattr_top_offset_navigation.
  - intros s self d H. by eapply getattr_top_offset_root.
  - intros s self d H. eapply getattr_top_offset_plain; [done|by left].
Qed.

(** C2.  On a [RootContainer] and on a [NavigationContainer], [height] is
    the bounds height of the [layout_native] view minus the value that
    [top_offset] returns for that container, and [width] is the bounds width
    as it is; on a plain [Container], [height] is the bounds height itself. *)
Theorem height_width_by_class :
  (∀ s self k d l u off,
     k = KRootContainer ∨ k = KNavigationContainer →
     is_instance s self k d → layout_view s d l u →
     getattr self "top_offset" s = Ok (VFloat off) s →
     getattr self "height" s = Ok (VFloat (view_height u - off)) s ∧
     getattr self "width" s = Ok (VFloat (view_width u)) s) ∧
  (∀ s self d l u,
     is_instance s self KContainer d → layout_view s d l u →
     getattr self "height" s = Ok (VFloat (view_height u)) s ∧
     getattr self "width" s = Ok (VFloat (view_width u)) s).
Proof.
  split.
  - intros s self k d l u off Hk H Hv Hoff.
    assert (variant k) as Hvar by (by destruct Hk as [-> | ->]).
    split; [by eapply getattr_height_offset | by eapply getattr_width].
  - intros s self d l u H Hv.
    split; [eapply getattr_height_plain; [by left|done..] | by eapply getattr_width].
Qed.

(** C10.  After [title = v], reading [title] returns [v]: a [RootContainer]
    keeps it in its own [_title] attribute, a [NavigationContainer] in the
    [title] of the view controller on top of its navigation stack. *)
Theorem title_round_trip :
  (∀ s self d v,
     is_instance s self KRootContainer d →
     let s' := with_heap
                 (<[self := PyObject (Toga KRootContainer) (<["_title" := v]> d)]> (heap s)) s in
     setattr self "title" v s = Ok tt s' ∧ getattr self "title" s' = Ok v s') ∧
  (∀ s self d c nc t vc v,
     is_instance s self KNavigationContainer d →
     nav_controller s d c nc → top_controller s nc t vc →
     let s' := with_heap
                 (<[t := UIViewController {| view := view vc; vc_title := v |}]> (heap s)) s in
     setattr self "title" v s = Ok tt s' ∧ getattr self "title" s' = Ok v s').
Proof.
  split.
  - intros s self d v H s'.
    assert (is_instance s' self KRootContainer (<["_title" := v]> d)) as H'
      by apply lookup_insert_eq.
    split.
    + rewrite (setattr_property _ _ _ _ "title" _ _ _ H eq_refl).
      by apply store_attr_instance.
    + rewrite (getattr_property _ _ _ _ "title" _ _ H' eq_refl).
      eapply load_attr_Some; [exact H'|]. by rewrite lookup_insert_eq.
  - intros s self d c nc t vc v H [Hc Hnc] [Ht Hvc] s'.
    assert (t ≠ self) as Hts by (intros ->; congruence).
    assert (t ≠ c) as Htc by (intros ->; congruence).
    split.
    + rewrite (setattr_property _ _ _ _ "title" _ _ _ H eq_refl).
      by eapply NavigationContainer_title_setter_run.
    + assert (is_instance s' self KNavigationContainer d) as H'
        by (unfold is_instance, s'; simpl; by rewrite lookup_insert_ne).
      rewrite (getattr_property _ _ _ _ "title" _ _ H' eq_refl).
      eapply (NavigationContainer_title_run s' self _ d c nc t
                {| view := view vc; vc_title := v |}); [done| |].
      * split; [done|]. unfold s'; simpl. by rewrite lookup_insert_ne.
      * split; [done|]. unfold s'; simpl. by rewrite lookup_insert_eq.
Qed.

(** ** No caching *)

Lemma is_instance_platform_update s self k d l o o' :
  is_instance s self k d → heap s !! l = Some o →
  (∀ c d', o ≠ PyObject c d') →
  is_instance (platform_update l o' s) self k d.
Proof.
  intros H Hl Hne. unfold is_instance, platform_update. simpl.
  rewrite lookup_insert_ne; [done|]. intros ->. rewrite H in Hl.
  simplify_eq. by eapply Hne.
Qed.

(** C6.  Reading any attribute of a container ([width], [height],
    [top_offset], [content] and [title] among them) leaves the whole store
    unchanged, whether the read returns or raises; and the geometry is read
    afresh from the native objects: once the platform has changed the bounds
    of the [layout_native] view, the status bar frame or the navigation bar
    frame, the next read of [width], [height] or [top_offset] reports the new
    measurement. *)
Theorem reads_are_live_and_pure :
  (∀ self name, reads_only (getattr self name)) ∧
  (∀ s self k d l u u',
     variant k → is_instance s self k d → layout_view s d l u →
     let s' := platform_update l (UIView u') s in
     getattr self "width" s' = Ok (VFloat (view_width u')) s' ∧
     (k = KContainer ∨ k = KControlledContainer →
      getattr self "height" s' = Ok (VFloat (view_height u')) s') ∧
     (k = KRootContainer ∨ k = KNavigationContainer →
      ∀ off, getattr self "top_offset" s' = Ok (VFloat off) s' →
             getattr self "height" s' = Ok (VFloat (view_height u' - off)) s')) ∧
  (∀ s self d r,
     is_instance s self KRootContainer d →
     let s' := with_statusBarFrame r s in
     getattr self "top_offset" s' = Ok (VFloat (sz_height (size r))) s') ∧
  (∀ s self d c nc r nc',
     is_instance s self KNavigationContainer d → nav_controller s d c nc →
     let s' := with_statusBarFrame r
                 (platform_update c (UINavigationController nc') s) in
     getattr self "top_offset" s' =
       Ok (VFloat (sz_height (size r) + bar_height nc')) s').
Proof.
  split; [exact reads_only_getattr|]. split; [|split].
  - intros s self k d l u u' Hk H [Hl Hu] s'.
    assert (is_instance s' self k d) as H'
      by (eapply is_instance_platform_update; [done..|congruence]).
    assert (layout_view s' d l u') as Hv'
      by (split; [done|]; apply lookup_insert_eq).
    split; [by eapply getattr_width|]. split.
    + intros Hp. by eapply getattr_height_plain.
    + intros Hp off Hoff. by eapply getattr_height_offset.
  - intros s self d r H s'. by eapply (getattr_top_offset_root s').
  - intros s self d c nc r nc' H [Hc Hnc] s'.
    eapply (getattr_top_offset_navigation s' self d c nc').
    + unfold s'. eapply (is_instance_platform_update s); [done..|congruence].
    + split; [done|]. apply lookup_insert_eq.
Qed.

(** ** Content assignment *)

(** C3 (as amended).  For a container of any class holding [old] (which is
    [None] or a widget) and any [w] ([None] or a widget), the assignment
    [content = w] returns, and afterwards: the stored content is [w]; if
    [old] was true and is not [w] itself, [old.container] is [None]; if [w]
    is true, [w.container] is the container. *)
Theorem content_assignment_rewires s self k d old w :
  is_instance s self k d → d !! "_content" = Some old →
  widget_or_none s old → widget_or_none s w →
  ∃ s', setattr self "content" w s = Ok tt s' ∧
        getattr self "content" s' = Ok w s' ∧
        (truth old s = Ok true s → old ≠ w →
         load_attr old "container" s' = Ok VNone s') ∧
        (truth w s = Ok true s →
         load_attr w "container" s' = Ok (VRef self) s').
Proof.
  intros H Hold Ho Hw. eexists. split; [by eapply content_setter_run|].
  destruct (assign_content_pyobject s self k d old w self _ _ H Hold H) as [d' H'].
  split; [|split].
  - eapply (getattr_content_heap_attr _ self k d'); [exact H'|].
    by eapply assign_content_stored.
  - intros Ht Hne. apply load_attr_heap_attr.
    eapply assign_content_unwires; eauto using truth_true_truthy.
  - intros Ht. apply load_attr_heap_attr.
    eapply assign_content_wires; eauto using truth_true_truthy.
Qed.

(** C8.  Assigning a true widget [w] as content twice in a row leaves the
    store that the first assignment left: both assignments return, the second
    one changes nothing, the stored content is [w] and [w.container] is the
    container.  The second assignment gets there by way of a store [s_mid] in
    which [w.container] is [None]: its first write clears the attribute and
    its last two write the content and the back reference again. *)
Theorem content_assignment_idempotent s self k d old r c dr :
  is_instance s self k d → d !! "_content" = Some old → widget_or_none s old →
  heap s !! r = Some (PyObject c dr) → truth (VRef r) s = Ok true s →
  ∃ s1 s_mid,
    setattr self "content" (VRef r) s = Ok tt s1 ∧
    setattr self "content" (VRef r) s1 = Ok tt s1 ∧
    getattr self "content" s1 = Ok (VRef r) s1 ∧
    load_attr (VRef r) "container" s1 = Ok (VRef self) s1 ∧
    store_attr (VRef r) "container" VNone s1 = Ok tt s_mid ∧
    load_attr (VRef r) "container" s_mid = Ok VNone s_mid ∧
    (store_attr (VRef self) "_content" (VRef r) ;;;
     store_attr (VRef r) "container" (VRef self)) s_mid = Ok tt s1.
Proof.
  intros H Hold Ho Hr Ht.
  assert (widget_or_none s (VRef r)) as Hw by (right; by exists r, c, dr).
  apply (truth_true_truthy _ _ Hw) in Ht.
  set (h3 := assign_content self (VRef r) (heap s)).
  destruct (assign_content_pyobject s self k d old (VRef r) self _ _ H Hold H)
    as [d3 H3].
  destruct (assign_content_pyobject s self k d old (VRef r) r _ _ H Hold Hr)
    as [dr3 Hr3].
  fold h3 in H3, Hr3.
  pose proof (assign_content_stored s self k d old (VRef r) H Hold Hw) as Hst.
  pose proof (assign_content_wires s self k d old (VRef r) H Hold Hw Ht) as Hwi.
  fold h3 in Hst, Hwi.
  rewrite (heap_attr_dict _ _ _ _ _ H3) in Hst.
  assert (truthy h3 (VRef r) = true) as Ht3.
  { rewrite (truthy_pyobject _ _ _ _ Hr3).
    by rewrite <- (truthy_pyobject _ _ _ _ Hr). }
  set (s1 := with_heap h3 s).
  assert (widget_or_none s1 (VRef r)) as Hw1 by (right; by exists r, c, dr3).
  pose proof (rewire_round_trip h3 self k d3 r c dr3 H3 Hst Hr3 Hwi) as Hrt.
  exists s1, (with_heap (heap_set_attr (VRef r) "container" VNone h3) s).
  split; [by eapply content_setter_run|].
  split; [|split; [|split; [|split; [|split]]]].
  - rewrite (content_setter_run s1 self k d3 (VRef r) (VRef r) H3 Hst Hw1 Hw1).
    rewrite (assign_content_fixpoint s1 self k d3 r c dr3 H3 Hst Hr3 Ht3 Hwi).
    by rewrite with_heap_same.
  - eapply (getattr_content_heap_attr s1 self k d3); [exact H3|].
    by rewrite (heap_attr_dict _ _ _ _ _ H3).
  - by apply load_attr_heap_attr.
  - by rewrite (store_attr_run s1 _ _ _ _ _ Hr3).
  - apply load_attr_heap_attr. rewrite ?heap_with_heap.
    rewrite (heap_attr_heap_set_attr _ _ _ _ _ _ _ _ Hr3).
    by rewrite decide_True.
  - destruct (heap_set_attr_pyobject h3 (VRef r) "container" VNone self _ _ H3)
      as (d4 & H4 & _).
    rewrite (bind_Ok _ _ _ _ _
               (store_attr_run (with_heap _ s) _ _ _ "_content" (VRef r) H4)).
    rewrite ?heap_with_heap.
    destruct (heap_set_attr_pyobject h3 (VRef r) "container" VNone r _ _ Hr3)
      as (d5 & H5 & _).
    destruct (heap_set_attr_pyobject _ (VRef self) "_content" (VRef r) r _ _ H5)
      as (d6 & H6 & _).
    rewrite (store_attr_run (with_heap _ _) _ _ _ "container" (VRef self) H6).
    rewrite ?heap_with_heap, ?with_heap_twice, ?heap_with_heap.
    unfold s1. by rewrite Hrt.
Qed.

(** ** Construction *)

(** C9 (as amended).  The constructor of each of the four classes returns a
    new instance that owns a view [n] created for it ([native], at an address
    that was free).  Called with [layout_native=None], it stores that same
    view as [layout_native], and the size hints are read from it; called with
    a view [l] that is not [None], it stores [l] unchanged and the size hints
    are read from [l].  The size hints read from a view are: [width], its
    bounds width; [height], its bounds height on a [Container] and a
    [ControlledContainer], and its bounds height less [top_offset] on a
    [RootContainer] and a [NavigationContainer]. *)
Theorem layout_native_defaults_to_native `{Runtime} k content ln f s :
  variant k →
  ∃ self n d s',
    new k content ln f s = Ok self s' ∧
    is_instance s' self k d ∧
    heap s !! n = None ∧
    d !! "native" = Some (VRef n) ∧
    heap s' !! n = Some (UIView fresh_view) ∧
    (ln = VNone →
     d !! "layout_native" = Some (VRef n) ∧ size_hints_from s' self k fresh_view) ∧
    (ln ≠ VNone →
     d !! "layout_native" = Some ln ∧
     ∀ l u, ln = VRef l → heap s !! l = Some (UIView u) →
            size_hints_from s' self k u).
Proof.
  intros Hk.
  destruct (new_constructed k content ln f s Hk) as (self & n & d & s' & Hnew & Hc).
  exists self, n, d, s'.
  pose proof (c_instance _ _ _ _ _ _ _ _ _ Hc) as Hi.
  pose proof (c_layout _ _ _ _ _ _ _ _ _ Hc) as Hl.
  pose proof (constructed_nav_controller _ _ _ _ _ _ _ _ _ Hc) as Hnav.
  split; [done|]. split; [done|].
  split; [by destruct Hc|]. split; [by destruct Hc|]. split; [by destruct Hc|].
  split.
  - intros ->. split; [done|].
    eapply size_hints_from_layout; eauto.
    split; [done|]. by destruct Hc.
  - intros Hne. split; [by destruct ln|].
    intros l u -> Hu. eapply size_hints_from_layout; eauto.
    split; [done|]. eapply c_old; eauto.
Qed.

(** ** refreshed *)


(** ** Raising *)

(** C5 (as amended).  A container built by the constructor of any of the
    four classes, with content [None] or a widget and [layout_native] [None]
    or a view, goes through every later sequence of these operations without
    raising: the content getter, the content setter (assigning [None] or a
    widget), [width], [height], [top_offset], the title setter, and the title
    getter on a [NavigationContainer] or, on the other classes, once a title
    has been assigned.  At any point of such a sequence [refreshed] raises
    [TypeError] when [on_refresh] was left at [None], and with a callable
    [on_refresh] it ends the way the call of that callable on the container
    ends. *)
Theorem safe_operations_return `{Runtime} k content ln f s :
  variant k → widget_or_none s content →
  (ln = VNone ∨ ∃ l u, ln = VRef l ∧ heap s !! l = Some (UIView u)) →
  ∃ self s',
    new k content ln f s = Ok self s' ∧
    ∀ os, safe_ops s' k false os →
      ∃ vs s'',
        run_ops self os s' = Ok vs s'' ∧
        (f = VNone → run_op self Refreshed s'' = Raise TypeError s'') ∧
        (∀ j, f = VCallable j →
              run_op self Refreshed s'' =
                (call_callable j [VRef self] ;;; ret VNone)
                  (log_call j [VRef self] s'')).
Proof.
  intros Hk Hw Hln.
  destruct (new_constructed k content ln f s Hk) as (self & n & d & s' & Hnew & Hc).
  exists self, s'. split; [done|]. intros os Hsafe.
  pose proof (constructed_usable _ _ _ _ _ _ _ _ _ Hw Hln Hc) as Hu.
  destruct (usable_run_ops s' self k f os Hk s' false (same_objects_refl s') Hu Hsafe)
    as (vs & s'' & titled' & Hrun & _ & (d'' & Hi'' & Hf'' & _)).
  exists vs, s''. split; [done|]. split.
  - intros ->. by eapply refreshed_None.
  - intros j ->. by eapply refreshed_run.
Qed.

(** ** The four variants *)

(** C4 (as amended).  The classes derived from [BaseContainer] are the four
    variants, and every one of them has [BaseContainer] in its resolution
    order.  Apart from the constructor, [top_offset], [height] and the
    [title] property (which only [RootContainer] and [NavigationContainer]
    define), every name resolves to the same definition on all four; in
    particular [content] (getter and setter) and [refreshed] are
    [BaseContainer]'s on each, so reading or assigning [content] and calling
    [refreshed] run [BaseContainer]'s code whatever the class, and assigning
    content to the same container under another class makes the same
    writes. *)
Theorem variants_share_base_behaviour `{Runtime} :
  (∀ k, base k ≠ None ↔ k ∈ variants) ∧
  (∀ k, k ∈ variants → KBaseContainer ∈ mro k) ∧
  (∀ k1 k2 name,
     k1 ∈ variants → k2 ∈ variants →
     name ∉ ["__init__"; "top_offset"; "height"; "title"] →
     resolve k1 name = resolve k2 name) ∧
  (resolve KRootContainer "title" = Some KRootContainer ∧
   resolve KNavigationContainer "title" = Some KNavigationContainer ∧
   resolve KContainer "title" = None ∧
   resolve KControlledContainer "title" = None) ∧
  (∀ k, class_attr k "content" =
          Some (Property BaseContainer_content (Some BaseContainer_content_setter)) ∧
        resolve k "refreshed" = Some KBaseContainer) ∧
  (∀ s self k d,
     is_instance s self k d →
     getattr self "content" s = BaseContainer_content self s ∧
     (∀ w, setattr self "content" w s = BaseContainer_content_setter self w s) ∧
     refreshed self s = BaseContainer_refreshed self s) ∧
  (∀ s self k1 k2 d old w,
     k1 ∈ variants → k2 ∈ variants →
     is_instance s self k1 d → d !! "_content" = Some old →
     widget_or_none s old → widget_or_none s w →
     ∃ s', setattr self "content" w s = Ok tt s' ∧
           setattr self "content" w (as_class self k2 s) =
             Ok tt (as_class self k2 s')).
Proof.
  split; [|split; [|split; [|split; [done|split; [|split]]]]].
  - intros k. rewrite <- variant_variants. unfold variant. by destruct k.
  - intros k Hk%variant_variants. unfold mro.
    destruct k; simpl; [by destruct Hk|..]; repeat constructor.
  - intros k1 k2 name Hk1%variant_variants Hk2%variant_variants Hname.
    unfold resolve, mro.
    assert (∀ k, variant k →
              List.find (λ c, bool_decide (name ∈ own c)) (linearise 5 k) =
              List.find (λ c, bool_decide (name ∈ own c)) [KContainer; KBaseContainer])
      as Hsame; [|by rewrite (Hsame k1), (Hsame k2)].
    intros k Hk. destruct k; [by destruct Hk|done|..]; simpl;
      (rewrite bool_decide_eq_false_2; [done|]);
      intros Hin; apply Hname;
      repeat (apply elem_of_cons in Hin as [->|Hin];
              [repeat constructor|]);
      by apply elem_of_nil in Hin.
  - intros k. split; [apply class_attr_content|apply resolve_refreshed].
  - intros s self k d Hi. split; [|split].
    + by rewrite (getattr_property _ _ _ _ "content" _ _ Hi (class_attr_content k)).
    + intros w.
      by rewrite (setattr_property _ _ _ _ "content" _ _ _ Hi (class_attr_content k)).
    + unfold refreshed.
      rewrite (bind_Ok _ _ _ _ _ (class_of_instance _ _ _ _ Hi)).
      by rewrite resolve_refreshed.
  - intros s self k1 k2 d old w _ _. apply content_setter_as_class.
Qed.

(** * Further statements about the code *)

(** X1.  The constructor of each variant returns a new instance at an
    address that was free, stores the [content] argument as it is, and
    changes no object that existed: in particular the content widget is not
    wired (its [container] attribute is not written, unlike what the content
    setter does), and neither the status bar frame nor the call record
    changes. *)
Theorem constructor_keeps_existing_objects `{Runtime} k content ln f s :
  variant k →
  ∃ self s',
    new k content ln f s = Ok self s' ∧
    heap s !! self = None ∧
    (∀ l o, heap s !! l = Some o → heap s' !! l = Some o) ∧
    statusBarFrame s' = statusBarFrame s ∧
    calls s' = calls s ∧
    getattr self "content" s' = Ok content s'.
Proof.
  intros Hk.
  destruct (new_constructed k content ln f s Hk) as (self & n & d & s' & Hnew & Hc).
  exists self, s'. destruct Hc. repeat split; try done.
  rewrite (getattr_property _ _ _ _ "content" _ _ c_instance0 (class_attr_content k)).
  by eapply load_attr_Some.
Qed.

(** X2.  [width], [height] and [top_offset] are properties without a setter:
    on an instance of any variant, assigning one of them raises
    [AttributeError] and leaves the store as it was. *)
Theorem geometry_is_read_only s self k d name v :
  variant k → is_instance s self k d →
  name ∈ ["width"; "height"; "top_offset"] →
  setattr self name v s = Raise AttributeError s.
Proof.
  intros Hk Hi Hname. unfold setattr.
  rewrite (bind_Ok _ _ _ _ _ (class_of_instance _ _ _ _ Hi)).
  repeat (apply elem_of_cons in Hname as [->|Hname];
          [by destruct k; [by destruct Hk|..]|]).
  by apply elem_of_nil in Hname.
Qed.

(** X3.  No constructor sets a title.  On a new [RootContainer] the title
    getter reads the attribute [_title], which [__init__] never creates, and
    raises [AttributeError]; a new [Container] or [ControlledContainer] has
    no [title] attribute at all, and reading it raises [AttributeError] too.
    The store is unchanged by the failed read. *)
Theorem title_unset_after_construction `{Runtime} k content ln f s :
  variant k → k ≠ KNavigationContainer →
  ∃ self s',
    new k content ln f s = Ok self s' ∧
    getattr self "title" s' = Raise AttributeError s'.
Proof.
  intros Hk Hn. eexists _, _. split; [by apply new_exact|].
  set (s' := with_heap _ s).
  assert (is_instance s' (new_self (heap s)) k (new_dict k content ln f (heap s)))
    as Hi by (by apply new_heap_self).
  pose proof (new_dict_title_slot k content ln f (heap s) Hn) as Ht.
  destruct (variant_title_plain k Hk Hn) as [[-> Hc]|[Hr Hc]].
  - rewrite (getattr_property _ _ _ _ "title" _ _ Hi Hc).
    unfold RootContainer_title. rewrite (load_attr_instance _ _ _ _ _ Hi).
    change "_title" with (title_slot KRootContainer). by rewrite Ht.
  - unfold getattr. rewrite (bind_Ok _ _ _ _ _ (class_of_instance _ _ _ _ Hi)), Hc.
    rewrite (load_attr_instance _ _ _ _ _ Hi).
    replace "title" with (title_slot k) by (by destruct k). by rewrite Ht.
Qed.

(** X4.  Only [None] selects the container's own view: a [layout_native]
    that is a number or a string (a false one such as [0] included) is
    stored as it is, and reading [width] or [height] then raises
    [AttributeError], on every variant. *)
Theorem layout_native_scalar_breaks_geometry `{Runtime} k content ln f s :
  variant k → scalar ln →
  ∃ self s' d,
    new k content ln f s = Ok self s' ∧
    is_instance s' self k d ∧
    d !! "layout_native" = Some ln ∧
    getattr self "width" s' = Raise AttributeError s' ∧
    getattr self "height" s' = Raise AttributeError s'.
Proof.
  intros Hk Hln. eexists _, _, _. split; [by apply new_exact|].
  set (s' := with_heap _ s).
  assert (is_instance s' (new_self (heap s)) k (new_dict k content ln f (heap s)))
    as Hi by (by apply new_heap_self).
  assert (new_dict k content ln f (heap s) !! "layout_native" = Some ln) as Hl.
  { rewrite new_dict_layout_native by done. by destruct ln. }
  split; [done|]. split; [done|]. by eapply getattr_geometry_scalar.
Qed.

(** X5.  [ControlledContainer.__init__] and [RootContainer.__init__] do the
    same: called with the same arguments on the same store, the two
    constructors return the same address and leave stores that differ only
    in the class of the new instance. *)
Theorem controlled_and_root_constructors_agree `{Runtime} content ln f s :
  ∃ self s1,
    new KControlledContainer content ln f s = Ok self s1 ∧
    new KRootContainer content ln f s = Ok self (as_class self KRootContainer s1).
Proof.
  eexists _, _. split; [by apply new_exact|].
  rewrite new_exact by done. f_equal.
  unfold as_class, new_heap. rewrite heap_with_heap, with_heap_twice. f_equal.
  by rewrite alter_insert_eq.
Qed.

(** X6.  What each constructor builds.  The new instance owns a view [n]
    with [translatesAutoresizingMaskIntoConstraints] set and the mask
    [FlexibleWidth | FlexibleHeight]; the bounds are the ones UIKit gave.
    A [Container] has no controller and takes up two addresses.  A
    [ControlledContainer] or a [RootContainer] has a view controller [t] as
    [controller], whose view is [n].  A [NavigationContainer] has a view
    controller [t] as [content_controller], whose view is [n], and as
    [controller] a navigation controller whose stack is [t] alone, so that
    [t] is its top view controller.  Every object created sits at an address
    that was free. *)
Theorem constructor_wires_native `{Runtime} k content ln f s :
  variant k →
  ∃ self n d s',
    new k content ln f s = Ok self s' ∧
    is_instance s' self k d ∧
    d !! "native" = Some (VRef n) ∧
    heap s !! n = None ∧
    heap s' !! n =
      Some (UIView {| bounds := bounds initial_view;
                      translatesAutoresizingMaskIntoConstraints := true;
                      autoresizingMask := Z.lor FlexibleWidth FlexibleHeight |}) ∧
    (k = KContainer →
     d !! "controller" = None ∧ dom (heap s') = {[self; n]} ∪ dom (heap s)) ∧
    (k = KControlledContainer ∨ k = KRootContainer →
     ∃ t, d !! "controller" = Some (VRef t) ∧ heap s !! t = None ∧
          heap s' !! t =
            Some (UIViewController {| view := VRef n; vc_title := VNone |})) ∧
    (k = KNavigationContainer →
     ∃ t nc,
       d !! "content_controller" = Some (VRef t) ∧
       d !! "controller" = Some (VRef nc) ∧
       heap s !! t = None ∧ heap s !! nc = None ∧
       heap s' !! t =
         Some (UIViewController {| view := VRef n; vc_title := VNone |}) ∧
       heap s' !! nc =
         Some (UINavigationController
                 {| viewControllers := [t];
                    navigationBar_frame := initial_navigationBar_frame |}) ∧
       topViewController (VRef nc) s' = Ok (VRef t) s').
Proof.
  intros Hk.
  destruct (new_addresses (heap s))
    as ((Hs & Hn & Ht & Hc) & (Hns & Hts & Hcs & Htn & Hcn & Hct)).
  exists (new_self (heap s)), (new_native (heap s)),
    (new_dict k content ln f (heap s)),
    (with_heap (new_heap k content ln f (heap s)) s).
  split; [by apply new_exact|]. split; [by apply new_heap_self|].
  split.
  { destruct k; [by destruct Hk|..]; unfold new_dict, Container_dict;
      repeat first [ rewrite lookup_insert_eq | rewrite lookup_insert_ne by done ];
      done. }
  split; [done|]. split; [by apply new_heap_native|].
  split; [|split].
  - intros ->. split; [done|].
    rewrite heap_with_heap. unfold new_heap. rewrite !dom_insert_L.
    by rewrite <- union_assoc_L.
  - intros Hkk. exists (new_view_controller (heap s)).
    rewrite heap_with_heap.
    destruct Hkk as [-> | ->]; (split; [done|split; [done|]]);
      unfold new_heap;
      repeat first [ rewrite lookup_insert_eq | rewrite lookup_insert_ne by congruence ];
      done.
  - intros ->.
    exists (new_view_controller (heap s)), (new_navigation_controller (heap s)).
    assert (new_heap KNavigationContainer content ln f (heap s)
              !! new_navigation_controller (heap s) =
            Some (UINavigationController
                    {| viewControllers := [new_view_controller (heap s)];
                       navigationBar_frame := initial_navigationBar_frame |})) as Hnc.
    { unfold new_heap.
      repeat first [ rewrite lookup_insert_eq | rewrite lookup_insert_ne by congruence ].
      done. }
    repeat split; try done.
    + rewrite heap_with_heap. unfold new_heap.
      repeat first [ rewrite lookup_insert_eq | rewrite lookup_insert_ne by congruence ].
      done.
    + by rewrite (topViewController_nav (with_heap _ s) _ _ Hnc).
Qed.

(** X7.  The content setter tests the new content for truth, not for being a
    widget, and undoes nothing when it fails.  Assigning a number or a
    string that is true (a non-zero number, a non-empty string) raises
    [AttributeError] at the last step, after the old content has been
    unwired and the new value stored: the container is left holding the
    value.  Assigning one that is false returns and stores it. *)
Theorem scalar_content_is_stored_then_raises s self k d old w :
  is_instance s self k d → d !! "_content" = Some old → widget_or_none s old →
  scalar w →
  ∃ s',
    setattr self "content" w s =
      (if truthy (heap s) w then Raise AttributeError s' else Ok tt s') ∧
    getattr self "content" s' = Ok w s' ∧
    (truth old s = Ok true s → load_attr old "container" s' = Ok VNone s').
Proof.
  intros H Hold Ho Hw. eexists. split; [by eapply content_setter_scalar_run|].
  destruct (store_content_pyobject (heap s) self old w self _ _ H) as [d' H'].
  split.
  - eapply (getattr_content_heap_attr _ self k d'); [exact H'|].
    by eapply store_content_stored.
  - intros Ht. apply load_attr_heap_attr.
    eapply store_content_unwires; eauto using truth_true_truthy.
Qed.

(** X8.  A widget whose class makes it false is treated like [None] by the
    two truth tests of the setter: when it is assigned it becomes the stored
    content but is not wired (the widget object is left exactly as it was),
    and when it is the content being replaced it is not unwired either. *)
Theorem false_widget_is_never_wired s self k d r c dr :
  is_instance s self k d →
  heap s !! r = Some (PyObject c dr) → truth (VRef r) s = Ok false s →
  (∀ old, d !! "_content" = Some old → widget_or_none s old →
     ∃ s', setattr self "content" (VRef r) s = Ok tt s' ∧
           getattr self "content" s' = Ok (VRef r) s' ∧
           heap s' !! r = Some (PyObject c dr)) ∧
  (d !! "_content" = Some (VRef r) →
   ∀ w, widget_or_none s w → w ≠ VRef r →
     ∃ s', setattr self "content" w s = Ok tt s' ∧
           getattr self "content" s' = Ok w s' ∧
           heap s' !! r = Some (PyObject c dr)).
Proof.
  intros H Hr Ht.
  assert (widget_or_none s (VRef r)) as Hwr by (right; by exists r, c, dr).
  apply (truth_false_truthy _ _ Hwr) in Ht.
  pose proof (falsy_not_instance _ _ _ _ _ Ht H) as Hne.
  split.
  - intros old Hold Ho. eexists. split; [by eapply content_setter_run|].
    destruct (assign_content_pyobject s self k d old (VRef r) self _ _ H Hold H)
      as [d' H'].
    split.
    + eapply (getattr_content_heap_attr _ self k d'); [exact H'|].
      by eapply assign_content_stored.
    + rewrite heap_with_heap, (assign_content_unfold _ _ _ _ _ _ H Hold), Ht.
      rewrite store_content_lookup_other by done.
      by rewrite unwire_lookup_falsy.
  - intros Hold w Hw Hwr'. eexists. split; [by eapply content_setter_run|].
    destruct (assign_content_pyobject s self k d (VRef r) w self _ _ H Hold H)
      as [d' H'].
    split.
    + eapply (getattr_content_heap_attr _ self k d'); [exact H'|].
      by eapply assign_content_stored.
    + rewrite heap_with_heap, (assign_content_unfold _ _ _ _ _ _ H Hold).
      assert (store_content self (VRef r) w (heap s) !! r = Some (PyObject c dr))
        as Hsc.
      { rewrite store_content_lookup_other by done.
        by rewrite unwire_lookup_falsy. }
      destruct (truthy (heap s) w); [|done].
      rewrite lookup_heap_set_attr.
      destruct (decide (w = VRef r)); done.
Qed.

(** X9.  Assignments work in place.  Assigning any attribute of a container
    ([content] and [title] included), whether it returns or raises, creates
    no object, deletes none and replaces none by an object of another kind
    or class, and leaves the status bar frame alone; so after an assignment
    that returns, the heap has the addresses it had.  Only the constructors
    allocate. *)
Theorem assignments_keep_objects :
  (∀ self name v, keeps_objects (setattr self name v)) ∧
  (∀ self name v s s',
     setattr self name v s = Ok tt s' → dom (heap s') = dom (heap s)).
Proof.
  split; [exact keeps_objects_setattr|].
  intros self name v s s' Hrun.
  by eapply keeps_objects_dom; [apply keeps_objects_setattr|].
Qed.

(** X10.  Assigning content to a container changes what no other read
    returns: whatever [width], [height], [top_offset] or [title] returned on
    any container before the assignment they return after it, and so does
    [content] on every other container. *)
Theorem content_assignment_frame s self k d old w :
  is_instance s self k d → d !! "_content" = Some old →
  widget_or_none s old → widget_or_none s w →
  ∃ s',
    setattr self "content" w s = Ok tt s' ∧
    (∀ other name,
       name ∈ ["width"; "height"; "top_offset"; "title"] →
       same_read (getattr other name) s s') ∧
    (∀ other, other ≠ self → same_read (getattr other "content") s s').
Proof.
  intros Hi Hold Ho Hw. eexists. split; [by eapply content_setter_run|].
  apply content_setter_frame.
Qed.

(** X11.  Assigning the title of a container of any variant changes what no
    read of [content], [width], [height] or [top_offset] returns, on that
    container or any other.  (It returns on a [RootContainer], a
    [Container] and a [ControlledContainer] always, and on a
    [NavigationContainer] whose controller has a top view controller.) *)
Theorem title_assignment_frame s self k d v :
  variant k → is_instance s self k d →
  (k = KNavigationContainer →
   ∃ c nc t vc, nav_controller s d c nc ∧ top_controller s nc t vc) →
  ∃ s',
    setattr self "title" v s = Ok tt s' ∧
    ∀ other name,
      name ∈ ["content"; "width"; "height"; "top_offset"] →
      same_read (getattr other name) s s'.
Proof.
  intros Hk Hi Hnav.
  destruct (decide (k = KNavigationContainer)) as [->|Hn].
  - destruct (Hnav eq_refl) as (c & nc & t & vc & Hc & Ht).
    eexists. split.
    { rewrite (setattr_property _ _ _ _ "title" _ _ _ Hi eq_refl).
      by eapply NavigationContainer_title_setter_run. }
    intros other name Hname.
    apply (same_read_getattr (λ _, []) true _ _
             (agrees_outside_vc_title _ s t vc v (proj2 Ht))).
    + repeat (apply elem_of_cons in Hname as [->|Hname]; [repeat constructor|]).
      by apply elem_of_nil in Hname.
    + intros n _ Hin. by apply elem_of_nil in Hin.
    + intros ->.
      repeat (apply elem_of_cons in Hname as [Hname|Hname]; [discriminate Hname|]).
      by apply elem_of_nil in Hname.
  - eexists. split; [by eapply setattr_title_slot|].
    intros other name Hname.
    apply (same_read_getattr _ _ _ _ (agrees_outside_title_slot s self k d v Hi)).
    + repeat (apply elem_of_cons in Hname as [->|Hname]; [repeat constructor|]).
      by apply elem_of_nil in Hname.
    + repeat (apply elem_of_cons in Hname as [->|Hname]; [disjoint_names|]).
      by apply elem_of_nil in Hname.
    + intros ->.
      repeat (apply elem_of_cons in Hname as [Hname|Hname]; [discriminate Hname|]).
      by apply elem_of_nil in Hname.
Qed.

(** X12.  The setter does not look at the widget's current [container], so
    holding a widget is not exclusive.  When a widget already wired into
    container [a] is assigned as content of another container [b], the
    widget's [container] becomes [b] while [a] still reports the widget as
    its content; and when [a] is then cleared ([content = None]), the
    widget's [container] is set to [None] although [b] still holds it. *)
Theorem content_is_not_exclusive s a ka da b kb db oldb r dr :
  a ≠ b →
  is_instance s a ka da → da !! "_content" = Some (VRef r) →
  is_instance s b kb db → db !! "_content" = Some oldb → widget_or_none s oldb →
  heap s !! r = Some (PyObject (Foreign true) dr) →
  ∃ s1 s2,
    setattr b "content" (VRef r) s = Ok tt s1 ∧
    getattr a "content" s1 = Ok (VRef r) s1 ∧
    load_attr (VRef r) "container" s1 = Ok (VRef b) s1 ∧
    setattr a "content" VNone s1 = Ok tt s2 ∧
    getattr b "content" s2 = Ok (VRef r) s2 ∧
    load_attr (VRef r) "container" s2 = Ok VNone s2.
Proof.
  intros Hab Ha Hca Hb Hcb Hob Hr.
  assert (widget_or_none s (VRef r)) as Hwr by (right; by exists r, (Foreign true), dr).
  assert (truthy (heap s) (VRef r) = true) as Ht
    by exact (truthy_pyobject _ _ _ _ Hr).
  set (s1 := with_heap (assign_content b (VRef r) (heap s)) s).
  assert (setattr b "content" (VRef r) s = Ok tt s1) as Hrun1
    by (by eapply content_setter_run).
  destruct (content_setter_frame s b (VRef r)) as [_ Hother1]. fold s1 in Hother1.
  assert (getattr a "content" s = Ok (VRef r) s) as Hga.
  { rewrite (getattr_property _ _ _ _ "content" _ _ Ha (class_attr_content ka)).
    by eapply load_attr_Some. }
  pose proof (Hother1 a Hab _ Hga) as Hga1.
  destruct (assign_content_pyobject s b kb db oldb (VRef r) a _ _ Hb Hcb Ha)
    as [da1 Ha1].
  destruct (assign_content_pyobject s b kb db oldb (VRef r) b _ _ Hb Hcb Hb)
    as [db1 Hb1].
  destruct (assign_content_pyobject s b kb db oldb (VRef r) r _ _ Hb Hcb Hr)
    as [dr1 Hr1].
  fold (heap s1) in Ha1, Hb1, Hr1.
  pose proof (getattr_content_dict s1 a ka da1 _ Ha1 Hga1) as Hca1.
  assert (getattr b "content" s1 = Ok (VRef r) s1) as Hgb1.
  { eapply (getattr_content_heap_attr s1 b kb db1); [exact Hb1|].
    by eapply assign_content_stored. }
  assert (widget_or_none s1 (VRef r)) as Hwr1
    by (right; by exists r, (Foreign true), dr1).
  assert (widget_or_none s1 VNone) as Hwn by (by left).
  assert (truthy (heap s1) (VRef r) = true) as Ht1
    by exact (truthy_pyobject _ _ _ _ Hr1).
  set (s2 := with_heap (assign_content a VNone (heap s1)) s1).
  destruct (content_setter_frame s1 a VNone) as [_ Hother2]. fold s2 in Hother2.
  exists s1, s2. split; [done|]. split; [done|]. split.
  { apply load_attr_heap_attr. by eapply assign_content_wires. }
  split; [by eapply content_setter_run|]. split.
  { apply Hother2; [congruence|done]. }
  apply load_attr_heap_attr.
  by eapply (assign_content_unwires s1 a ka da1 (VRef r) VNone).
Qed.

(** X13.  Content and title are independent: on a container of any variant,
    assigning the content and then the title, or the title and then the
    content, both return and leave exactly the same store. *)
Theorem content_and_title_assignments_commute s self k d old w v :
  variant k → is_instance s self k d → d !! "_content" = Some old →
  widget_or_none s old → widget_or_none s w →
  (k = KNavigationContainer →
   ∃ c nc t vc, nav_controller s d c nc ∧ top_controller s nc t vc) →
  ∃ s1 s2 s3,
    setattr self "content" w s = Ok tt s1 ∧ setattr self "title" v s1 = Ok tt s3 ∧
    setattr self "title" v s = Ok tt s2 ∧ setattr self "content" w s2 = Ok tt s3.
Proof. apply content_title_commute. Qed.

(** * The statements at concrete inputs *)

Lemma top_offset_by_class_witness :
  getattr demo_self "top_offset" demo_navigation =
    Ok (VFloat (status_height demo_navigation
                + bar_height (nav_at demo_navigation demo_controller)))
       demo_navigation ∧
  getattr demo_self "top_offset" demo_root =
    Ok (VFloat (status_height demo_root)) demo_root ∧
  getattr demo_self "top_offset" demo_container = Ok (VInt 0) demo_container.
Proof.
  destruct top_offset_by_class as (Hn & Hr & Hc).
  split; [|split].
  - apply (Hn demo_navigation demo_self (dict_at demo_navigation demo_self)
              demo_controller).
    + vm_compute. reflexivity.
    + split; vm_compute; reflexivity.
  - apply (Hr demo_root demo_self (dict_at demo_root demo_self)).
    vm_compute. reflexivity.
  - apply (Hc demo_container demo_self (dict_at demo_container demo_self)).
    vm_compute. reflexivity.
Defined.

Example top_offset_values :
  returned (getattr demo_self "top_offset" demo_navigation) = Some (VFloat 64) ∧
  returned (getattr demo_self "top_offset" demo_root) = Some (VFloat 20) ∧
  returned (getattr demo_self "top_offset" demo_container) = Some (VInt 0).
Proof. repeat split; vm_compute; reflexivity. Qed.

Lemma height_width_by_class_witness :
  (getattr demo_self "height" demo_navigation =
     Ok (VFloat (view_height (view_at demo_navigation demo_native) - 64))
        demo_navigation ∧
   getattr demo_self "width" demo_navigation =
     Ok (VFloat (view_width (view_at demo_navigation demo_native))) demo_navigation) ∧
  (getattr demo_self "height" demo_container =
     Ok (VFloat (view_height (view_at demo_container demo_native))) demo_container ∧
   getattr demo_self "width" demo_container =
     Ok (VFloat (view_width (view_at demo_container demo_native))) demo_container).
Proof.
  destruct height_width_by_class as (Ho & Hc).
  split.
  - apply (Ho demo_navigation demo_self KNavigationContainer
              (dict_at demo_navigation demo_self) demo_native).
    + by right.
    + vm_compute. reflexivity.
    + split; vm_compute; reflexivity.
    + vm_compute. reflexivity.
  - apply (Hc demo_container demo_self (dict_at demo_container demo_self) demo_native).
    + vm_compute. reflexivity.
    + split; vm_compute; reflexivity.
Defined.

Example height_width_values :
  returned (getattr demo_self "height" demo_navigation) = Some (VFloat 416) ∧
  returned (getattr demo_self "height" demo_root) = Some (VFloat 460) ∧
  returned (getattr demo_self "height" demo_container) = Some (VFloat 480) ∧
  returned (getattr demo_self "width" demo_navigation) = Some (VFloat 320).
Proof. repeat split; vm_compute; reflexivity. Qed.

Lemma title_round_trip_witness :
  (let s' := with_heap
               (<[demo_self := PyObject (Toga KRootContainer)
                                 (<["_title" := VStr "Inbox"]> (dict_at demo_root demo_self))]>
                  (heap demo_root)) demo_root in
   setattr demo_self "title" (VStr "Inbox") demo_root = Ok tt s' ∧
   getattr demo_self "title" s' = Ok (VStr "Inbox") s') ∧
  (let s' := with_heap
               (<[demo_content_controller :=
                    UIViewController
                      {| view := view (vc_at demo_navigation demo_content_controller);
                         vc_title := VStr "Inbox" |}]> (heap demo_navigation))
               demo_navigation in
   setattr demo_self "title" (VStr "Inbox") demo_navigation = Ok tt s' ∧
   getattr demo_self "title" s' = Ok (VStr "Inbox") s').
Proof.
  destruct title_round_trip as (Hr & Hn).
  split.
  - apply (Hr demo_root demo_self (dict_at demo_root demo_self)).
    vm_compute. reflexivity.
  - apply (Hn demo_navigation demo_self (dict_at demo_navigation demo_self)
              demo_controller (nav_at demo_navigation demo_controller)
              demo_content_controller
              (vc_at demo_navigation demo_content_controller)).
    + vm_compute. reflexivity.
    + split; vm_compute; reflexivity.
    + split; vm_compute; reflexivity.
Defined.

Lemma reads_are_live_and_pure_witness :
  (let s' := platform_update demo_native (UIView demo_rotated_view) demo_root in
   getattr demo_self "width" s' = Ok (VFloat (view_width demo_rotated_view)) s' ∧
   (KRootContainer = KContainer ∨ KRootContainer = KControlledContainer →
    getattr demo_self "height" s' = Ok (VFloat (view_height demo_rotated_view)) s') ∧
   (KRootContainer = KRootContainer ∨ KRootContainer = KNavigationContainer →
    ∀ off, getattr demo_self "top_offset" s' = Ok (VFloat off) s' →
           getattr demo_self "height" s' =
             Ok (VFloat (view_height demo_rotated_view - off)) s')) ∧
  (let s' := with_statusBarFrame (rect 0 0 480 32) demo_root in
   getattr demo_self "top_offset" s' = Ok (VFloat (sz_height (size (rect 0 0 480 32)))) s').
Proof.
  destruct reads_are_live_and_pure as (_ & Hb & Hr & _).
  split.
  - apply (Hb demo_root demo_self KRootContainer (dict_at demo_root demo_self)
              demo_native (view_at demo_root demo_native)).
    + vm_compute. discriminate.
    + vm_compute. reflexivity.
    + split; vm_compute; reflexivity.
  - apply (Hr demo_root demo_self (dict_at demo_root demo_self)).
    vm_compute. reflexivity.
Defined.

Example rotated_values :
  let s' := with_statusBarFrame (rect 0 0 480 32)
              (platform_update demo_native (UIView demo_rotated_view) demo_root) in
  returned (getattr demo_self "width" demo_root) = Some (VFloat 320) ∧
  returned (getattr demo_self "width" s') = Some (VFloat 480) ∧
  returned (getattr demo_self "height" demo_root) = Some (VFloat 460) ∧
  returned (getattr demo_self "height" s') = Some (VFloat 288).
Proof. repeat split; vm_compute; reflexivity. Qed.

(** The container built with [demo_widget] as content gets
    [demo_other_widget] assigned. *)
Lemma content_assignment_rewires_witness :
  ∃ s', setattr demo_self "content" (VRef demo_other_widget) demo_container = Ok tt s' ∧
        getattr demo_self "content" s' = Ok (VRef demo_other_widget) s' ∧
        (truth (VRef demo_widget) demo_container = Ok true demo_container →
         VRef demo_widget ≠ VRef demo_other_widget →
         load_attr (VRef demo_widget) "container" s' = Ok VNone s') ∧
        (truth (VRef demo_other_widget) demo_container = Ok true demo_container →
         load_attr (VRef demo_other_widget) "container" s' = Ok (VRef demo_self) s').
Proof.
  apply (content_assignment_rewires demo_container demo_self KContainer
           (dict_at demo_container demo_self) (VRef demo_widget)).
  - vm_compute. reflexivity.
  - vm_compute. reflexivity.
  - right. exists demo_widget, (Foreign true), ∅. split; vm_compute; reflexivity.
  - right. exists demo_other_widget, (Foreign true), ∅. split; vm_compute; reflexivity.
Defined.

(** Assigning the widget the container already holds: afterwards the old
    content's [container] is the container, not [None]. *)
Lemma content_reassignment_counterexample :
  ¬ content_assignment_as_worded demo_container demo_self (VRef demo_widget).
Proof.
  intros Hc.
  destruct (Hc (VRef demo_widget)
              (state_after (setattr demo_self "content" (VRef demo_widget) demo_container)))
    as (_ & Hb & _).
  - vm_compute. reflexivity.
  - vm_compute. reflexivity.
  - assert (truth (VRef demo_widget) demo_container = Ok true demo_container) as Ht
      by (vm_compute; reflexivity).
    specialize (Hb Ht). vm_compute in Hb. discriminate Hb.
Qed.

Lemma content_assignment_idempotent_witness :
  ∃ s1 s_mid,
    setattr demo_self "content" (VRef demo_other_widget) demo_container = Ok tt s1 ∧
    setattr demo_self "content" (VRef demo_other_widget) s1 = Ok tt s1 ∧
    getattr demo_self "content" s1 = Ok (VRef demo_other_widget) s1 ∧
    load_attr (VRef demo_other_widget) "container" s1 = Ok (VRef demo_self) s1 ∧
    store_attr (VRef demo_other_widget) "container" VNone s1 = Ok tt s_mid ∧
    load_attr (VRef demo_other_widget) "container" s_mid = Ok VNone s_mid ∧
    (store_attr (VRef demo_self) "_content" (VRef demo_other_widget) ;;;
     store_attr (VRef demo_other_widget) "container" (VRef demo_self)) s_mid = Ok tt s1.
Proof.
  apply (content_assignment_idempotent demo_container demo_self KContainer
           (dict_at demo_container demo_self) (VRef demo_widget)
           demo_other_widget (Foreign true) ∅).
  - vm_compute. reflexivity.
  - vm_compute. reflexivity.
  - right. exists demo_widget, (Foreign true), ∅. split; vm_compute; reflexivity.
  - vm_compute. reflexivity.
  - vm_compute. reflexivity.
Defined.

Lemma layout_native_defaults_to_native_witness :
  ∃ self n d s',
    @new demo_runtime KRootContainer VNone VNone VNone demo_start = Ok self s' ∧
    is_instance s' self KRootContainer d ∧
    heap demo_start !! n = None ∧
    d !! "native" = Some (VRef n) ∧
    heap s' !! n = Some (UIView (@fresh_view demo_runtime)) ∧
    (VNone = VNone →
     d !! "layout_native" = Some (VRef n) ∧
     size_hints_from s' self KRootContainer (@fresh_view demo_runtime)) ∧
    (VNone ≠ VNone →
     d !! "layout_native" = Some VNone ∧
     ∀ l u, VNone = VRef l → heap demo_start !! l = Some (UIView u) →
            size_hints_from s' self KRootContainer u).
Proof.
  apply (@layout_native_defaults_to_native demo_runtime KRootContainer
           VNone VNone VNone demo_start).
  vm_compute. discriminate.
Defined.

(** A [RootContainer] built with every argument left at its default, under a
    status bar 20 high: its own view has bounds of height 0, and [height] is
    -20. *)
Lemma root_height_counterexample :
  ¬ @size_is_native_bounds_as_worded demo_runtime KRootContainer VNone VNone demo_start.
Proof.
  intros Hc.
  destruct (Hc demo_self (demo_new KRootContainer VNone VNone VNone) demo_native
              (@fresh_view demo_runtime)) as (_ & Hh).
  - vm_compute. reflexivity.
  - vm_compute. reflexivity.
  - vm_compute. reflexivity.
  - assert (getattr demo_self "height" (demo_new KRootContainer VNone VNone VNone) =
            Ok (VFloat (-20)) (demo_new KRootContainer VNone VNone VNone)) as Hget
      by (vm_compute; reflexivity).
    rewrite Hget in Hh.
    apply (f_equal (λ o, match o with
                         | Ok (VFloat x) _ => PrimFloat.ltb x 0
                         | _ => false
                         end)) in Hh.
    vm_compute in Hh. discriminate Hh.
Qed.

Example layout_native_values :
  dict_at (demo_new KRootContainer VNone VNone VNone) demo_self !! "layout_native" =
    Some (VRef demo_native) ∧
  dict_at (demo_new KRootContainer VNone VNone VNone) demo_self !! "native" =
    Some (VRef demo_native) ∧
  dict_at (demo_new KRootContainer VNone (VRef demo_scroll_view) VNone) demo_self
    !! "layout_native" = Some (VRef demo_scroll_view) ∧
  returned (getattr demo_self "width"
              (demo_new KRootContainer VNone (VRef demo_scroll_view) VNone)) =
    Some (VFloat 300) ∧
  returned (getattr demo_self "height"
              (demo_new KRootContainer VNone (VRef demo_scroll_view) VNone)) =
    Some (VFloat 980).
Proof. repeat split; vm_compute; reflexivity. Qed.



Example refreshed_without_callback_values :
  refreshed (H := demo_runtime) demo_self
    (demo_new KNavigationContainer VNone VNone VNone) =
    Raise TypeError (demo_new KNavigationContainer VNone VNone VNone) ∧
  calls (demo_new KNavigationContainer VNone VNone VNone) = [].
Proof. split; vm_compute; reflexivity. Qed.

Example refreshed_values :
  returned (refreshed (H := demo_runtime) demo_self demo_root) = Some VNone ∧
  calls (state_after (refreshed (H := demo_runtime) demo_self demo_root)) =
    [(0, [VRef demo_self])] ∧
  refreshed (H := demo_runtime) demo_self
    (demo_new KRootContainer VNone VNone (VCallable 1)) =
    Raise (Exception 1)
      (log_call 1 [VRef demo_self] (demo_new KRootContainer VNone VNone (VCallable 1))).
Proof. repeat split; vm_compute; reflexivity. Qed.

Lemma safe_operations_return_witness :
  ∃ self s',
    @new demo_runtime KRootContainer (VRef demo_widget) VNone VNone demo_start =
      Ok self s' ∧
    ∀ os, safe_ops s' KRootContainer false os →
      ∃ vs s'',
        run_ops (H := demo_runtime) self os s' = Ok vs s'' ∧
        (VNone = VNone →
         run_op (H := demo_runtime) self Refreshed s'' = Raise TypeError s'') ∧
        (∀ j, VNone = VCallable j →
              run_op (H := demo_runtime) self Refreshed s'' =
                (call_callable (Runtime := demo_runtime) j [VRef self] ;;; ret VNone)
                  (log_call j [VRef self] s'')).
Proof.
  apply (@safe_operations_return demo_runtime KRootContainer
           (VRef demo_widget) VNone VNone demo_start).
  - vm_compute. discriminate.
  - right. exists demo_widget, (Foreign true), ∅. split; vm_compute; reflexivity.
  - by left.
Defined.

Example safe_operations_values :
  returned
    (run_ops (H := demo_runtime) demo_self
       [GetContent; SetContent (VRef demo_other_widget); GetContent;
        SetTitle (VStr "Inbox"); GetTitle; GetWidth; GetHeight; GetTopOffset;
        SetContent VNone; GetContent]
       demo_root) =
  Some [VNone; VNone; VRef demo_other_widget; VNone; VStr "Inbox";
        VFloat 320; VFloat 460; VFloat 20; VNone; VNone].
Proof. vm_compute. reflexivity. Qed.

(** A container built with every argument left at its default: [refreshed]
    calls [None]. *)
Lemma refreshed_default_counterexample :
  ¬ @never_raises_as_worded demo_runtime KContainer VNone VNone VNone demo_start
      [Refreshed].
Proof.
  intros Hc.
  destruct (Hc demo_self (demo_new KContainer VNone VNone VNone))
    as (vs & s'' & Hrun).
  - vm_compute. reflexivity.
  - vm_compute in Hrun. discriminate Hrun.
Qed.

Example raising_values :
  run_op (H := demo_runtime) demo_self Refreshed (demo_new KContainer VNone VNone VNone) =
    Raise TypeError (demo_new KContainer VNone VNone VNone) ∧
  run_op (H := demo_runtime) demo_self GetTitle (demo_new KRootContainer VNone VNone VNone) =
    Raise AttributeError (demo_new KRootContainer VNone VNone VNone) ∧
  run_op (H := demo_runtime) demo_self GetTitle (demo_new KContainer VNone VNone VNone) =
    Raise AttributeError (demo_new KContainer VNone VNone VNone) ∧
  returned (run_op (H := demo_runtime) demo_self GetTitle
              (demo_new KNavigationContainer VNone VNone VNone)) = Some VNone.
Proof. repeat split; vm_compute; reflexivity. Qed.

Lemma variants_share_base_behaviour_witness :
  ∃ s', setattr demo_self "content" (VRef demo_other_widget) demo_container = Ok tt s' ∧
        setattr demo_self "content" (VRef demo_other_widget)
          (as_class demo_self KNavigationContainer demo_container) =
          Ok tt (as_class demo_self KNavigationContainer s').
Proof.
  destruct (@variants_share_base_behaviour demo_runtime) as (_ & _ & _ & _ & _ & _ & Hs).
  apply (Hs demo_container demo_self KContainer KNavigationContainer
            (dict_at demo_container demo_self) (VRef demo_widget)).
  - vm_compute. repeat constructor.
  - vm_compute. repeat constructor.
  - vm_compute. reflexivity.
  - vm_compute. reflexivity.
  - right. exists demo_widget, (Foreign true), ∅. split; vm_compute; reflexivity.
  - right. exists demo_other_widget, (Foreign true), ∅. split; vm_compute; reflexivity.
Defined.

(** [title] is neither the constructor nor the offset, and it is
    [RootContainer]'s own on a [RootContainer] and nobody's on a
    [ControlledContainer]. *)
Lemma title_property_counterexample : ¬ distinguished_only_by_chrome_and_offset.
Proof.
  intros Hc.
  assert (resolve KRootContainer "title" = resolve KControlledContainer "title") as Heq.
  { apply Hc.
    - unfold variants. repeat constructor.
    - unfold variants. repeat constructor.
    - intros Hin.
      repeat (apply elem_of_cons in Hin as [Hin|Hin]; [discriminate Hin|]).
      by apply elem_of_nil in Hin. }
  vm_compute in Heq. discriminate Heq.
Qed.

(** * The further statements at concrete inputs *)

Lemma constructor_keeps_existing_objects_witness :
  ∃ self s',
    @new demo_runtime KNavigationContainer (VRef demo_widget) VNone VNone demo_start =
      Ok self s' ∧
    heap demo_start !! self = None ∧
    (∀ l o, heap demo_start !! l = Some o → heap s' !! l = Some o) ∧
    statusBarFrame s' = statusBarFrame demo_start ∧
    calls s' = calls demo_start ∧
    getattr self "content" s' = Ok (VRef demo_widget) s'.
Proof.
  apply (@constructor_keeps_existing_objects demo_runtime KNavigationContainer
           (VRef demo_widget) VNone VNone demo_start).
  vm_compute. discriminate.
Defined.

Example constructor_does_not_wire :
  load_attr (VRef demo_widget) "container" demo_container =
    Raise AttributeError demo_container ∧
  returned (load_attr (VRef demo_widget) "container"
              (state_after (setattr demo_self "content" (VRef demo_widget) demo_container))) =
    Some (VRef demo_self).
Proof. split; vm_compute; reflexivity. Qed.

Lemma geometry_is_read_only_witness :
  setattr demo_self "height" (VFloat 100) demo_navigation =
    Raise AttributeError demo_navigation.
Proof.
  apply (geometry_is_read_only demo_navigation demo_self KNavigationContainer
           (dict_at demo_navigation demo_self)).
  - vm_compute. discriminate.
  - vm_compute. reflexivity.
  - apply elem_of_cons. right. apply elem_of_cons. by left.
Defined.

Lemma title_unset_after_construction_witness :
  ∃ self s',
    @new demo_runtime KRootContainer VNone VNone VNone demo_start = Ok self s' ∧
    getattr self "title" s' = Raise AttributeError s'.
Proof.
  apply (@title_unset_after_construction demo_runtime KRootContainer
           VNone VNone VNone demo_start).
  - vm_compute. discriminate.
  - discriminate.
Defined.

Lemma layout_native_scalar_breaks_geometry_witness :
  ∃ self s' d,
    @new demo_runtime KContainer VNone (VInt 0) VNone demo_start = Ok self s' ∧
    is_instance s' self KContainer d ∧
    d !! "layout_native" = Some (VInt 0) ∧
    getattr self "width" s' = Raise AttributeError s' ∧
    getattr self "height" s' = Raise AttributeError s'.
Proof.
  apply (@layout_native_scalar_breaks_geometry demo_runtime KContainer
           VNone (VInt 0) VNone demo_start).
  - vm_compute. discriminate.
  - exact I.
Defined.

Lemma constructor_wires_native_witness :
  ∃ self n d s',
    @new demo_runtime KNavigationContainer VNone VNone VNone demo_start = Ok self s' ∧
    is_instance s' self KNavigationContainer d ∧
    d !! "native" = Some (VRef n) ∧
    heap demo_start !! n = None ∧
    heap s' !! n =
      Some (UIView {| bounds := bounds (@initial_view demo_runtime);
                      translatesAutoresizingMaskIntoConstraints := true;
                      autoresizingMask :=
                        Z.lor (@FlexibleWidth demo_runtime) (@FlexibleHeight demo_runtime) |}) ∧
    (KNavigationContainer = KContainer →
     d !! "controller" = None ∧ dom (heap s') = {[self; n]} ∪ dom (heap demo_start)) ∧
    (KNavigationContainer = KControlledContainer ∨ KNavigationContainer = KRootContainer →
     ∃ t, d !! "controller" = Some (VRef t) ∧ heap demo_start !! t = None ∧
          heap s' !! t =
            Some (UIViewController {| view := VRef n; vc_title := VNone |})) ∧
    (KNavigationContainer = KNavigationContainer →
     ∃ t nc,
       d !! "content_controller" = Some (VRef t) ∧
       d !! "controller" = Some (VRef nc) ∧
       heap demo_start !! t = None ∧ heap demo_start !! nc = None ∧
       heap s' !! t =
         Some (UIViewController {| view := VRef n; vc_title := VNone |}) ∧
       heap s' !! nc =
         Some (UINavigationController
                 {| viewControllers := [t];
                    navigationBar_frame := @initial_navigationBar_frame demo_runtime |}) ∧
       topViewController (VRef nc) s' = Ok (VRef t) s').
Proof.
  apply (@constructor_wires_native demo_runtime KNavigationContainer
           VNone VNone VNone demo_start).
  vm_compute. discriminate.
Defined.

Example constructor_values :
  dict_at (demo_new KNavigationContainer VNone VNone VNone) demo_self !! "controller" =
    Some (VRef demo_controller) ∧
  dict_at (demo_new KNavigationContainer VNone VNone VNone) demo_self
    !! "content_controller" = Some (VRef demo_content_controller) ∧
  view_at (demo_new KNavigationContainer VNone VNone VNone) demo_native =
    {| bounds := CGRectZero;
       translatesAutoresizingMaskIntoConstraints := true;
       autoresizingMask := 18 |} ∧
  length (map_to_list (heap demo_start)) = 4 ∧
  length (map_to_list (heap (demo_new KContainer VNone VNone VNone))) = 6 ∧
  length (map_to_list (heap (demo_new KRootContainer VNone VNone VNone))) = 7 ∧
  length (map_to_list (heap (demo_new KNavigationContainer VNone VNone VNone))) = 8.
Proof. repeat split; vm_compute; reflexivity. Qed.

(** Assigning the string "spam" to a container that holds [demo_widget]. *)
Lemma scalar_content_is_stored_then_raises_witness :
  ∃ s',
    setattr demo_self "content" (VStr "spam") demo_container =
      (if truthy (heap demo_container) (VStr "spam")
       then Raise AttributeError s' else Ok tt s') ∧
    getattr demo_self "content" s' = Ok (VStr "spam") s' ∧
    (truth (VRef demo_widget) demo_container = Ok true demo_container →
     load_attr (VRef demo_widget) "container" s' = Ok VNone s').
Proof.
  apply (scalar_content_is_stored_then_raises demo_container demo_self KContainer
           (dict_at demo_container demo_self) (VRef demo_widget)).
  - vm_compute. reflexivity.
  - vm_compute. reflexivity.
  - right. exists demo_widget, (Foreign true), ∅. split; vm_compute; reflexivity.
  - exact I.
Defined.

Example scalar_content_values :
  setattr demo_self "content" (VStr "spam") demo_container =
    Raise AttributeError
      (state_after (setattr demo_self "content" (VStr "spam") demo_container)) ∧
  returned (getattr demo_self "content"
              (state_after (setattr demo_self "content" (VStr "spam") demo_container))) =
    Some (VStr "spam") ∧
  returned (setattr demo_self "content" (VInt 0) demo_container) = Some tt ∧
  returned (getattr demo_self "content"
              (state_after (setattr demo_self "content" (VInt 0) demo_container))) =
    Some (VInt 0).
Proof. repeat split; vm_compute; reflexivity. Qed.

Lemma false_widget_is_never_wired_witness :
  (∀ old, dict_at demo_container demo_self !! "_content" = Some old →
     widget_or_none demo_container old →
     ∃ s', setattr demo_self "content" (VRef demo_empty_widget) demo_container = Ok tt s' ∧
           getattr demo_self "content" s' = Ok (VRef demo_empty_widget) s' ∧
           heap s' !! demo_empty_widget = Some (PyObject (Foreign false) ∅)) ∧
  (dict_at demo_container demo_self !! "_content" = Some (VRef demo_empty_widget) →
   ∀ w, widget_or_none demo_container w → w ≠ VRef demo_empty_widget →
     ∃ s', setattr demo_self "content" w demo_container = Ok tt s' ∧
           getattr demo_self "content" s' = Ok w s' ∧
           heap s' !! demo_empty_widget = Some (PyObject (Foreign false) ∅)).
Proof.
  apply (false_widget_is_never_wired demo_container demo_self KContainer
           (dict_at demo_container demo_self) demo_empty_widget (Foreign false) ∅).
  - vm_compute. reflexivity.
  - vm_compute. reflexivity.
  - vm_compute. reflexivity.
Defined.

Lemma assignments_keep_objects_witness :
  dom (heap (state_after (setattr demo_self "content" (VRef demo_other_widget)
                            demo_container))) =
  dom (heap demo_container).
Proof.
  destruct assignments_keep_objects as [_ Hdom].
  apply (Hdom demo_self "content" (VRef demo_other_widget)).
  vm_compute. reflexivity.
Defined.

Lemma content_assignment_frame_witness :
  ∃ s',
    setattr demo_self "content" (VRef demo_other_widget) demo_pair = Ok tt s' ∧
    (∀ other name,
       name ∈ ["width"; "height"; "top_offset"; "title"] →
       same_read (getattr other name) demo_pair s') ∧
    (∀ other, other ≠ demo_self → same_read (getattr other "content") demo_pair s').
Proof.
  apply (content_assignment_frame demo_pair demo_self KContainer
           (dict_at demo_pair demo_self) (VRef demo_widget)).
  - vm_compute. reflexivity.
  - vm_compute. reflexivity.
  - right. exists demo_widget, (Foreign true), ∅. split; vm_compute; reflexivity.
  - right. exists demo_other_widget, (Foreign true), ∅. split; vm_compute; reflexivity.
Defined.

Lemma title_assignment_frame_witness :
  ∃ s',
    setattr demo_self "title" (VStr "Inbox") demo_navigation = Ok tt s' ∧
    ∀ other name,
      name ∈ ["content"; "width"; "height"; "top_offset"] →
      same_read (getattr other name) demo_navigation s'.
Proof.
  apply (title_assignment_frame demo_navigation demo_self KNavigationContainer
           (dict_at demo_navigation demo_self)).
  - vm_compute. discriminate.
  - vm_compute. reflexivity.
  - intros _.
    exists demo_controller, (nav_at demo_navigation demo_controller),
      demo_content_controller, (vc_at demo_navigation demo_content_controller).
    split; split; vm_compute; reflexivity.
Defined.

Lemma content_is_not_exclusive_witness :
  ∃ s1 s2,
    setattr demo_second "content" (VRef demo_widget) demo_pair = Ok tt s1 ∧
    getattr demo_self "content" s1 = Ok (VRef demo_widget) s1 ∧
    load_attr (VRef demo_widget) "container" s1 = Ok (VRef demo_second) s1 ∧
    setattr demo_self "content" VNone s1 = Ok tt s2 ∧
    getattr demo_second "content" s2 = Ok (VRef demo_widget) s2 ∧
    load_attr (VRef demo_widget) "container" s2 = Ok VNone s2.
Proof.
  apply (content_is_not_exclusive demo_pair
           demo_self KContainer (dict_at demo_pair demo_self)
           demo_second KRootContainer (dict_at demo_pair demo_second) VNone
           demo_widget ∅).
  - discriminate.
  - vm_compute. reflexivity.
  - vm_compute. reflexivity.
  - vm_compute. reflexivity.
  - vm_compute. reflexivity.
  - by left.
  - vm_compute. reflexivity.
Defined.

Lemma content_and_title_assignments_commute_witness :
  ∃ s1 s2 s3,
    setattr demo_self "content" (VRef demo_widget) demo_navigation = Ok tt s1 ∧
    setattr demo_self "title" (VStr "Inbox") s1 = Ok tt s3 ∧
    setattr demo_self "title" (VStr "Inbox") demo_navigation = Ok tt s2 ∧
    setattr demo_self "content" (VRef demo_widget) s2 = Ok tt s3.
Proof.
  apply (content_and_title_assignments_commute demo_navigation demo_self
           KNavigationContainer (dict_at demo_navigation demo_self) VNone).
  - vm_compute. discriminate.
  - vm_compute. reflexivity.
  - vm_compute. reflexivity.
  - by left.
  - right. exists demo_widget, (Foreign true), ∅. split; vm_compute; reflexivity.
  - intros _.
    exists demo_controller, (nav_at demo_navigation demo_controller),
      demo_content_controller, (vc_at demo_navigation demo_content_controller).
    split; split; vm_compute; reflexivity.
Defined.
